(** * finance_ai: the transaction-to-insight analytics pipeline

    A shallow embedding of the Python package [finance_ai]
    (config.py, preprocessing.py, feature_engineering.py, data_quality.py,
    forecasting.py, insights.py) and the properties of its specification.

    Modelling conventions.
    - A pandas DataFrame is a list of row records, in row order.  The
      configured column names are taken to differ from each other and from
      the names of the derived columns, except that the amount column may
      be "amount" itself, as it is by default.  A loaded table holds the
      configured date, description and amount columns and [source_file];
      further columns of a statement file are not modelled.
    - A float is a rational ([Q]) or NaN ([pyfloat]); rounding and
      infinities are not modelled.  An amount may be missing (NaN), and so
      may whatever pandas computes from nothing (the mean of an empty
      series, a rolling window without an observation, a label missing from
      a reindex).  Sums are exact, so no property below equates sums that
      group or order the same numbers differently.
    - A timestamp is the number of nanoseconds since 1970-01-01T00:00 ([Z]),
      the representation of [pandas.Timestamp].
    - Strings are [string]; [str.lower] is modelled on ASCII letters.
    - The fitted models of scikit-learn and statsmodels are parameters. *)

From Stdlib Require Import ZArith QArith Qabs Lia List Bool String Ascii.
From Stdlib Require Import Permutation Sorted.
Import ListNotations.

(** ** Python values *)

Module Py.

(** A float that may be NaN. *)
Inductive pyfloat : Type :=
| Fin (q : Q)
| NaN.

(** Truth value of a float: zero is false; NaN is true. *)
Definition truthy (x : pyfloat) : bool :=
  match x with
  | Fin q => negb (Qeq_bool q 0%Q)
  | NaN => true
  end.

(** [x or y] on floats. *)
Definition por (x y : pyfloat) : pyfloat := if truthy x then x else y.

(** Unary minus. *)
Definition fneg (x : pyfloat) : pyfloat :=
  match x with
  | Fin q => Fin (- q)
  | NaN => NaN
  end.

(** [abs(x)]. *)
Definition fabs (x : pyfloat) : pyfloat :=
  match x with
  | Fin q => Fin (Qabs q)
  | NaN => NaN
  end.

(** [x.isna()]. *)
Definition isna (x : pyfloat) : bool :=
  match x with
  | Fin _ => false
  | NaN => true
  end.

(** [Series.fillna(v)] on one value. *)
Definition fillna (v : Q) (x : pyfloat) : Q :=
  match x with
  | Fin q => q
  | NaN => v
  end.

Definition Qltb (x y : Q) : bool := negb (Qle_bool y x).

(** [x < y] on floats: a comparison with NaN is false. *)
Definition flt (x : pyfloat) (y : Q) : bool :=
  match x with
  | Fin q => Qltb q y
  | NaN => false
  end.

(** The sum of numbers: the empty sum is 0. *)
Definition Qsum (l : list Q) : Q := fold_left Qplus l 0%Q.

(** The observations of a series: its values other than NaN. *)
Fixpoint dropna (l : list pyfloat) : list Q :=
  match l with
  | [] => []
  | Fin q :: l' => q :: dropna l'
  | NaN :: l' => dropna l'
  end.

(** [Series.sum()]: NaN counts as 0. *)
Definition nansum (l : list pyfloat) : Q := Qsum (map (fillna 0%Q) l).

(** The mean of numbers; [Series.mean()] is the mean of the observations,
    [mean (dropna l)]: NaN when there is none. *)
Definition mean (l : list Q) : pyfloat :=
  match l with
  | [] => NaN
  | _ => Fin (Qsum l / inject_Z (Z.of_nat (List.length l)))
  end.

(** Equality of floats up to the representation of the rational. *)
Definition feq (x y : pyfloat) : Prop :=
  match x, y with
  | Fin a, Fin b => (a == b)%Q
  | NaN, NaN => True
  | _, _ => False
  end.

(** The outcome of a call that may raise: the value returned, or the
    message of the exception. *)
Inductive result (A : Type) : Type :=
| Ok (a : A)
| Raise (exc : string).

Arguments Ok {A} a.
Arguments Raise {A} exc.

Definition bind {A B : Type} (r : result A) (k : A -> result B) : result B :=
  match r with
  | Ok a => k a
  | Raise exc => Raise exc
  end.

(** [str.lower()] on ASCII. *)
Definition lower_ascii (c : ascii) : ascii :=
  let n := nat_of_ascii c in
  if (Nat.leb 65 n && Nat.leb n 90)%bool then ascii_of_nat (n + 32) else c.

Fixpoint lower (s : string) : string :=
  match s with
  | EmptyString => EmptyString
  | String c s' => String (lower_ascii c) (lower s')
  end.

(** [k in s]: substring test. *)
Fixpoint contains (k s : string) : bool :=
  match s with
  | EmptyString => prefix k EmptyString
  | String _ s' => (prefix k s || contains k s')%bool
  end.

(** [any(k in s for k in keywords)]. *)
Definition any_in (keywords : list string) (s : string) : bool :=
  existsb (fun k => contains k s) keywords.

End Py.
Export Py.

(** ** config.py *)

Record AnomalyConfig : Type := {
  contamination : Q;
  random_state : Z;
  feature_columns : list string
}.

(** [gamma: float | Literal["scale", "auto"]]. *)
Inductive Gamma : Type :=
| gamma_scale
| gamma_auto
| gamma_value (g : Q).

Record QualityConfig : Type := {
  nu : Q;
  gamma : Gamma;
  score_threshold : Q;
  min_months : Z
}.

Record ForecastConfig : Type := {
  horizon_months : Z;
  seasonal_periods : Z;
  damped_trend : bool
}.

(** [category_keywords] is a dict iterated in insertion order: an
    association list. *)
Record FinanceAIConfig : Type := {
  currency : string;
  date_column : string;
  description_column : string;
  amount_column : string;
  income_keywords : list string;
  refund_keywords : list string;
  subscription_keywords : list string;
  category_keywords : list (string * list string);
  anomaly : AnomalyConfig;
  quality : QualityConfig;
  forecast : ForecastConfig
}.

Open Scope string_scope.
Open Scope list_scope.

Definition default_anomaly : AnomalyConfig := {|
  contamination := 5 # 100;
  random_state := 42;
  feature_columns :=
    ["amount"; "abs_amount"; "rolling_7d_spend"; "rolling_30d_spend";
     "day_of_week"; "is_weekend"; "hour"]
|}.

Definition default_quality : QualityConfig := {|
  nu := 5 # 100;
  gamma := gamma_scale;
  score_threshold := - (5 # 100);
  min_months := 4
|}.

Definition default_forecast : ForecastConfig := {|
  horizon_months := 6;
  seasonal_periods := 12;
  damped_trend := true
|}.

Definition default_category_keywords : list (string * list string) :=
  [ ("Alimentacao",
      ["yakide"; "dominos"; "subway"; "pizz"; "pizzaria"; "rest";
       "restaurante"; "ifood"; "ubereats"; "rapi"; "padaria"; "cafe";
       "cafeteria"; "bistro"; "lanch"; "lanche"; "mercado"; "quiosque";
       "sushi"; "burger"; "fast food"; "zona sul"; "mate"]);
    ("Supermercado",
      ["supermercado"; "hiper"; "mercadopago"; "mercado livre"; "bahamas";
       "pao de acucar"; "atacadao"; "assai"; "carrefour"; "guanabara";
       "ultra"; "casa do biscoito"]);
    ("Transporte",
      ["uber"; "99"; "cabify"; "nupay"; "clickbus"; "rodoviaria";
       "passagem"; "passagens"; "bilhete"; "metro"; "bus"; "trip";
       "pedagio"; "estacionamento"; "locadora"]);
    ("Combustivel",
      ["posto"; "ipiranga"; "shell"; "petrobras"; "combust"; "gasolina";
       "diesel"; "alcool"]);
    ("Habitacao",
      ["aluguel"; "condominio"; "imobili"; "energia"; "luz"; "agua"; "gas";
       "materiais"; "construcao"; "manutencao"; "ferramenta"]);
    ("Telecom",
      ["internet"; "banda larga"; "fibra"; "telefon"; "celular"; "claro";
       "vivo"; "tim"; "oi"; "net"; "sky"]);
    ("Saude",
      ["farm"; "drog"; "clin"; "med"; "hospital"; "laboratorio"; "odonto";
       "dental"]);
    ("Educacao",
      ["curso"; "livro"; "escola"; "faculdade"; "univers"; "idioma";
       "catarse"]);
    ("Servicos",
      ["cassiano"; "vivian"; "serv"; "consult"; "pagamento"; "okto";
       "assessoria"; "assistencia"; "contab"; "agencia"; "manutencao"]);
    ("Entretenimento",
      ["cinema"; "teatro"; "show"; "evento"; "ingresso"; "netflix";
       "spotify"; "prime video"; "disney"; "hbo"; "game"; "playstation";
       "xbox"; "steam"; "cinemark"]);
    ("Lazer",
      ["jfk"; "taverna"; "pub"; "bar"; "parque"; "club"; "piscina"; "spa";
       "esporte"]);
    ("Compras",
      ["shopping"; "loja"; "varejo"; "magalu"; "americanas"; "casas bahia";
       "shopee"; "shein"; "centauro"; "fast shop"; "decathlon";
       "riachuelo"]);
    ("Beleza",
      ["salon"; "beleza"; "cosmet"; "perfum"; "sephora"; "barbearia";
       "estetica"]);
    ("Pets", ["petz"; "petlove"; "pet shop"; "agropecu"; "zoon"]);
    ("Transferencias",
      ["pix"; "transferencia"; "transfer"; "ted"; "doc"; "envio"; "enviar";
       "cash out"; "picpay"; "wise"; "remessa"]);
    ("Investimentos",
      ["invest"; "tesouro"; "bolsa"; "acoes"; "fundos"; "cdb"; "lci"; "lca";
       "xp"; "rico"; "modal"; "corretora"]);
    ("Tecnologia",
      ["microsoft"; "google"; "apple"; "amazon digital"; "openai";
       "hardware"; "software"; "eletron"; "gad"]);
    ("Financeiro",
      ["juros"; "encerramento"; "imposto"; "iof"; "tarifa"; "taxa";
       "anuidade"; "banco"]);
    ("ImpostosETaxas", ["iptu"; "ipva"; "darf"; "licenc"]);
    ("Seguros",
      ["seguro"; "porto seguro"; "bradesco seguros"; "sulamerica";
       "mapfre"]);
    ("Viagem",
      ["airbnb"; "hotel"; "ticket"; "passagens"; "viagem"; "booking";
       "decolar"; "maxmilhas"]);
    ("Outros", []) ].

(** [FinanceAIConfig()] with every field at its default. *)
Definition default_config : FinanceAIConfig := {|
  currency := "BRL";
  date_column := "date";
  description_column := "title";
  amount_column := "amount";
  income_keywords :=
    ["pagamento recebido"; "recebido"; "transferencia"; "salary";
     "deposito"; "estorno"];
  refund_keywords := ["estorno"; "chargeback"; "reversal"; "refund"];
  subscription_keywords :=
    ["spotify"; "netflix"; "microsoft"; "apple"; "amazon"; "google";
     "openai"; "nuv"];
  category_keywords := default_category_keywords;
  anomaly := default_anomaly;
  quality := default_quality;
  forecast := default_forecast
|}.

(** [FinanceAIConfig.category_for_description]: first category, in dict
    order, one of whose keywords occurs in the lowered description. *)
Fixpoint first_category (rules : list (string * list string))
    (description_lower : string) : string :=
  match rules with
  | [] => "Outros"
  | (category, keywords) :: rest =>
      if any_in keywords description_lower then category
      else first_category rest description_lower
  end.

Definition category_for_description (cfg : FinanceAIConfig)
    (description : string) : string :=
  first_category (category_keywords cfg) (lower description).

(** [FinanceAIConfig.is_income]. *)
Definition is_income (cfg : FinanceAIConfig) (description : string)
    (amount : pyfloat) : bool :=
  if flt amount 0%Q then true
  else any_in (income_keywords cfg) (lower description).

(** [FinanceAIConfig.is_refund]. *)
Definition is_refund (cfg : FinanceAIConfig) (description : string)
    (amount : pyfloat) : bool :=
  if flt amount 0%Q then true
  else any_in (refund_keywords cfg) (lower description).

(** [FinanceAIConfig.is_subscription]. *)
Definition is_subscription (cfg : FinanceAIConfig) (description : string)
    : bool :=
  any_in (subscription_keywords cfg) (lower description).

(** ** preprocessing.py: classification *)

(** [_classify_transaction]: the type label and the signed amount.  The
    amount may be missing: [abs(nan)] is NaN and [nan < 0] is false. *)
Definition _classify_transaction (description : string) (amount : pyfloat)
    (config : FinanceAIConfig) : string * pyfloat :=
  let abs_amount := fabs amount in
  if is_income config description amount then ("income", abs_amount)
  else if is_refund config description amount then ("refund", abs_amount)
  else ("expense", fneg abs_amount).

(** ** Calendar arithmetic of [pandas.Timestamp] *)

Module Calendar.

Local Open Scope Z_scope.

Definition ns_per_hour : Z := 3600000000000.
Definition ns_per_day : Z := 86400000000000.

(** Day number of a timestamp: days since 1970-01-01 ([Timestamp.normalize]). *)
Definition day_of (ts : Z) : Z := ts / ns_per_day.

(** Midnight that starts a day. *)
Definition day_start (day : Z) : Z := day * ns_per_day.

(** Months are numbered from March of year 0 of the proleptic Gregorian
    calendar, so that the leap day closes a year. *)
Definition month_ordinal (day : Z) : Z :=
  let z := day + 719468 in
  let era := z / 146097 in
  let doe := z mod 146097 in
  let yoe := (doe - doe / 1460 + doe / 36524 - doe / 146096) / 365 in
  let doy := doe - (365 * yoe + yoe / 4 - yoe / 100) in
  let mp := (5 * doy + 2) / 153 in
  12 * (yoe + era * 400) + mp.

(** Day number of the first day of a month. *)
Definition month_start (o : Z) : Z :=
  let y := o / 12 in
  let mp := o mod 12 in
  365 * y + y / 4 - y / 100 + y / 400 + (153 * mp + 2) / 5 - 719468.

(** Day number of the last day of a month. *)
Definition month_end (o : Z) : Z := month_start (o + 1) - 1.

Definition month_of (ts : Z) : Z := month_ordinal (day_of ts).

(** [Timestamp.year], [Timestamp.month], [Timestamp.day]. *)
Definition year_of (ts : Z) : Z := (month_of ts + 2) / 12.
Definition month_number (ts : Z) : Z := (month_of ts + 2) mod 12 + 1.
Definition day_number (ts : Z) : Z :=
  day_of ts - month_start (month_of ts) + 1.

(** [Timestamp.dayofweek]: Monday is 0; 1970-01-01 was a Thursday. *)
Definition dayofweek (ts : Z) : Z := (day_of ts + 3) mod 7.

(** [Timestamp.hour]. *)
Definition hour_of (ts : Z) : Z := (ts mod ns_per_day) / ns_per_hour.

(** [dt.to_period("M").dt.to_timestamp()]: midnight of the first of the
    month. *)
Definition month_floor (ts : Z) : Z := day_start (month_start (month_of ts)).

(** Timestamp of a civil date and time, for writing examples. *)
Definition timestamp (y m d hh : Z) : Z :=
  let o := 12 * y + m - 3 in
  day_start (month_start o + d - 1) + hh * ns_per_hour.

End Calendar.
Export Calendar.

(** ** DataFrame operations *)

Module Frame.

Section Ops.
Context {A : Type}.

(** [sort_values(column)] on a timestamp column.  The order of rows with
    equal timestamps is not fixed by pandas: its default sort keeps them in
    input order on short tables only (numpy sorts up to 16 values by
    insertion).  Here they keep their input order; a property that reads
    the order of rows is stated for tables with distinct timestamps. *)
Fixpoint insert_by (key : A -> Z) (x : A) (l : list A) : list A :=
  match l with
  | [] => [x]
  | y :: l' => if (key x <=? key y)%Z then x :: l else y :: insert_by key x l'
  end.

Definition sort_values (key : A -> Z) (l : list A) : list A :=
  fold_right (insert_by key) [] l.

(** [Series.cumsum()], started from [acc]: a missing value stays missing
    and is left out of the sums that follow. *)
Fixpoint cumsum_from (acc : Q) (l : list pyfloat) : list pyfloat :=
  match l with
  | [] => []
  | Fin x :: l' => Fin (acc + x)%Q :: cumsum_from (acc + x)%Q l'
  | NaN :: l' => NaN :: cumsum_from acc l'
  end.

Definition cumsum (l : list pyfloat) : list pyfloat := cumsum_from 0%Q l.

(** Distinct keys of a column, ascending: the group labels of
    [groupby(column)] (groupby sorts its keys). *)
Fixpoint insert_key (k : Z) (l : list Z) : list Z :=
  match l with
  | [] => [k]
  | y :: l' =>
      if (k <? y)%Z then k :: l
      else if (k =? y)%Z then l
      else y :: insert_key k l'
  end.

Definition group_keys (key : A -> Z) (l : list A) : list Z :=
  fold_right (fun r acc => insert_key (key r) acc) [] l.

(** Rows of one group, in row order. *)
Definition group_rows (key : A -> Z) (k : Z) (l : list A) : list A :=
  filter (fun r => (key r =? k)%Z) l.

(** [groupby(column)]: the groups in ascending key order. *)
Definition groupby (key : A -> Z) (l : list A) : list (Z * list A) :=
  map (fun k => (k, group_rows key k l)) (group_keys key l).

End Ops.

End Frame.
Export Frame.

(** ** preprocessing.py *)

(** A row of the raw table: [date] is [None] where [pd.to_datetime(...,
    errors="coerce")] yields NaT, [title] is [None] where it is null, the
    amount is NaN where it is missing. *)
Record RawRow : Type := {
  raw_date : option Z;
  raw_title : option string;
  raw_amount : pyfloat;
  source_file : string
}.

(** A row of the processed table.  [amount] is the column named "amount";
    [configured_amount] is the column named by [cfg.amount_column] as it was
    loaded, which is the same column under the default configuration;
    [source] is the column "source_file". *)
Record Transaction : Type := {
  date : Z;
  title : string;
  configured_amount : pyfloat;
  source : string;
  transaction_type : string;
  amount : pyfloat;
  category : string;
  subscription : bool;
  abs_amount : pyfloat;
  day_of_week : Z;
  is_weekend : Z;
  date_only : Z;
  month : Z;
  year : Z;
  hour : Z;
  merchant_clean : string;
  running_balance : pyfloat
}.

(** [df[cfg.amount_column]] on a processed row. *)
Definition amount_of (cfg : FinanceAIConfig) (r : Transaction) : pyfloat :=
  if String.eqb (amount_column cfg) "amount" then amount r
  else configured_amount r.

(** [str.replace(r"[^a-zA-Z0-9 ]", "", regex=True).str.strip()]. *)
Definition keep_char (c : ascii) : bool :=
  let n := nat_of_ascii c in
  ((Nat.leb 97 n && Nat.leb n 122) || (Nat.leb 65 n && Nat.leb n 90)
   || (Nat.leb 48 n && Nat.leb n 57) || Nat.eqb n 32)%bool.

Fixpoint keep_chars (s : string) : string :=
  match s with
  | EmptyString => EmptyString
  | String c s' =>
      if keep_char c then String c (keep_chars s') else keep_chars s'
  end.

Fixpoint lstrip (s : string) : string :=
  match s with
  | String " " s' => lstrip s'
  | _ => s
  end.

Fixpoint rstrip (s : string) : string :=
  match s with
  | EmptyString => EmptyString
  | String c s' =>
      match rstrip s' with
      | EmptyString => if Ascii.eqb c " " then EmptyString
                       else String c EmptyString
      | t => String c t
      end
  end.

Definition clean_merchant (s : string) : string := rstrip (lstrip (keep_chars s)).

(** The columns [prepare_transactions] derives for one row, before the
    sort and the running balance. *)
Definition prepare_row (cfg : FinanceAIConfig) (d : Z) (description : string)
    (raw : pyfloat) (file : string) : Transaction :=
  let classification := _classify_transaction description raw cfg in
  let signed_amount := snd classification in
  let dow := dayofweek d in
  {| date := d;
     title := description;
     configured_amount := raw;
     source := file;
     transaction_type := fst classification;
     amount := signed_amount;
     category := category_for_description cfg description;
     subscription := is_subscription cfg (lower description);
     abs_amount := fabs signed_amount;
     day_of_week := dow;
     is_weekend := if ((dow =? 5) || (dow =? 6))%Z%bool then 1%Z else 0%Z;
     date_only := day_of d;
     month := month_floor d;
     year := year_of d;
     hour := hour_of d;
     merchant_clean := clean_merchant description;
     running_balance := NaN |}.

Definition with_running_balance (r : Transaction) (b : pyfloat)
    : Transaction :=
  {| date := date r;
     title := title r;
     configured_amount := configured_amount r;
     source := source r;
     transaction_type := transaction_type r;
     amount := amount r;
     category := category r;
     subscription := subscription r;
     abs_amount := abs_amount r;
     day_of_week := day_of_week r;
     is_weekend := is_weekend r;
     date_only := date_only r;
     month := month r;
     year := year r;
     hour := hour r;
     merchant_clean := merchant_clean r;
     running_balance := b |}.

(** Rows whose date parsed, with the description defaulted. *)
Fixpoint classify_rows (cfg : FinanceAIConfig) (rows : list RawRow)
    : list Transaction :=
  match rows with
  | [] => []
  | r :: rest =>
      match raw_date r with
      | None => classify_rows cfg rest
      | Some d =>
          let description :=
            match raw_title r with
            | Some t => t
            | None => "Desconhecido"
            end in
          prepare_row cfg d description (raw_amount r) (source_file r)
            :: classify_rows cfg rest
      end
  end.

(** The table [prepare_transactions] returns: the classified rows in date
    order, with the running balance. *)
Definition processed_rows (cfg : FinanceAIConfig) (dataframe : list RawRow)
    : list Transaction :=
  let df := classify_rows cfg dataframe in
  let df := sort_values date df in
  map (fun rb => with_running_balance (fst rb) (snd rb))
      (combine df (cumsum (map amount df))).

(** [prepare_transactions].  When no row keeps a date, [df.apply(...,
    axis=1, result_type="expand")] hands back the empty table as it is,
    and [classification[0]] raises. *)
Definition prepare_transactions (cfg : FinanceAIConfig) (dataframe : list RawRow)
    : result (list Transaction) :=
  match classify_rows cfg dataframe with
  | [] => Raise "KeyError: 0"
  | _ => Ok (processed_rows cfg dataframe)
  end.

(** ** Time series operations of pandas *)

Module Series.

(** A series indexed by timestamps, in index order. *)
Definition series (V : Type) : Type := list (Z * V).

(** Rows of [seen] inside the window [(t - window, t]]. *)
Definition in_window (window t : Z) (e : Z * pyfloat) : bool :=
  (t - window <? fst e)%Z.

(** The sum of a window with [min_periods=1]: NaN when the window holds
    no observation, which is when every value in it is missing. *)
Definition window_sum (w : list pyfloat) : pyfloat :=
  match dropna w with
  | [] => NaN
  | _ => Fin (nansum w)
  end.

(** [rolling(offset, min_periods=1).sum()] on an ascending index: the
    window of a row holds the rows at or before its position whose index
    is later than [t - window]. *)
Fixpoint rolling_sum_from (window : Z) (seen : series pyfloat)
    (s : series pyfloat) : list pyfloat :=
  match s with
  | [] => []
  | e :: rest =>
      let seen' := seen ++ [e] in
      window_sum (map snd (filter (in_window window (fst e)) seen'))
        :: rolling_sum_from window seen' rest
  end.

Definition rolling_sum (window : Z) (s : series pyfloat) : list pyfloat :=
  rolling_sum_from window [] s.

(** First and last index of an ascending series. *)
Definition first_index {V : Type} (s : series V) : option Z :=
  match s with
  | [] => None
  | e :: _ => Some (fst e)
  end.

Definition last_index {V : Type} (s : series V) : option Z :=
  match s with
  | [] => None
  | e :: rest => Some (fst (last rest e))
  end.

(** Consecutive integers [first, first + 1, ..., last]. *)
Definition zrange (first last : Z) : list Z :=
  map (fun k => (first + Z.of_nat k)%Z) (seq 0 (Z.to_nat (last - first + 1))).

(** Sum of the rows that fall in the bin [b] of [bin_of]. *)
Definition bin_sum (bin_of : Z -> Z) (b : Z) (s : series pyfloat) : Q :=
  nansum (map snd (filter (fun e => (bin_of (fst e) =? b)%Z) s)).

(** [resample(freq).sum()] on an ascending index: one row for every bin
    from the bin of the first row to the bin of the last one, a bin
    without an observation summing to 0. *)
Definition resample_sum (bin_of label_of : Z -> Z) (s : series pyfloat)
    : series Q :=
  match first_index s, last_index s with
  | Some t0, Some t1 =>
      map (fun b => (label_of b, bin_sum bin_of b s))
          (zrange (bin_of t0) (bin_of t1))
  | _, _ => []
  end.

(** [resample("D")]: calendar days, labelled by their midnight. *)
Definition resample_D (s : series pyfloat) : series Q :=
  resample_sum day_of day_start s.

(** [resample("M")]: calendar months, labelled by the midnight that starts
    their last day. *)
Definition resample_M (s : series pyfloat) : series Q :=
  resample_sum month_of (fun o => day_start (month_end o)) s.

(** The fixed window of [n] positions that ends at position [i]. *)
Definition window_at (n : nat) (l : list Q) (i : nat) : list Q :=
  skipn (i + 1 - n) (firstn (i + 1) l).

(** Population variance ([ddof=0]) of a non-empty window. *)
Definition variance (w : list Q) : Q :=
  let n := inject_Z (Z.of_nat (List.length w)) in
  let m := (Qsum w / n)%Q in
  (Qsum (map (fun x => (x - m) * (x - m)) w) / n)%Q.

(** [reindex(index, method="ffill")] at one timestamp: the value at the
    last label not after [t]; NaN when there is none. *)
Fixpoint ffill_from (acc : pyfloat) (s : series pyfloat) (t : Z) : pyfloat :=
  match s with
  | [] => acc
  | e :: rest => if (fst e <=? t)%Z then ffill_from (snd e) rest t else acc
  end.

Definition reindex_ffill (s : series pyfloat) (t : Z) : pyfloat :=
  ffill_from NaN s t.

Definition to_float (s : series Q) : series pyfloat :=
  map (fun e => (fst e, Fin (snd e))) s.

End Series.
Export Series.

(** ** feature_engineering.py, anomaly_detection.py, data_quality.py,
       forecasting.py, insights.py, pipeline.py *)

Record FeatureRow : Type := {
  txn : Transaction;
  rolling_7d_spend : pyfloat;
  rolling_30d_spend : pyfloat;
  rolling_90d_spend : pyfloat;
  rolling_7d_income : pyfloat;
  rolling_30d_income : pyfloat;
  daily_spend_zscore : Q;
  month_total_expense : pyfloat;
  month_total_income : pyfloat
}.

(** The feature columns alone. *)
Definition feature_values (r : FeatureRow)
    : pyfloat * pyfloat * pyfloat * pyfloat * pyfloat * Q * pyfloat
      * pyfloat :=
  (rolling_7d_spend r, rolling_30d_spend r, rolling_90d_spend r,
   rolling_7d_income r, rolling_30d_income r, daily_spend_zscore r,
   month_total_expense r, month_total_income r).

Section Models.

(** [numpy.sqrt] on rationals.  It is only applied to a variance that is
    not zero. *)
Variable fsqrt : Q -> Q.

(** [rolling(window=n, min_periods=m)] statistics of the value at position
    [i] of [l]. *)
Definition rolling_mean (n m : nat) (l : list Q) (i : nat) : pyfloat :=
  let w := window_at n l i in
  if (List.length w <? m)%nat then NaN else mean w.

Definition rolling_std (n m : nat) (l : list Q) (i : nat) : pyfloat :=
  let w := window_at n l i in
  if (List.length w <? m)%nat then NaN
  else if Qeq_bool (variance w) 0 then Fin 0%Q
  else Fin (fsqrt (variance w)).

(** [(x - mean) / std]; a zero deviation means that every value of the
    window is the mean, and 0/0 is NaN. *)
Definition zscore_value (x : Q) (m sd : pyfloat) : pyfloat :=
  match m, sd with
  | Fin m, Fin sd => if Qeq_bool sd 0%Q then NaN else Fin ((x - m) / sd)
  | _, _ => NaN
  end.

(** The daily z-score series of an expense series. *)
Definition daily_zscore (expenses : series pyfloat) : series pyfloat :=
  let daily_expenses := resample_D expenses in
  let values := map snd daily_expenses in
  map (fun ie =>
         let i := fst ie in
         let e := snd ie in
         (fst e,
          zscore_value (snd e) (rolling_mean 30 7 values i)
                       (rolling_std 30 7 values i)))
      (combine (seq 0 (List.length daily_expenses)) daily_expenses).

(** [engineer_features]. *)
Definition engineer_features (dataframe : list Transaction) : list FeatureRow :=
  let df := sort_values date dataframe in
  let expenses : series pyfloat :=
    map (fun r => (date r,
                   if String.eqb (transaction_type r) "expense"
                   then amount r else Fin 0%Q)) df in
  let incomes : series pyfloat :=
    map (fun r => (date r,
                   if String.eqb (transaction_type r) "expense"
                   then Fin 0%Q else amount r)) df in
  let r7s := rolling_sum (7 * ns_per_day) expenses in
  let r30s := rolling_sum (30 * ns_per_day) expenses in
  let r90s := rolling_sum (90 * ns_per_day) expenses in
  let r7i := rolling_sum (7 * ns_per_day) incomes in
  let r30i := rolling_sum (30 * ns_per_day) incomes in
  let zscore := daily_zscore expenses in
  let monthly_expense := to_float (resample_M expenses) in
  let monthly_income := to_float (resample_M incomes) in
  map (fun x =>
         match x with
         | (r, (a, (b, (c, (d, e))))) =>
             {| txn := r;
                rolling_7d_spend := a;
                rolling_30d_spend := b;
                rolling_90d_spend := c;
                rolling_7d_income := d;
                rolling_30d_income := e;
                daily_spend_zscore := fillna 0%Q (reindex_ffill zscore (date r));
                month_total_expense := reindex_ffill monthly_expense (date r);
                month_total_income := reindex_ffill monthly_income (date r) |}
         end)
      (combine df (combine r7s (combine r30s (combine r90s (combine r7i r30i))))).

(** *** anomaly_detection.py *)

(** A value of a table column. *)
Inductive cell : Type :=
| float_cell (x : pyfloat)
| int_cell (z : Z)
| bool_cell (b : bool)
| text_cell (s : string)
| time_cell (t : Z)
| day_cell (d : Z).

Record ScoredRow : Type := {
  features : FeatureRow;
  anomaly_score : Q;
  is_anomaly : bool
}.

(** [IsolationForest(contamination, random_state)] fitted on a matrix:
    the label ([-1] for an outlier) and the decision score it gives to a
    row of that matrix. *)
Variable isolation_forest_label :
  AnomalyConfig -> list (list cell) -> list cell -> Z.
Variable isolation_forest_score :
  AnomalyConfig -> list (list cell) -> list cell -> Q.

(** A column of the feature table by name: the derived columns, then the
    loaded ones under their configured names; [None] for a name the table
    does not have. *)
Definition column (cfg : FinanceAIConfig) (name : string) (r : FeatureRow)
    : option cell :=
  let t := txn r in
  if String.eqb name "transaction_type" then
    Some (text_cell (transaction_type t))
  else if String.eqb name "amount" then Some (float_cell (amount t))
  else if String.eqb name "category" then Some (text_cell (category t))
  else if String.eqb name "is_subscription" then
    Some (bool_cell (subscription t))
  else if String.eqb name "abs_amount" then Some (float_cell (abs_amount t))
  else if String.eqb name "day_of_week" then Some (int_cell (day_of_week t))
  else if String.eqb name "is_weekend" then Some (int_cell (is_weekend t))
  else if String.eqb name "date_only" then Some (day_cell (date_only t))
  else if String.eqb name "month" then Some (time_cell (month t))
  else if String.eqb name "year" then Some (int_cell (year t))
  else if String.eqb name "hour" then Some (int_cell (hour t))
  else if String.eqb name "merchant_clean" then
    Some (text_cell (merchant_clean t))
  else if String.eqb name "running_balance" then
    Some (float_cell (running_balance t))
  else if String.eqb name "rolling_7d_spend" then
    Some (float_cell (rolling_7d_spend r))
  else if String.eqb name "rolling_30d_spend" then
    Some (float_cell (rolling_30d_spend r))
  else if String.eqb name "rolling_90d_spend" then
    Some (float_cell (rolling_90d_spend r))
  else if String.eqb name "rolling_7d_income" then
    Some (float_cell (rolling_7d_income r))
  else if String.eqb name "rolling_30d_income" then
    Some (float_cell (rolling_30d_income r))
  else if String.eqb name "daily_spend_zscore" then
    Some (float_cell (Fin (daily_spend_zscore r)))
  else if String.eqb name "month_total_expense" then
    Some (float_cell (month_total_expense r))
  else if String.eqb name "month_total_income" then
    Some (float_cell (month_total_income r))
  else if String.eqb name (date_column cfg) then Some (time_cell (date t))
  else if String.eqb name (description_column cfg) then
    Some (text_cell (title t))
  else if String.eqb name (amount_column cfg) then
    Some (float_cell (configured_amount t))
  else if String.eqb name "source_file" then Some (text_cell (source t))
  else None.

(** [fillna(v)] on one value of a table. *)
Definition fillna_cell (v : Q) (c : cell) : cell :=
  match c with
  | float_cell NaN => float_cell (Fin v)
  | _ => c
  end.

(** [TransactionAnomalyDetector._build_feature_matrix]:
    [reindex(columns=...)] creates a column of NaN for a name the table
    does not have. *)
Definition _build_feature_matrix (cfg : FinanceAIConfig)
    (dataframe : list FeatureRow) : list (list cell) :=
  map (fun r =>
         map (fun c =>
                fillna_cell 0%Q
                  match column cfg c r with
                  | Some v => v
                  | None => float_cell NaN
                  end)
             (feature_columns (anomaly cfg)))
      dataframe.

(** [detect_anomalies]. *)
Definition detect_anomalies (cfg : FinanceAIConfig)
    (dataframe : list FeatureRow) : list ScoredRow :=
  let feature_matrix := _build_feature_matrix cfg dataframe in
  map (fun rx =>
         {| features := fst rx;
            anomaly_score :=
              isolation_forest_score (anomaly cfg) feature_matrix (snd rx);
            is_anomaly :=
              (isolation_forest_label (anomaly cfg) feature_matrix (snd rx)
               =? -1)%Z |})
      (combine dataframe feature_matrix).

(** *** data_quality.py *)

Record MonthlyFeatures : Type := {
  summary_month : Z;
  total_transactions : Z;
  expense_sum : Q;
  income_sum : Q;
  avg_expense : Q;
  std_expense : Q;
  avg_income : Q;
  std_income : Q;
  avg_abs_amount : Q;
  std_abs_amount : Q;
  weekend_ratio : Q;
  subscription_ratio : Q;
  refund_ratio : Q;
  anomaly_ratio : Q;
  missing_amount_ratio : Q;
  largest_expense : Q;
  net_cashflow : Q;
  expense_per_transaction : Q;
  income_per_transaction : Q
}.

Record SummaryRow : Type := {
  monthly : MonthlyFeatures;
  quality_score : pyfloat;
  quality_flag : bool
}.

Record DataQualityResult : Type := {
  monthly_summary : list SummaryRow;
  (** The fitted pipeline, known by the matrix it was fitted on. *)
  model : option (list MonthlyFeatures);
  feature_names : list string;
  threshold : Q
}.

(** [Pipeline([RobustScaler(), OneClassSVM(gamma, nu)])] fitted on the
    monthly matrix: its decision function at a row of that matrix. *)
Variable one_class_svm : QualityConfig -> list MonthlyFeatures -> MonthlyFeatures -> Q.

(** Sample standard deviation ([ddof=1]) of the observations: NaN under
    two of them. *)
Definition sample_std (l : list Q) : pyfloat :=
  match l with
  | [] | [_] => NaN
  | _ =>
      let n := inject_Z (Z.of_nat (List.length l)) in
      let m := (Qsum l / n)%Q in
      let v := (Qsum (map (fun x => (x - m) * (x - m)) l) / (n - 1))%Q in
      if Qeq_bool v 0 then Fin 0%Q else Fin (fsqrt v)
  end.

Definition Qmax (a b : Q) : Q := if Qle_bool a b then b else a.

(** The largest of some numbers; [Series.max()] is the largest of the
    observations, [max_of (dropna l)]: NaN when there is none. *)
Definition max_of (l : list Q) : pyfloat :=
  match l with
  | [] => NaN
  | x :: rest => Fin (fold_left Qmax rest x)
  end.

Definition flag (b : bool) : Q := if b then 1%Q else 0%Q.

Definition expense_value (r : ScoredRow) : pyfloat :=
  let t := txn (features r) in
  if String.eqb (transaction_type t) "expense" then fneg (amount t)
  else Fin 0%Q.

Definition income_value (r : ScoredRow) : pyfloat :=
  let t := txn (features r) in
  if String.eqb (transaction_type t) "expense" then Fin 0%Q else amount t.

(** The aggregates of one month: sums count a missing value as 0, means,
    deviations and maxima are taken over the observations, and
    [fillna(0.0)] closes them. *)
Definition month_features (cfg : FinanceAIConfig) (m : Z)
    (g : list ScoredRow) : MonthlyFeatures :=
  let n := Z.of_nat (List.length g) in
  let expense_values := map expense_value g in
  let income_values := map income_value g in
  let abs_amounts := map (fun r => abs_amount (txn (features r))) g in
  let ratio (f : ScoredRow -> bool) :=
    fillna 0%Q (mean (map (fun r => flag (f r)) g)) in
  let expense_sum := nansum expense_values in
  let income_sum := nansum income_values in
  {| summary_month := m;
     total_transactions := n;
     expense_sum := expense_sum;
     income_sum := income_sum;
     avg_expense := fillna 0%Q (mean (dropna expense_values));
     std_expense := fillna 0%Q (sample_std (dropna expense_values));
     avg_income := fillna 0%Q (mean (dropna income_values));
     std_income := fillna 0%Q (sample_std (dropna income_values));
     avg_abs_amount := fillna 0%Q (mean (dropna abs_amounts));
     std_abs_amount := fillna 0%Q (sample_std (dropna abs_amounts));
     weekend_ratio :=
       fillna 0%Q
         (mean (map (fun r => inject_Z (is_weekend (txn (features r)))) g));
     subscription_ratio := ratio (fun r => subscription (txn (features r)));
     refund_ratio :=
       ratio (fun r =>
                String.eqb (transaction_type (txn (features r))) "refund");
     anomaly_ratio := ratio is_anomaly;
     missing_amount_ratio :=
       ratio (fun r => isna (amount_of cfg (txn (features r))));
     largest_expense := fillna 0%Q (max_of (dropna expense_values));
     net_cashflow := (income_sum - expense_sum)%Q;
     expense_per_transaction := (expense_sum / inject_Z (Z.max n 1))%Q;
     income_per_transaction := (income_sum / inject_Z (Z.max n 1))%Q |}.

(** [MonthlyDataQualityModel._build_monthly_features], on the table the
    pipeline hands over (every optional column present). *)
Definition _build_monthly_features (cfg : FinanceAIConfig)
    (dataframe : list ScoredRow) : list MonthlyFeatures :=
  map (fun kg => month_features cfg (fst kg) (snd kg))
      (groupby (fun r => month (txn (features r))) dataframe).

Definition aggregate_names : list string :=
  ["total_transactions"; "expense_sum"; "income_sum"; "avg_expense";
   "std_expense"; "avg_income"; "std_income"; "avg_abs_amount";
   "std_abs_amount"; "weekend_ratio"; "subscription_ratio"; "refund_ratio";
   "anomaly_ratio"; "missing_amount_ratio"; "largest_expense"].

Definition derived_names : list string :=
  ["net_cashflow"; "expense_per_transaction"; "income_per_transaction"].

(** [MonthlyDataQualityModel.score]. *)
Definition score (cfg : FinanceAIConfig) (dataframe : list ScoredRow)
    : DataQualityResult :=
  let monthly_features := _build_monthly_features cfg dataframe in
  match monthly_features with
  | [] =>
      {| monthly_summary := [];
         model := None;
         feature_names := aggregate_names;
         threshold := score_threshold (quality cfg) |}
  | _ =>
      let feature_names := aggregate_names ++ derived_names in
      let params := quality cfg in
      if (Z.of_nat (List.length monthly_features) <? min_months params)%Z then
        {| monthly_summary :=
             map (fun f => {| monthly := f;
                              quality_score := Fin 0%Q;
                              quality_flag := false |})
                 monthly_features;
           model := None;
           feature_names := feature_names;
           threshold := score_threshold params |}
      else
        {| monthly_summary :=
             map (fun f =>
                    let s := one_class_svm params monthly_features f in
                    {| monthly := f;
                       quality_score := Fin s;
                       quality_flag := Qltb s (score_threshold params) |})
                 monthly_features;
           model := Some monthly_features;
           feature_names := feature_names;
           threshold := score_threshold params |}
  end.

Definition assess_data_quality (cfg : FinanceAIConfig)
    (dataframe : list ScoredRow) : DataQualityResult :=
  score cfg dataframe.

(** *** forecasting.py *)

Record ForecastResult : Type := {
  history : series Q;
  forecast_series : series pyfloat;
  model_summary : string
}.

(** What the [try] block of [forecast_expenses] does with
    [ExponentialSmoothing]: it raises, or it yields the projection and the
    text of the fit summary. *)
Inductive HoltWinters : Type :=
| hw_raised (exc : string)
| hw_fitted (future : series pyfloat) (summary : string).

Variable exponential_smoothing : series Q -> ForecastConfig -> HoltWinters.

(** [pd.date_range(start, periods=periods, freq="M")]: month ends from the
    month of [start] on, at the time of day of [start]; no label at all
    when the number of periods is zero or negative. *)
Definition date_range_M (start periods : Z) : list Z :=
  map (fun k => (day_start (month_end (month_of start + Z.of_nat k))
                 + start mod ns_per_day)%Z)
      (seq 0 (Z.to_nat periods)).

(** [pd.Series(value, index=index)]. *)
Definition constant_series (value : pyfloat) (index : list Z) : series pyfloat :=
  map (fun i => (i, value)) index.

(** [_prepare_monthly_expenses]. *)
Definition _prepare_monthly_expenses (dataframe : list Transaction)
    (config : FinanceAIConfig) : series Q :=
  let expenses :=
    filter (fun r => String.eqb (transaction_type r) "expense") dataframe in
  map (fun kg => (fst kg, (- nansum (map (amount_of config) (snd kg)))%Q))
      (groupby month expenses).

(** [forecast_expenses]; [now] is the reading of [pd.Timestamp.utcnow()]. *)
Definition forecast_expenses (now : Z) (cfg : FinanceAIConfig)
    (dataframe : list Transaction) : ForecastResult :=
  let monthly_series := _prepare_monthly_expenses dataframe cfg in
  if (List.length monthly_series <? 3)%nat then
    let mean_value :=
      match monthly_series with
      | [] => Fin 0%Q
      | _ => mean (map snd monthly_series)
      end in
    let start :=
      match last_index monthly_series with
      | Some t => t
      | None => now
      end in
    let future_index :=
      tl (date_range_M start
            (Z.max (horizon_months (forecast cfg)) 1 + 1)) in
    {| history := monthly_series;
       forecast_series := constant_series mean_value future_index;
       model_summary := "Media simples por falta de dados." |}
  else
    match exponential_smoothing monthly_series (forecast cfg) with
    | hw_fitted future summary =>
        {| history := monthly_series;
           forecast_series := future;
           model_summary := summary |}
    | hw_raised exc =>
        let mean_value := mean (map snd monthly_series) in
        let start :=
          match last_index monthly_series with
          | Some t => t
          | None => now
          end in
        let future_index :=
          tl (date_range_M start (horizon_months (forecast cfg) + 1)) in
        {| history := monthly_series;
           forecast_series := constant_series mean_value future_index;
           model_summary :=
             String.append "Holt-Winters falhou ("
               (String.append exc "); utilizando media.") |}
    end.

(** *** insights.py *)

Record CashflowMetrics : Type := {
  total_expense : Q;
  total_income : Q;
  metrics_net_cashflow : Q;
  average_daily_spend : pyfloat
}.

(** [_cashflow_metrics]. *)
Definition _cashflow_metrics (df : list Transaction) (cfg : FinanceAIConfig)
    : CashflowMetrics :=
  let expenses :=
    filter (fun r => String.eqb (transaction_type r) "expense") df in
  let others :=
    filter (fun r => negb (String.eqb (transaction_type r) "expense")) df in
  let total_expense := (- nansum (map (amount_of cfg) expenses))%Q in
  let total_income := nansum (map (amount_of cfg) others) in
  let net_cashflow := (total_income - total_expense)%Q in
  let average_daily_spend :=
    fneg (mean (map (fun kg => nansum (map (amount_of cfg) (snd kg)))
                    (groupby date_only expenses))) in
  {| total_expense := total_expense;
     total_income := total_income;
     metrics_net_cashflow := net_cashflow;
     average_daily_spend := por average_daily_spend (Fin 0%Q) |}.

(** *** pipeline.py *)

Record AnalysisArtifacts : Type := {
  raw : list RawRow;
  processed : list Transaction;
  engineered : list FeatureRow;
  anomalies : list ScoredRow;
  quality_result : DataQualityResult;
  forecast_result : ForecastResult;
  cashflow : CashflowMetrics
}.

(** [run_analysis] on a table that is already loaded. *)
Definition run_analysis (now : Z) (cfg : FinanceAIConfig)
    (dataframe : list RawRow) : result AnalysisArtifacts :=
  bind (prepare_transactions cfg dataframe)
    (fun processed =>
       let engineered := engineer_features processed in
       let anomalies := detect_anomalies cfg engineered in
       let quality := assess_data_quality cfg anomalies in
       let scored := map (fun r => txn (features r)) anomalies in
       let forecast := forecast_expenses now cfg scored in
       Ok {| raw := dataframe;
             processed := processed;
             engineered := engineered;
             anomalies := anomalies;
             quality_result := quality;
             forecast_result := forecast;
             cashflow := _cashflow_metrics scored cfg |}).

End Models.

(** ** Vocabulary of the properties *)

(** *** Classifier *)

(** The type labels of the specification. *)
Definition transaction_types : list string := ["expense"; "income"; "refund"].

(** A negative amount; a missing one is not negative. *)
Definition negative (x : pyfloat) : Prop :=
  match x with
  | Fin q => (q < 0)%Q
  | NaN => False
  end.

(** The sign convention as the specification words it: the stored amount
    is negative exactly for an expense. *)
Definition sign_matches_type (label : string) (stored : pyfloat) : Prop :=
  negative stored <-> label = "expense".

(** The sign convention the classifier establishes for an amount that is
    a number: an expense is stored as a non-positive amount, anything else
    as a non-negative one.  A missing amount does not keep it. *)
Definition sign_convention (label : string) (stored : pyfloat) : Prop :=
  match stored with
  | Fin q =>
      In label transaction_types
      /\ (label = "expense" -> (q <= 0)%Q)
      /\ (label <> "expense" -> (0 <= q)%Q)
  | NaN => False
  end.

Definition classified (r : Transaction) : Prop :=
  sign_convention (transaction_type r) (amount r).

(** An amount that is a number other than zero. *)
Definition nonzero (x : pyfloat) : Prop :=
  match x with
  | Fin q => ~ (q == 0)%Q
  | NaN => False
  end.

(** What classification leaves in a row: one of the three labels, a
    stored amount that is missing exactly when the loaded one is, and the
    sign convention when it is not. *)
Definition well_typed (r : Transaction) : Prop :=
  In (transaction_type r) transaction_types
  /\ isna (amount r) = isna (configured_amount r)
  /\ (isna (amount r) = false -> classified r).

(** *** Forecaster, Quality Assessor, Insight Composer *)

(** Rows typed expense, and the distinct months they fall in. *)
Definition expense_rows (df : list Transaction) : list Transaction :=
  filter (fun r => String.eqb (transaction_type r) "expense") df.

Definition expense_months (df : list Transaction) : list Z :=
  group_keys month (expense_rows df).

(** The distinct calendar months of a scored table. *)
Definition calendar_months (df : list ScoredRow) : list Z :=
  group_keys (fun r => month (txn (features r))) df.

(** Expense total of each day that has an expense. *)
Definition daily_expense_sums (df : list Transaction) (cfg : FinanceAIConfig)
    : list Q :=
  map (fun kg => nansum (map (amount_of cfg) (snd kg)))
      (groupby date_only (expense_rows df)).

(** *** Feature Engine *)

(** A row with the rolling sums attached to it. *)
Definition rolling_values (f : FeatureRow)
    : Transaction * (pyfloat * pyfloat * pyfloat * pyfloat * pyfloat) :=
  (txn f, (rolling_7d_spend f, rolling_30d_spend f, rolling_90d_spend f,
           rolling_7d_income f, rolling_30d_income f)).

(** A row with the month totals attached to it. *)
Definition month_totals (f : FeatureRow) : Transaction * pyfloat * pyfloat :=
  (txn f, month_total_expense f, month_total_income f).

(** Rows with a timestamp before [c]. *)
Definition before (c : Z) (r : Transaction) : bool := (date r <? c)%Z.

Definition upto (c : Z) (df : list Transaction) : list Transaction :=
  filter (before c) df.

(** Ascending order of a key column. *)
Definition key_le {A : Type} (key : A -> Z) (a b : A) : Prop :=
  (key a <= key b)%Z.

(** The expense and income series [engineer_features] builds from the
    sorted table, the rolling columns it attaches, and the row it
    assembles; [rolling_columns_from] continues after the observations
    already seen. *)
Definition expense_amount (r : Transaction) : pyfloat :=
  if String.eqb (transaction_type r) "expense" then amount r else Fin 0%Q.

Definition income_amount (r : Transaction) : pyfloat :=
  if String.eqb (transaction_type r) "expense" then Fin 0%Q else amount r.

Definition series_of (v : Transaction -> pyfloat) (df : list Transaction)
    : series pyfloat :=
  map (fun r => (date r, v r)) df.

Definition expense_series (df : list Transaction) : series pyfloat :=
  series_of expense_amount df.

Definition income_series (df : list Transaction) : series pyfloat :=
  series_of income_amount df.

(** The five rolling sums of a row. *)
Definition rolling_tuple : Type :=
  (pyfloat * (pyfloat * (pyfloat * (pyfloat * pyfloat))))%type.

Definition rolling_columns_from (seen_e seen_i : series pyfloat)
    (df : list Transaction) : list (Transaction * rolling_tuple) :=
  let expenses := expense_series df in
  let incomes := income_series df in
  combine df
    (combine (rolling_sum_from (7 * ns_per_day) seen_e expenses)
       (combine (rolling_sum_from (30 * ns_per_day) seen_e expenses)
          (combine (rolling_sum_from (90 * ns_per_day) seen_e expenses)
             (combine (rolling_sum_from (7 * ns_per_day) seen_i incomes)
                      (rolling_sum_from (30 * ns_per_day) seen_i incomes))))).

Definition build_row (zscore monthly_expense monthly_income : series pyfloat)
    (x : Transaction * rolling_tuple) : FeatureRow :=
  match x with
  | (r, (a, (b, (c, (d, e))))) =>
      {| txn := r;
         rolling_7d_spend := a;
         rolling_30d_spend := b;
         rolling_90d_spend := c;
         rolling_7d_income := d;
         rolling_30d_income := e;
         daily_spend_zscore := fillna 0%Q (reindex_ffill zscore (date r));
         month_total_expense := reindex_ffill monthly_expense (date r);
         month_total_income := reindex_ffill monthly_income (date r) |}
  end.

(** A forward fill at [t] does not look into a series that is empty or
    starts after [t]. *)
Definition stops {V : Type} (t : Z) (s : series V) : Prop :=
  match s with
  | [] => True
  | e :: _ => (t < fst e)%Z
  end.

(** The z-score rows of [daily_zscore] for the daily rows at positions
    [offset, offset + 1, ...] of the daily values. *)
Definition zscore_rows_from (fsqrt : Q -> Q) (values : list Q) (offset : nat)
    (rows : series Q) : series pyfloat :=
  map (fun ie =>
         (fst (snd ie),
          zscore_value (snd (snd ie))
                       (rolling_mean 30 7 values (fst ie))
                       (rolling_std fsqrt 30 7 values (fst ie))))
      (combine (seq offset (List.length rows)) rows).

(** A sorted table [(p0 :: p) ++ r] whose first part lies before the
    midnight [day_start d] and whose second part does not. *)
Record midnight_cut (d : Z) (p0 : Transaction) (p r : list Transaction)
    : Prop := {
  cut_first : forall x, In x (p0 :: p) -> (date p0 <= date x)%Z;
  cut_last : forall x, In x (p0 :: p) -> (date x <= date (last p p0))%Z;
  cut_whole : (date (last p p0) <= date (last (p ++ r) p0))%Z;
  cut_before : forall x, In x (p0 :: p) -> (day_of (date x) < d)%Z;
  cut_after : forall x, In x r -> (d <= day_of (date x))%Z
}.

(** ** Example tables *)

Definition raw_row (d : Z) (description : string) (value : Q) : RawRow :=
  {| raw_date := Some d;
     raw_title := Some description;
     raw_amount := Fin value;
     source_file := "nubank.csv" |}.

(** A row whose amount is missing, and a row whose date did not parse. *)
Definition missing_amount_row (d : Z) (description : string) : RawRow :=
  {| raw_date := Some d;
     raw_title := Some description;
     raw_amount := NaN;
     source_file := "nubank.csv" |}.

Definition undated_row (description : string) (value : Q) : RawRow :=
  {| raw_date := None;
     raw_title := Some description;
     raw_amount := Fin value;
     source_file := "nubank.csv" |}.

(** A fit that always raises. *)
Definition failing_fit (_ : series Q) (_ : ForecastConfig) : HoltWinters :=
  hw_raised "seasonal_periods exceeds the data".

(** A one-class model with a constant decision function. *)
Definition constant_svm (s : Q) (_ : QualityConfig) (_ : list MonthlyFeatures)
    (_ : MonthlyFeatures) : Q := s.

(** The default configuration with another forecast horizon. *)
Definition with_horizon (h : Z) : FinanceAIConfig :=
  {| currency := currency default_config;
     date_column := date_column default_config;
     description_column := description_column default_config;
     amount_column := amount_column default_config;
     income_keywords := income_keywords default_config;
     refund_keywords := refund_keywords default_config;
     subscription_keywords := subscription_keywords default_config;
     category_keywords := category_keywords default_config;
     anomaly := anomaly default_config;
     quality := quality default_config;
     forecast := {| horizon_months := h;
                    seasonal_periods := 12;
                    damped_trend := true |} |}.


(** Two months of purchases, and the same followed by a purchase in
    March. *)
Definition two_months : list Transaction :=
  processed_rows default_config
    [ raw_row (timestamp 2024 1 10 0) "Padaria" 30;
      raw_row (timestamp 2024 1 20 0) "Uber Trip" 10;
      raw_row (timestamp 2024 2 10 0) "Padaria" 20 ].

Definition two_months_and_march : list Transaction :=
  processed_rows default_config
    [ raw_row (timestamp 2024 1 10 0) "Padaria" 30;
      raw_row (timestamp 2024 1 20 0) "Uber Trip" 10;
      raw_row (timestamp 2024 2 10 0) "Padaria" 20;
      raw_row (timestamp 2024 3 5 12) "Netflix" 40 ].

(** A table without a purchase: one incoming payment. *)
Definition only_income : list Transaction :=
  processed_rows default_config
    [ raw_row (timestamp 2024 1 10 0) "Pagamento recebido" (-500) ].

(** Two purchases with the same timestamp. *)
Definition same_timestamp : list Transaction :=
  processed_rows default_config
    [ raw_row (timestamp 2024 1 10 0) "Padaria" 10;
      raw_row (timestamp 2024 1 10 0) "Uber Trip" 20 ].

(** One purchase at midnight of 2024-01-31, alone and followed by another
    one at 15:00 of the same day. *)
Definition month_end_morning : list Transaction :=
  processed_rows default_config
    [ raw_row (timestamp 2024 1 31 0) "Padaria" 10 ].

Definition month_end_day : list Transaction :=
  processed_rows default_config
    [ raw_row (timestamp 2024 1 31 0) "Padaria" 10;
      raw_row (timestamp 2024 1 31 15) "Uber Trip" 20 ].

(** The scored table of a run whose outlier model flags nothing. *)
Definition scored_table (df : list Transaction) : list ScoredRow :=
  detect_anomalies (fun _ _ _ => 1%Z) (fun _ _ _ => 0%Q) default_config
    (engineer_features (fun v => v) df).

(** ** insights.py: breakdown, merchants, highlights and the report *)

Module Text.

(** Group labels of [groupby] on a text column: the distinct values in
    ascending (code point) order. *)
Fixpoint insert_string (k : string) (l : list string) : list string :=
  match l with
  | [] => [k]
  | y :: l' => if String.leb k y then k :: l else y :: insert_string k l'
  end.

Definition sort_strings (l : list string) : list string :=
  fold_right insert_string [] l.

Section Ops.
Context {A : Type}.

Definition group_labels (key : A -> string) (l : list A) : list string :=
  sort_strings (nodup string_dec (map key l)).

Definition groupby_text (key : A -> string) (l : list A)
    : list (string * list A) :=
  map (fun k => (k, filter (fun r => String.eqb (key r) k) l))
      (group_labels key l).

(** [sort_values(column, ascending=False)] on a float column.  Rows with
    equal values are kept in their order here; pandas' default sort does
    not fix their place, and no property below reads it. *)
Fixpoint insert_desc (key : A -> Q) (x : A) (l : list A) : list A :=
  match l with
  | [] => [x]
  | y :: l' =>
      if Qle_bool (key y) (key x) then x :: l else y :: insert_desc key x l'
  end.

Definition sort_descending (key : A -> Q) (l : list A) : list A :=
  fold_right (insert_desc key) [] l.



End Ops.


End Text.
Export Text.

(** [_build_category_breakdown]: the columns [category] and [total]. *)
Definition _build_category_breakdown (df : list Transaction)
    : list (string * Q) :=
  let expenses :=
    filter (fun r => String.eqb (transaction_type r) "expense") df in
  sort_descending snd
    (map (fun kg => (fst kg, Qabs (nansum (map amount (snd kg)))))
         (groupby_text category expenses)).







Section Formatting.

(** [f"{x:.2f}"], [str(n)] and [strftime("%Y-%m")]. *)
Variable format_2f : pyfloat -> string.
Variable format_int : nat -> string.
Variable strftime_year_month : Z -> string.




End Formatting.

(** ** Vocabulary of the further properties *)

(** The timestamps of the raw rows whose date parsed. *)
Definition parsed_dates (rows : list RawRow) : list Z :=
  flat_map (fun r => match raw_date r with Some d => [d] | None => [] end) rows.

(** Every character of a string passes a test. *)
Fixpoint all_chars (p : ascii -> bool) (s : string) : bool :=
  match s with
  | EmptyString => true
  | String c s' => (p c && all_chars p s')%bool
  end.

(** The first and the last character of a string. *)
Definition first_char (s : string) : option ascii :=
  match s with
  | EmptyString => None
  | String c _ => Some c
  end.

Fixpoint last_char (s : string) : option ascii :=
  match s with
  | EmptyString => None
  | String c EmptyString => Some c
  | String _ s' => last_char s'
  end.

(** The expense and the income total of the calendar month [k] of a
    table, as [resample("M").sum()] computes them: the expense total is a
    sum of stored (negative) amounts. *)
Definition month_expense_total (t : list Transaction) (k : Z) : Q :=
  bin_sum month_of k (expense_series (sort_values date t)).

Definition month_income_total (t : list Transaction) (k : Z) : Q :=
  bin_sum month_of k (income_series (sort_values date t)).

Definition is_space (c : ascii) : bool := Ascii.eqb c " ".

(** The names of the columns of the feature table. *)
Definition table_columns (cfg : FinanceAIConfig) : list string :=
  [date_column cfg; description_column cfg; amount_column cfg;
   "source_file"; "transaction_type"; "amount"; "category";
   "is_subscription"; "abs_amount"; "day_of_week"; "is_weekend";
   "date_only"; "month"; "year"; "hour"; "merchant_clean";
   "running_balance"; "rolling_7d_spend"; "rolling_30d_spend";
   "rolling_90d_spend"; "rolling_7d_income"; "rolling_30d_income";
   "daily_spend_zscore"; "month_total_expense"; "month_total_income"].



(** Order of floats that are numbers. *)
Definition fle (x y : pyfloat) : Prop :=
  match x, y with
  | Fin a, Fin b => (a <= b)%Q
  | _, _ => False
  end.

(** A raw row that keeps its date, and one whose amount is a number. *)
Definition dated (r : RawRow) : bool :=
  match raw_date r with
  | Some _ => true
  | None => false
  end.

Definition has_amount (r : Transaction) : Prop := isna (amount r) = false.

(** The sum of an integer column. *)
Definition Zsum (l : list Z) : Z := fold_right Z.add 0%Z l.

(** The expense rows that carry the label [k] in a text column. *)
Definition expense_group (key : Transaction -> string) (k : string)
    (df : list Transaction) : list Transaction :=
  filter (fun r => String.eqb (key r) k) (expense_rows df).

(** A table in descending, and in ascending, order of a float column. *)
Definition descending {A : Type} (key : A -> Q) (l : list A) : Prop :=
  StronglySorted (fun x y => (key y <= key x)%Q) l.




(** * Properties *)


(** ** Lists and sums *)

Lemma Qltb_lt (x y : Q) : Qltb x y = true <-> (x < y)%Q.
Proof.
  unfold Qltb. rewrite negb_true_iff.
  destruct (Qle_bool y x) eqn:E.
  - apply Qle_bool_iff in E. split; [discriminate|].
    intros H. exfalso. exact (Qlt_not_le _ _ H E).
  - split; [|reflexivity]. intros _.
    destruct (Qlt_le_dec x y) as [H|H]; [exact H|].
    apply Qle_bool_iff in H. congruence.
Qed.

Lemma any_in_true (keywords : list string) (s k : string) :
  In k keywords -> contains k s = true -> any_in keywords s = true.
Proof.
  intros Hin Hk. unfold any_in. apply existsb_exists. exists k. auto.
Qed.

Lemma insert_by_In (A : Type) (key : A -> Z) (x y : A) (l : list A) :
  In y (insert_by key x l) <-> y = x \/ In y l.
Proof.
  induction l as [|z l IH]; simpl.
  - intuition.
  - destruct (key x <=? key z)%Z; simpl; [intuition|].
    rewrite IH. intuition.
Qed.

Lemma sort_values_In (A : Type) (key : A -> Z) (y : A) (l : list A) :
  In y (sort_values key l) <-> In y l.
Proof.
  induction l as [|x l IH]; simpl; [tauto|].
  rewrite insert_by_In, IH. intuition.
Qed.

Lemma In_map_combine (A B C : Type) (f : A * B -> C) (l : list A)
    (l' : list B) (y : C) :
  In y (map f (combine l l')) -> exists a b, In a l /\ y = f (a, b).
Proof.
  intros H. apply in_map_iff in H. destruct H as [[a b] [E H]].
  exists a, b. split; [exact (in_combine_l _ _ _ _ H)|auto].
Qed.

(** ** Sums and groups *)

Lemma Qsum_from (l : list Q) (a : Q) :
  (fold_left Qplus l a == a + Qsum l)%Q.
Proof.
  unfold Qsum. revert a. induction l as [|x l IH]; intros a; simpl.
  - ring.
  - rewrite (IH (a + x)%Q), (IH (0 + x)%Q). ring.
Qed.

Lemma Qsum_cons (x : Q) (l : list Q) : (Qsum (x :: l) == x + Qsum l)%Q.
Proof. unfold Qsum at 1. simpl. rewrite Qsum_from. ring. Qed.

Lemma Qsum_nonpos (l : list Q) :
  Forall (fun x => (x <= 0)%Q) l -> (Qsum l <= 0)%Q.
Proof.
  induction 1 as [|x l Hx _ IH]; [unfold Qsum; simpl; apply Qle_refl|].
  rewrite Qsum_cons. rewrite <- (Qplus_0_r 0).
  now apply Qplus_le_compat.
Qed.

Lemma Qsum_nonneg (l : list Q) :
  Forall (fun x => (0 <= x)%Q) l -> (0 <= Qsum l)%Q.
Proof.
  induction 1 as [|x l Hx _ IH]; [unfold Qsum; simpl; apply Qle_refl|].
  rewrite Qsum_cons. rewrite <- (Qplus_0_r 0).
  now apply Qplus_le_compat.
Qed.

Section Groups.
Context {A : Type} (key : A -> Z).

Lemma insert_key_In (k k0 : Z) (l : list Z) :
  In k (insert_key k0 l) <-> k = k0 \/ In k l.
Proof.
  induction l as [|y l IH]; simpl; [intuition|].
  destruct (k0 <? y)%Z eqn:E1; simpl; [intuition|].
  destruct (k0 =? y)%Z eqn:E2; simpl.
  - apply Z.eqb_eq in E2. subst. intuition.
  - rewrite IH. intuition.
Qed.

Lemma insert_key_sorted (k0 : Z) (l : list Z) :
  StronglySorted Z.lt l -> StronglySorted Z.lt (insert_key k0 l).
Proof.
  induction 1 as [|y l Hs IH Hy]; simpl.
  - repeat constructor.
  - destruct (k0 <? y)%Z eqn:E1.
    + apply Z.ltb_lt in E1. constructor; [constructor; assumption|].
      constructor; [exact E1|].
      eapply Forall_impl; [|exact Hy]. intros; lia.
    + destruct (k0 =? y)%Z eqn:E2; [constructor; assumption|].
      apply Z.ltb_ge in E1. apply Z.eqb_neq in E2.
      constructor; [exact IH|].
      apply Forall_forall. intros z Hz. apply insert_key_In in Hz.
      destruct Hz as [->|Hz]; [lia|].
      rewrite Forall_forall in Hy. auto.
Qed.

Lemma group_keys_sorted (l : list A) : StronglySorted Z.lt (group_keys key l).
Proof.
  induction l as [|x l IH]; simpl; [constructor|].
  now apply insert_key_sorted.
Qed.

Lemma group_keys_In (k : Z) (l : list A) :
  In k (group_keys key l) <-> exists x, In x l /\ key x = k.
Proof.
  induction l as [|x l IH]; simpl.
  - split; [tauto|]. intros [x [[] _]].
  - rewrite insert_key_In, IH. split.
    + intros [->|[y [Hy E]]]; [exists x; auto|exists y; auto].
    + intros [y [[->|Hy] E]]; [left; auto|right; exists y; auto].
Qed.

Lemma sorted_lt_NoDup (l : list Z) : StronglySorted Z.lt l -> NoDup l.
Proof.
  induction 1 as [|y l Hs IH Hy]; constructor; [|exact IH].
  intros Hin. rewrite Forall_forall in Hy. specialize (Hy y Hin). lia.
Qed.

Lemma group_keys_NoDup (l : list A) : NoDup (group_keys key l).
Proof. apply sorted_lt_NoDup, group_keys_sorted. Qed.

(** Adding a row to the table adds it to exactly one group. *)
Lemma groups_cons_perm (x : A) (l : list A) (ks : list Z) :
  NoDup ks -> In (key x) ks ->
  Permutation (x :: flat_map (fun k => group_rows key k l) ks)
              (flat_map (fun k => group_rows key k (x :: l)) ks).
Proof.
  induction ks as [|k ks IH]; intros Hnd Hin; [destruct Hin|].
  inversion Hnd as [|? ? Hk Hnd']; subst. simpl flat_map.
  unfold group_rows at 3. simpl filter.
  destruct (key x =? k)%Z eqn:E.
  - apply Z.eqb_eq in E. simpl. apply perm_skip.
    apply Permutation_app_head.
    assert (Hout : ~ In (key x) ks) by (rewrite E; exact Hk).
    clear -Hout. induction ks as [|k' ks IH]; simpl; [reflexivity|].
    unfold group_rows at 3. simpl filter.
    destruct (key x =? k')%Z eqn:E'.
    + apply Z.eqb_eq in E'. exfalso. apply Hout. now left.
    + apply Permutation_app_head. apply IH. intros H. apply Hout. now right.
  - fold (group_rows key k l).
    apply Z.eqb_neq in E. destruct Hin as [Hin|Hin]; [congruence|].
    rewrite <- (IH Hnd' Hin). apply Permutation_middle.
Qed.

Lemma groups_perm (l : list A) (ks : list Z) :
  NoDup ks -> (forall x, In x l -> In (key x) ks) ->
  Permutation l (flat_map (fun k => group_rows key k l) ks).
Proof.
  induction l as [|x l IH]; intros Hnd Hin.
  - assert (E : flat_map (fun k => group_rows key k []) ks = []).
    { clear. induction ks; simpl; auto. }
    rewrite E. constructor.
  - rewrite <- groups_cons_perm; [|exact Hnd|apply Hin; now left].
    apply perm_skip. apply IH; [exact Hnd|]. intros y Hy. apply Hin. now right.
Qed.

(** The groups of [groupby] are a rearrangement of the table. *)
Lemma groupby_perm (l : list A) :
  Permutation l (flat_map snd (groupby key l)).
Proof.
  unfold groupby. rewrite flat_map_concat_map, map_map. simpl.
  rewrite <- flat_map_concat_map. apply groups_perm.
  - apply group_keys_NoDup.
  - intros x Hx. apply group_keys_In. now exists x.
Qed.

Lemma groupby_nonempty (k : Z) (g : list A) (l : list A) :
  In (k, g) (groupby key l) -> g <> [].
Proof.
  unfold groupby. intros H. apply in_map_iff in H.
  destruct H as [k' [E Hk]]. inversion E; subst.
  apply group_keys_In in Hk. destruct Hk as [x [Hx Ex]].
  intros Hnil. assert (Hin : In x (group_rows key k l)).
  { unfold group_rows. apply filter_In. split; [exact Hx|].
    now apply Z.eqb_eq. }
  rewrite Hnil in Hin. destruct Hin.
Qed.

Lemma groupby_rows (k : Z) (g : list A) (l : list A) (x : A) :
  In (k, g) (groupby key l) -> In x g -> In x l /\ key x = k.
Proof.
  unfold groupby. intros H Hx. apply in_map_iff in H.
  destruct H as [k' [E _]]. inversion E; subst.
  unfold group_rows in Hx. apply filter_In in Hx.
  destruct Hx as [Hx Ek]. apply Z.eqb_eq in Ek. auto.
Qed.

End Groups.

(** ** Classifier *)

Lemma flt_lt (q y : Q) : flt (Fin q) y = true <-> (q < y)%Q.
Proof. apply Qltb_lt. Qed.

Lemma classify_cases (description : string) (raw : pyfloat)
    (cfg : FinanceAIConfig) :
  let r := _classify_transaction description raw cfg in
  (fst r = "income" /\ snd r = fabs raw)
  \/ (fst r = "refund" /\ snd r = fabs raw)
  \/ (fst r = "expense" /\ snd r = fneg (fabs raw)
      /\ is_income cfg description raw = false
      /\ is_refund cfg description raw = false).
Proof.
  unfold _classify_transaction.
  destruct (is_income cfg description raw); [left; auto|].
  destruct (is_refund cfg description raw); [right; left; auto|].
  right; right; auto.
Qed.

Lemma classify_label (description : string) (raw : pyfloat)
    (cfg : FinanceAIConfig) :
  In (fst (_classify_transaction description raw cfg)) transaction_types.
Proof.
  destruct (classify_cases description raw cfg) as [[E _]|[[E _]|[E _]]];
    rewrite E; unfold transaction_types; simpl; auto.
Qed.

Lemma classify_isna (description : string) (raw : pyfloat)
    (cfg : FinanceAIConfig) :
  isna (snd (_classify_transaction description raw cfg)) = isna raw.
Proof.
  destruct (classify_cases description raw cfg)
    as [[_ V]|[[_ V]|[_ [V _]]]]; rewrite V; now destruct raw.
Qed.

Lemma classify_sign_convention (description : string) (raw : Q)
    (cfg : FinanceAIConfig) :
  let r := _classify_transaction description (Fin raw) cfg in
  sign_convention (fst r) (snd r).
Proof.
  intros r. unfold transaction_types.
  destruct (classify_cases description (Fin raw) cfg)
    as [[E V]|[[E V]|[E [V _]]]];
    fold r in E, V; rewrite E, V; simpl.
  - split; [auto|]. split; [discriminate|]. intros _. apply Qabs_nonneg.
  - split; [auto|]. split; [discriminate|]. intros _. apply Qabs_nonneg.
  - split; [auto|]. split; [|congruence]. intros _.
    rewrite <- (Qopp_involutive 0). apply Qopp_le_compat. apply Qabs_nonneg.
Qed.

Lemma classify_nonzero (description : string) (raw : Q)
    (cfg : FinanceAIConfig) :
  ~ (raw == 0)%Q ->
  let r := _classify_transaction description (Fin raw) cfg in
  sign_matches_type (fst r) (snd r).
Proof.
  intros Hnz r. unfold sign_matches_type.
  assert (Hpos : (0 < Qabs raw)%Q).
  { destruct (Qlt_le_dec raw 0) as [Hn|Hp].
    - rewrite (Qabs_neg raw (Qlt_le_weak _ _ Hn)).
      rewrite <- (Qopp_involutive 0). apply Qopp_lt_compat. exact Hn.
    - rewrite (Qabs_pos raw Hp).
      destruct (Qlt_le_dec 0 raw) as [H|H]; [exact H|].
      exfalso. apply Hnz. apply Qle_antisym; assumption. }
  destruct (classify_cases description (Fin raw) cfg)
    as [[E V]|[[E V]|[E [V _]]]];
    fold r in E, V; rewrite E, V; simpl.
  - split; [|discriminate]. intros H. exfalso.
    exact (Qlt_not_le _ _ H (Qabs_nonneg raw)).
  - split; [|discriminate]. intros H. exfalso.
    exact (Qlt_not_le _ _ H (Qabs_nonneg raw)).
  - split; [reflexivity|]. intros _.
    rewrite <- (Qopp_involutive 0). apply Qopp_lt_compat. exact Hpos.
Qed.

(** A missing amount: the keywords alone decide the type. *)
Lemma classify_missing (description : string) (cfg : FinanceAIConfig) :
  let r := _classify_transaction description NaN cfg in
  fst r = "expense"
  <-> any_in (income_keywords cfg) (lower description) = false
      /\ any_in (refund_keywords cfg) (lower description) = false.
Proof.
  unfold _classify_transaction, is_income, is_refund. simpl flt. cbv iota.
  destruct (any_in (income_keywords cfg) (lower description)); simpl;
    [intuition discriminate|].
  destruct (any_in (refund_keywords cfg) (lower description)); simpl;
    intuition discriminate.
Qed.

Lemma sign_convention_nonzero (label : string) (stored : pyfloat) :
  sign_convention label stored -> nonzero stored ->
  sign_matches_type label stored.
Proof.
  destruct stored as [q|]; simpl; [|tauto].
  intros [Hin [He Ho]] Hnz. split.
  - intros Hneg. destruct (string_dec label "expense") as [E|E]; [exact E|].
    exfalso. exact (Qlt_not_le _ _ Hneg (Ho E)).
  - intros E. destruct (Qlt_le_dec q 0) as [H|H]; [exact H|].
    exfalso. apply Hnz. apply Qle_antisym; auto.
Qed.

Lemma prepare_row_well_typed (cfg : FinanceAIConfig) (d : Z)
    (description : string) (raw : pyfloat) (file : string) :
  well_typed (prepare_row cfg d description raw file).
Proof.
  unfold well_typed, classified, prepare_row.
  cbn [transaction_type amount configured_amount].
  split; [apply classify_label|]. split; [apply classify_isna|].
  rewrite classify_isna. destruct raw as [q|]; [|discriminate].
  intros _. apply classify_sign_convention.
Qed.

Lemma classify_rows_well_typed (cfg : FinanceAIConfig) (rows : list RawRow) :
  Forall well_typed (classify_rows cfg rows).
Proof.
  induction rows as [|r rows IH]; simpl; [constructor|].
  destruct (raw_date r); [|exact IH].
  constructor; [apply prepare_row_well_typed|exact IH].
Qed.

Lemma processed_rows_well_typed (cfg : FinanceAIConfig)
    (dataframe : list RawRow) :
  Forall well_typed (processed_rows cfg dataframe).
Proof.
  apply Forall_forall. intros y Hy. unfold processed_rows in Hy.
  apply In_map_combine in Hy. destruct Hy as [a [b [Ha ->]]].
  apply sort_values_In in Ha.
  pose proof (classify_rows_well_typed cfg dataframe) as H.
  rewrite Forall_forall in H. exact (H a Ha).
Qed.

(** What [prepare_transactions] returns, when it returns. *)
Lemma prepare_transactions_returns (cfg : FinanceAIConfig)
    (dataframe : list RawRow) (out : list Transaction) :
  prepare_transactions cfg dataframe = Ok out ->
  out = processed_rows cfg dataframe /\ classify_rows cfg dataframe <> [].
Proof.
  unfold prepare_transactions.
  destruct (classify_rows cfg dataframe) as [|r rs]; [discriminate|].
  intros H. split; [|discriminate].
  apply (f_equal (fun r => match r with Ok a => a | Raise _ => out end)) in H.
  now symmetry.
Qed.

Lemma classify_rows_amounts (cfg : FinanceAIConfig) (rows : list RawRow) :
  Forall (fun r => isna (raw_amount r) = false) rows ->
  Forall (fun r => isna (amount r) = false) (classify_rows cfg rows).
Proof.
  induction 1 as [|r rows Hr _ IH]; simpl; [constructor|].
  destruct (raw_date r); [|exact IH].
  constructor; [|exact IH].
  unfold prepare_row. cbn [amount]. now rewrite classify_isna.
Qed.

(** A table loaded without a missing amount keeps the sign convention in
    every processed row. *)
Lemma processed_rows_classified (cfg : FinanceAIConfig)
    (dataframe : list RawRow) :
  Forall (fun r => isna (raw_amount r) = false) dataframe ->
  Forall classified (processed_rows cfg dataframe).
Proof.
  intros Hn. apply Forall_forall. intros y Hy.
  pose proof (processed_rows_well_typed cfg dataframe) as Hw.
  rewrite Forall_forall in Hw. destruct (Hw y Hy) as [_ [_ Hc]].
  apply Hc. unfold processed_rows in Hy.
  apply In_map_combine in Hy. destruct Hy as [a [b [Ha ->]]].
  apply sort_values_In in Ha.
  pose proof (classify_rows_amounts cfg dataframe Hn) as H.
  rewrite Forall_forall in H. exact (H a Ha).
Qed.

Lemma engineer_features_txn (fsqrt : Q -> Q) (df : list Transaction)
    (r : FeatureRow) :
  In r (engineer_features fsqrt df) -> In (txn r) df.
Proof.
  unfold engineer_features. intros H.
  apply In_map_combine in H. destruct H as [a [b [Ha ->]]].
  apply sort_values_In in Ha.
  destruct b as [b1 [b2 [b3 [b4 b5]]]]. exact Ha.
Qed.

Lemma detect_anomalies_features
    (label : AnomalyConfig -> list (list cell) -> list cell -> Z)
    (score : AnomalyConfig -> list (list cell) -> list cell -> Q)
    (cfg : FinanceAIConfig) (df : list FeatureRow) (r : ScoredRow) :
  In r (detect_anomalies label score cfg df) -> In (features r) df.
Proof.
  unfold detect_anomalies. intros H.
  apply In_map_combine in H. destruct H as [a [b [Ha ->]]]. exact Ha.
Qed.

(** Claim C1, as the code has it.  The classifier yields one of the three
    type labels for every amount.  For an amount that is a number it stores
    an expense as [- |amount|] (never positive) and an income or a refund
    as [|amount|] (never negative), so that for an amount other than zero
    the stored amount is negative exactly when the type is expense.  For a
    missing amount it stores a missing amount, which is not negative, and
    the keywords alone decide the type: expense when neither an income nor
    a refund keyword occurs.  Every row of the table that
    [prepare_transactions] returns keeps this through [engineer_features]
    and [detect_anomalies]. *)
Theorem classification_sign_invariant
    (fsqrt : Q -> Q)
    (label : AnomalyConfig -> list (list cell) -> list cell -> Z)
    (score : AnomalyConfig -> list (list cell) -> list cell -> Q)
    (cfg : FinanceAIConfig) (dataframe : list RawRow)
    (processed : list Transaction) :
  prepare_transactions cfg dataframe = Ok processed ->
  let engineered := engineer_features fsqrt processed in
  let scored := detect_anomalies label score cfg engineered in
  (forall description value,
      let r := _classify_transaction description value cfg in
      In (fst r) transaction_types
      /\ isna (snd r) = isna value
      /\ (isna value = false -> sign_convention (fst r) (snd r))
      /\ (nonzero value -> sign_matches_type (fst r) (snd r))
      /\ (isna value = true ->
          ~ negative (snd r)
          /\ (fst r = "expense"
              <-> any_in (income_keywords cfg) (lower description) = false
                  /\ any_in (refund_keywords cfg) (lower description)
                     = false)))
  /\ Forall well_typed processed
  /\ Forall (fun r => well_typed (txn r)) engineered
  /\ Forall (fun r => well_typed (txn (features r))) scored
  /\ (forall r, well_typed r -> nonzero (amount r) ->
                sign_matches_type (transaction_type r) (amount r)).
Proof.
  intros Hret engineered scored.
  destruct (prepare_transactions_returns _ _ _ Hret) as [-> _].
  pose proof (processed_rows_well_typed cfg dataframe) as Hp.
  rewrite Forall_forall in Hp.
  assert (He : forall r, In r engineered -> well_typed (txn r)).
  { intros r Hr. apply Hp. exact (engineer_features_txn _ _ _ Hr). }
  split; [|split; [|split; [|split]]].
  - intros description value r.
    split; [apply classify_label|]. split; [apply classify_isna|].
    split; [|split].
    + destruct value as [q|]; [|discriminate]. intros _.
      apply classify_sign_convention.
    + destruct value as [q|]; [|intros []]. intros Hnz.
      exact (classify_nonzero description q cfg Hnz).
    + destruct value as [q|]; [discriminate|]. intros _. split.
      * pose proof (classify_isna description NaN cfg) as E. fold r in E.
        destruct (snd r); [discriminate|]. simpl. tauto.
      * apply classify_missing.
  - apply Forall_forall. exact Hp.
  - apply Forall_forall. exact He.
  - apply Forall_forall. intros r Hr. apply He.
    exact (detect_anomalies_features _ _ _ _ _ Hr).
  - intros r [_ [_ Hc]] Hnz. apply sign_convention_nonzero; [|exact Hnz].
    apply Hc. destruct (amount r); [reflexivity|destruct Hnz].
Qed.

Lemma classification_sign_invariant_witness :
  let r := _classify_transaction "Uber Trip" (Fin 25) default_config in
  sign_convention (fst r) (snd r) /\ sign_matches_type (fst r) (snd r).
Proof.
  pose proof (classification_sign_invariant (fun v => v)
                (fun _ _ _ => 1%Z) (fun _ _ _ => 0%Q) default_config
                [raw_row (timestamp 2024 1 10 0) "Padaria" 30]
                (processed_rows default_config
                   [raw_row (timestamp 2024 1 10 0) "Padaria" 30])
                eq_refl) as H.
  destruct H as [H _].
  destruct (H "Uber Trip" (Fin 25%Q)) as [_ [_ [H1 [H2 _]]]].
  split; [exact (H1 eq_refl)|]. apply H2. vm_compute. discriminate.
Defined.

(** Claim C1 as stated fails on a zero amount: a purchase of 0.00 is an
    expense, and the amount stored for it is not negative. *)
Lemma zero_expense_not_negative :
  let r := _classify_transaction "Padaria" (Fin 0) default_config in
  fst r = "expense" /\ ~ sign_matches_type (fst r) (snd r).
Proof.
  split; [reflexivity|].
  intros [_ H]. specialize (H eq_refl). vm_compute in H. discriminate.
Qed.

(** Claim C5, as the code has it: "Uber Trip" with raw amount 25.0 is an
    expense stored as -25.0, and its category is the label "Transporte";
    [prepare_transactions] writes these into the row, whatever its date. *)
Theorem uber_trip_classification :
  _classify_transaction "Uber Trip" (Fin 25) default_config
  = ("expense", Fin (-25)%Q)
  /\ category_for_description default_config "Uber Trip" = "Transporte"
  /\ forall t,
       exists out,
         prepare_transactions default_config [raw_row t "Uber Trip" 25]
         = Ok out
         /\ map (fun r => (transaction_type r, category r, amount r)) out
            = [("expense", "Transporte", Fin (-25)%Q)].
Proof.
  split; [reflexivity|]. split; [reflexivity|]. intros t.
  eexists. split; reflexivity.
Qed.

(** Claim C5 as stated fails: the category is not "Transportation". *)
Lemma uber_trip_not_transportation :
  category_for_description default_config "Uber Trip" <> "Transportation".
Proof. vm_compute. discriminate. Qed.

(** Claim C9: under the default configuration a description that holds a
    keyword found in both the income and the refund list is typed income,
    whatever the amount, and so never refund. *)
Theorem shared_keyword_is_income (description : string) (raw : pyfloat)
    (k : string) :
  In k (income_keywords default_config) ->
  In k (refund_keywords default_config) ->
  contains k (lower description) = true ->
  fst (_classify_transaction description raw default_config) = "income"
  /\ fst (_classify_transaction description raw default_config) <> "refund".
Proof.
  intros Hi _ Hk.
  assert (E : is_income default_config description raw = true).
  { unfold is_income. destruct (flt raw 0); [reflexivity|].
    exact (any_in_true _ _ _ Hi Hk). }
  unfold _classify_transaction. rewrite E. simpl. split; [reflexivity|discriminate].
Qed.

Lemma shared_keyword_is_income_witness :
  fst (_classify_transaction "Estorno de compra" (Fin 30) default_config)
  = "income"
  /\ fst (_classify_transaction "Estorno de compra" (Fin 30) default_config)
     <> "refund".
Proof.
  apply (shared_keyword_is_income "Estorno de compra" (Fin 30) "estorno").
  - simpl. auto 10.
  - simpl. auto.
  - reflexivity.
Defined.

(** ** Forecaster *)

Lemma monthly_expenses_months (df : list Transaction) (cfg : FinanceAIConfig) :
  map fst (_prepare_monthly_expenses df cfg) = expense_months df.
Proof.
  unfold _prepare_monthly_expenses, expense_months, expense_rows, groupby.
  rewrite !map_map. simpl. apply map_id.
Qed.

Lemma monthly_expenses_length (df : list Transaction) (cfg : FinanceAIConfig) :
  List.length (_prepare_monthly_expenses df cfg)
  = List.length (expense_months df).
Proof. rewrite <- (monthly_expenses_months df cfg). now rewrite length_map. Qed.




Lemma date_range_M_length (start periods : Z) :
  List.length (date_range_M start periods) = Z.to_nat periods.
Proof. unfold date_range_M. now rewrite length_map, length_seq. Qed.

Lemma length_tl (A : Type) (l : list A) :
  List.length (tl l) = (List.length l - 1)%nat.
Proof. destruct l; simpl; lia. Qed.

Lemma constant_series_values (v : pyfloat) (index : list Z) :
  Forall (fun e => snd e = v) (constant_series v index).
Proof.
  unfold constant_series. apply Forall_forall. intros e He.
  apply in_map_iff in He. destruct He as [i [<- _]]. reflexivity.
Qed.

Lemma constant_series_length (v : pyfloat) (index : list Z) :
  List.length (constant_series v index) = List.length index.
Proof. unfold constant_series. apply length_map. Qed.

(** The branch taken after a fit that raises. *)
Lemma forecast_failed_fit
    (exponential_smoothing : series Q -> ForecastConfig -> HoltWinters)
    (now : Z) (cfg : FinanceAIConfig) (df : list Transaction) (exc : string) :
  (3 <= List.length (expense_months df))%nat ->
  exponential_smoothing (_prepare_monthly_expenses df cfg) (forecast cfg)
    = hw_raised exc ->
  exists index,
    List.length index = Z.to_nat (horizon_months (forecast cfg))
    /\ forecast_expenses exponential_smoothing now cfg df
       = {| history := _prepare_monthly_expenses df cfg;
            forecast_series :=
              constant_series
                (mean (map snd (_prepare_monthly_expenses df cfg))) index;
            model_summary :=
              String.append "Holt-Winters falhou ("
                (String.append exc "); utilizando media.") |}.
Proof.
  intros Hlen Hfit. unfold forecast_expenses.
  rewrite <- monthly_expenses_length with (cfg := cfg) in Hlen.
  destruct (List.length (_prepare_monthly_expenses df cfg) <? 3)%nat eqn:E;
    [apply Nat.ltb_lt in E; lia|].
  rewrite Hfit. eexists. split; [|reflexivity].
  rewrite length_tl, date_range_M_length. lia.
Qed.





(** The branch taken on fewer than three months. *)
Lemma forecast_short_history
    (exponential_smoothing : series Q -> ForecastConfig -> HoltWinters)
    (now : Z) (cfg : FinanceAIConfig) (df : list Transaction) :
  (List.length (expense_months df) < 3)%nat ->
  exists index,
    List.length index = Z.to_nat (Z.max (horizon_months (forecast cfg)) 1)
    /\ forecast_expenses exponential_smoothing now cfg df
       = {| history := _prepare_monthly_expenses df cfg;
            forecast_series :=
              constant_series
                match _prepare_monthly_expenses df cfg with
                | [] => Fin 0%Q
                | _ => mean (map snd (_prepare_monthly_expenses df cfg))
                end index;
            model_summary := "Media simples por falta de dados." |}.
Proof.
  intros Hlen. unfold forecast_expenses.
  rewrite <- monthly_expenses_length with (cfg := cfg) in Hlen.
  apply Nat.ltb_lt in Hlen. rewrite Hlen.
  eexists. split; [|reflexivity].
  rewrite length_tl, date_range_M_length. lia.
Qed.




(** Claim C10, as the code has it: without any expense row the call
    returns an empty history, the fixed summary, and a projection of 0.0
    over [max(horizon_months, 1)] months, which is the configured horizon
    whenever that is at least 1. *)
Theorem forecast_without_expenses
    (exponential_smoothing : series Q -> ForecastConfig -> HoltWinters)
    (now : Z) (cfg : FinanceAIConfig) (df : list Transaction) :
  expense_rows df = [] ->
  let res := forecast_expenses exponential_smoothing now cfg df in
  history res = []
  /\ List.length (forecast_series res)
     = Z.to_nat (Z.max (horizon_months (forecast cfg)) 1)
  /\ ((1 <= horizon_months (forecast cfg))%Z ->
      Z.of_nat (List.length (forecast_series res))
      = horizon_months (forecast cfg))
  /\ Forall (fun e => snd e = Fin 0%Q) (forecast_series res)
  /\ model_summary res = "Media simples por falta de dados.".
Proof.
  intros Hno res. subst res.
  assert (Em : _prepare_monthly_expenses df cfg = []).
  { unfold _prepare_monthly_expenses. fold (expense_rows df). now rewrite Hno. }
  destruct (forecast_short_history exponential_smoothing now cfg df)
    as [index [Hl ->]].
  { unfold expense_months. rewrite Hno. simpl. lia. }
  rewrite Em. cbn [history forecast_series model_summary].
  rewrite constant_series_length.
  split; [reflexivity|]. split; [exact Hl|]. split; [lia|].
  split; [apply constant_series_values|reflexivity].
Qed.

Lemma forecast_without_expenses_witness :
  let res := forecast_expenses failing_fit (timestamp 2024 3 5 10)
               default_config only_income in
  history res = []
  /\ List.length (forecast_series res)
     = Z.to_nat (Z.max (horizon_months (forecast default_config)) 1)
  /\ ((1 <= horizon_months (forecast default_config))%Z ->
      Z.of_nat (List.length (forecast_series res))
      = horizon_months (forecast default_config))
  /\ Forall (fun e => snd e = Fin 0%Q) (forecast_series res)
  /\ model_summary res = "Media simples por falta de dados.".
Proof.
  apply (forecast_without_expenses failing_fit (timestamp 2024 3 5 10)
           default_config only_income).
  reflexivity.
Defined.

(** Claim C10 as stated fails for a configured horizon of 0: the
    projection then has one entry, not none. *)
Lemma forecast_without_expenses_zero_horizon :
  let res := forecast_expenses failing_fit (timestamp 2024 3 5 10)
               (with_horizon 0) only_income in
  expense_rows only_income = []
  /\ Z.of_nat (List.length (forecast_series res))
     <> horizon_months (forecast (with_horizon 0)).
Proof.
  split; [reflexivity|]. vm_compute. discriminate.
Qed.

(** ** Quality Assessor *)

Lemma monthly_features_months (fsqrt : Q -> Q) (cfg : FinanceAIConfig)
    (df : list ScoredRow) :
  map summary_month (_build_monthly_features fsqrt cfg df) = calendar_months df.
Proof.
  unfold _build_monthly_features, calendar_months, groupby.
  rewrite !map_map. simpl. apply map_id.
Qed.

(** Claim C3: when the table has at least one calendar month but fewer
    than [min_months], the summary has one row per month, every row is
    scored 0 and not flagged, no model is returned, and the result is the
    same whatever the one-class model would compute. *)
Theorem insufficient_months_score_zero
    (fsqrt : Q -> Q)
    (svm : QualityConfig -> list MonthlyFeatures -> MonthlyFeatures -> Q)
    (cfg : FinanceAIConfig) (df : list ScoredRow) :
  (1 <= List.length (calendar_months df))%nat ->
  (Z.of_nat (List.length (calendar_months df)) < min_months (quality cfg))%Z ->
  let res := score fsqrt svm cfg df in
  map (fun s => summary_month (monthly s)) (monthly_summary res)
    = calendar_months df
  /\ Forall (fun s => quality_score s = Fin 0%Q /\ quality_flag s = false)
            (monthly_summary res)
  /\ model res = None
  /\ (forall svm', score fsqrt svm' cfg df = res).
Proof.
  intros Hone Hfew res. subst res. unfold score.
  rewrite <- (monthly_features_months fsqrt cfg df) in Hone, Hfew |- *.
  rewrite length_map in Hone, Hfew.
  destruct (_build_monthly_features fsqrt cfg df) as [|f fs] eqn:E;
    [simpl in Hone; lia|].
  apply Z.ltb_lt in Hfew. rewrite Hfew. cbn [monthly_summary model].
  split; [|split; [|split]].
  - rewrite map_map. reflexivity.
  - apply Forall_forall. intros s Hs. apply in_map_iff in Hs.
    destruct Hs as [x [<- _]]. split; reflexivity.
  - reflexivity.
  - reflexivity.
Qed.

Lemma insufficient_months_score_zero_witness :
  let res := score (fun v => v) (constant_svm (-1)) default_config
               (scored_table two_months) in
  map (fun s => summary_month (monthly s)) (monthly_summary res)
    = calendar_months (scored_table two_months)
  /\ Forall (fun s => quality_score s = Fin 0%Q /\ quality_flag s = false)
            (monthly_summary res)
  /\ model res = None
  /\ (forall svm', score (fun v => v) svm' default_config
                     (scored_table two_months) = res).
Proof.
  apply (insufficient_months_score_zero (fun v => v) (constant_svm (-1))
           default_config (scored_table two_months)).
  - vm_compute. lia.
  - vm_compute. reflexivity.
Defined.

(** ** Insight Composer *)

Lemma cashflow_net_identity (df : list Transaction) (cfg : FinanceAIConfig) :
  let m := _cashflow_metrics df cfg in
  metrics_net_cashflow m = (total_income m - total_expense m)%Q.
Proof. reflexivity. Qed.

Lemma insert_key_nonempty (k : Z) (l : list Z) : insert_key k l <> [].
Proof.
  destruct l as [|y l]; simpl; [discriminate|].
  destruct (k <? y)%Z; [discriminate|].
  destruct (k =? y)%Z; discriminate.
Qed.

Lemma por_zero (v : Q) : feq (por (Fin v) (Fin 0%Q)) (Fin v).
Proof.
  unfold por, truthy. destruct (Qeq_bool v 0) eqn:E; simpl.
  - apply Qeq_bool_iff in E. symmetry. exact E.
  - reflexivity.
Qed.

(** With at least one expense, the average daily spend is the mean of the
    per-day expense totals, as a magnitude. *)
Lemma cashflow_average_daily_spend (df : list Transaction)
    (cfg : FinanceAIConfig) :
  expense_rows df <> [] ->
  exists v, mean (daily_expense_sums df cfg) = Fin v
            /\ feq (average_daily_spend (_cashflow_metrics df cfg)) (Fin (- v)).
Proof.
  intros Hne. unfold _cashflow_metrics. cbn [average_daily_spend].
  fold (expense_rows df). fold (daily_expense_sums df cfg).
  assert (Hs : daily_expense_sums df cfg <> []).
  { unfold daily_expense_sums, groupby, group_keys.
    destruct (expense_rows df) as [|r rs]; [congruence|]. simpl.
    intros H. apply map_eq_nil in H. apply map_eq_nil in H.
    exact (insert_key_nonempty _ _ H). }
  destruct (daily_expense_sums df cfg) as [|x xs] eqn:E; [congruence|].
  eexists. split; [reflexivity|]. simpl fneg. apply por_zero.
Qed.

(** Claim C6 at its failing input: without an expense row the per-day
    series is empty, its mean is NaN, and [NaN or 0.0] is NaN, so the
    average daily spend is NaN and not 0. *)
Theorem cashflow_without_expense_days (df : list Transaction)
    (cfg : FinanceAIConfig) :
  expense_rows df = [] ->
  average_daily_spend (_cashflow_metrics df cfg) = NaN
  /\ ~ feq (average_daily_spend (_cashflow_metrics df cfg)) (Fin 0%Q).
Proof.
  intros Hno. unfold _cashflow_metrics. cbn [average_daily_spend].
  fold (expense_rows df). rewrite Hno. simpl. split; [reflexivity|tauto].
Qed.

Lemma cashflow_without_expense_days_witness :
  average_daily_spend (_cashflow_metrics only_income default_config) = NaN
  /\ ~ feq (average_daily_spend (_cashflow_metrics only_income default_config))
           (Fin 0%Q).
Proof.
  apply (cashflow_without_expense_days only_income default_config).
  reflexivity.
Defined.

(** ** Sorting by timestamp *)

Section Sorting.
Context {A : Type} (key : A -> Z).

Lemma insert_by_perm (x : A) (l : list A) :
  Permutation (x :: l) (insert_by key x l).
Proof.
  induction l as [|y l IH]; simpl; [reflexivity|].
  destruct (key x <=? key y)%Z; [reflexivity|].
  rewrite perm_swap. now apply perm_skip.
Qed.

Lemma sort_values_perm (l : list A) : Permutation l (sort_values key l).
Proof.
  induction l as [|x l IH]; simpl; [reflexivity|].
  rewrite <- insert_by_perm. now apply perm_skip.
Qed.

Lemma insert_by_sorted (x : A) (l : list A) :
  StronglySorted (key_le key) l -> StronglySorted (key_le key) (insert_by key x l).
Proof.
  induction 1 as [|y l Hs IH Hy]; simpl.
  - repeat constructor.
  - destruct (key x <=? key y)%Z eqn:E.
    + apply Z.leb_le in E. constructor; [constructor; assumption|].
      constructor; [exact E|].
      eapply Forall_impl; [|exact Hy]. unfold key_le. intros; lia.
    + apply Z.leb_gt in E. constructor; [exact IH|].
      apply Forall_forall. intros z Hz. apply insert_by_In in Hz.
      destruct Hz as [->|Hz]; [unfold key_le; lia|].
      rewrite Forall_forall in Hy. auto.
Qed.

Lemma sort_values_sorted (l : list A) :
  StronglySorted (key_le key) (sort_values key l).
Proof.
  induction l as [|x l IH]; simpl; [constructor|].
  now apply insert_by_sorted.
Qed.

Lemma NoDup_key_injective (l : list A) (a b : A) :
  NoDup (map key l) -> In a l -> In b l -> key a = key b -> a = b.
Proof.
  induction l as [|x l IH]; simpl; [tauto|].
  intros Hnd Ha Hb E. inversion Hnd as [|? ? Hx Hl]; subst.
  destruct Ha as [->|Ha], Hb as [->|Hb]; auto.
  - exfalso. apply Hx. rewrite E. now apply in_map.
  - exfalso. apply Hx. rewrite <- E. now apply in_map.
Qed.

(** A table with pairwise distinct keys has one sorted arrangement. *)
Lemma sorted_unique (l1 : list A) :
  forall l2,
    StronglySorted (key_le key) l1 -> StronglySorted (key_le key) l2 ->
    Permutation l1 l2 -> NoDup (map key l1) -> l1 = l2.
Proof.
  induction l1 as [|x l1 IH]; intros l2 H1 H2 Hp Hnd.
  - apply Permutation_nil in Hp. now subst.
  - destruct l2 as [|y l2].
    { apply Permutation_sym, Permutation_nil in Hp. discriminate. }
    inversion H1 as [|? ? Hs1 Hx]; subst.
    inversion H2 as [|? ? Hs2 Hy]; subst.
    rewrite Forall_forall in Hx, Hy.
    assert (Hyin : In y (x :: l1)).
    { apply Permutation_sym in Hp.
      apply (Permutation_in _ Hp). now left. }
    assert (Hxin : In x (y :: l2)).
    { apply (Permutation_in _ Hp). now left. }
    assert (E : x = y).
    { apply (NoDup_key_injective (x :: l1)); auto; [now left|].
      destruct Hyin as [->|Hyin]; [reflexivity|].
      destruct Hxin as [->|Hxin]; [reflexivity|].
      pose proof (Hx y Hyin). pose proof (Hy x Hxin).
      unfold key_le in *. lia. }
    subst y. f_equal. apply IH; auto.
    + exact (Permutation_cons_inv Hp).
    + simpl in Hnd. now inversion Hnd.
Qed.

Lemma sort_values_permutation (l l' : list A) :
  NoDup (map key l) -> Permutation l l' ->
  sort_values key l' = sort_values key l.
Proof.
  intros Hnd Hp. symmetry. apply sorted_unique.
  - apply sort_values_sorted.
  - apply sort_values_sorted.
  - rewrite <- (sort_values_perm l), <- (sort_values_perm l'). exact Hp.
  - apply (Permutation_NoDup (l := map key l)); [|exact Hnd].
    apply Permutation_map. apply sort_values_perm.
Qed.

End Sorting.

(** ** Feature Engine: row order *)

(** Claim C7, as the code has it: on a table whose timestamps are
    pairwise distinct, any permutation of the rows yields the same feature
    table, hence the same rolling sums for every transaction. *)
Theorem features_permutation_invariant (fsqrt : Q -> Q)
    (t t' : list Transaction) :
  NoDup (map date t) -> Permutation t t' ->
  engineer_features fsqrt t' = engineer_features fsqrt t
  /\ map rolling_values (engineer_features fsqrt t')
     = map rolling_values (engineer_features fsqrt t).
Proof.
  intros Hnd Hp.
  assert (E : engineer_features fsqrt t' = engineer_features fsqrt t).
  { unfold engineer_features.
    rewrite (sort_values_permutation date t t' Hnd Hp). reflexivity. }
  split; [exact E|]. now rewrite E.
Qed.

Lemma features_permutation_invariant_witness :
  engineer_features (fun v => v) (rev two_months)
  = engineer_features (fun v => v) two_months
  /\ map rolling_values (engineer_features (fun v => v) (rev two_months))
     = map rolling_values (engineer_features (fun v => v) two_months).
Proof.
  apply (features_permutation_invariant (fun v => v) two_months (rev two_months)).
  - vm_compute. repeat constructor; simpl; intuition discriminate.
  - apply Permutation_rev.
Defined.

(** Claim C7 as stated fails when two rows share a timestamp: the
    rolling window of a row ends at its position, so the first of two
    purchases made at the same instant gets the sum without the second,
    whichever of them comes first in the table. *)
Lemma rolling_depends_on_tie_order :
  Permutation same_timestamp (rev same_timestamp)
  /\ exists r,
       In r same_timestamp
       /\ In (r, (Fin (-10)%Q, Fin (-10)%Q, Fin (-10)%Q, Fin 0%Q, Fin 0%Q))
             (map rolling_values (engineer_features (fun v => v) same_timestamp))
       /\ In (r, (Fin (-30)%Q, Fin (-30)%Q, Fin (-30)%Q, Fin 0%Q, Fin 0%Q))
             (map rolling_values
                  (engineer_features (fun v => v) (rev same_timestamp)))
       /\ ~ In (r, (Fin (-10)%Q, Fin (-10)%Q, Fin (-10)%Q, Fin 0%Q, Fin 0%Q))
               (map rolling_values
                    (engineer_features (fun v => v) (rev same_timestamp))).
Proof.
  split; [apply Permutation_rev|].
  eexists. split; [left; reflexivity|].
  split; [vm_compute; left; reflexivity|].
  split; [vm_compute; right; left; reflexivity|].
  vm_compute. intros [H|[H|[]]]; discriminate H.
Qed.

(** ** Calendar *)

Ltac divlia := Z.to_euclidean_division_equations; lia.

Lemma year_of_era (doe : Z) :
  (0 <= doe < 146097)%Z ->
  let yoe := ((doe - doe / 1460 + doe / 36524 - doe / 146096) / 365)%Z in
  (0 <= yoe <= 399
   /\ 365 * yoe + yoe / 4 - yoe / 100 <= doe
      < 365 * (yoe + 1) + (yoe + 1) / 4 - (yoe + 1) / 100 + (yoe + 1) / 400)%Z.
Proof. intros H yoe. subst yoe. divlia. Qed.

Lemma month_of_year (doy : Z) :
  (0 <= doy <= 365)%Z ->
  let mp := ((5 * doy + 2) / 153)%Z in
  (0 <= mp <= 11
   /\ (153 * mp + 2) / 5 <= doy < (153 * (mp + 1) + 2) / 5)%Z.
Proof. intros H mp. subst mp. divlia. Qed.

Lemma month_start_split (y mp : Z) :
  (0 <= mp <= 11)%Z ->
  month_start (12 * y + mp)
  = (365 * y + y / 4 - y / 100 + y / 400 + (153 * mp + 2) / 5 - 719468)%Z.
Proof.
  intros H. unfold month_start.
  replace ((12 * y + mp) / 12)%Z with y by divlia.
  replace ((12 * y + mp) mod 12)%Z with mp by divlia.
  reflexivity.
Qed.

Lemma leap_shift (yoe era : Z) :
  (0 <= yoe <= 399)%Z ->
  let y := (yoe + era * 400)%Z in
  (365 * y + y / 4 - y / 100 + y / 400
   = 146097 * era + (365 * yoe + yoe / 4 - yoe / 100)
   /\ 365 * (y + 1) + (y + 1) / 4 - (y + 1) / 100 + (y + 1) / 400
     = 146097 * era
       + (365 * (yoe + 1) + (yoe + 1) / 4 - (yoe + 1) / 100
          + (yoe + 1) / 400))%Z.
Proof. intros H y. subst y. divlia. Qed.

(** A day lies in the month [month_ordinal] gives it. *)
Lemma month_ordinal_spec (d : Z) :
  (month_start (month_ordinal d) <= d < month_start (month_ordinal d + 1))%Z.
Proof.
  unfold month_ordinal. cbv zeta.
  pose proof (Z.mod_pos_bound (d + 719468) 146097 ltac:(lia)) as Hdoe.
  pose proof (Z.div_mod (d + 719468) 146097 ltac:(lia)) as Hd.
  set (era := ((d + 719468) / 146097)%Z) in *.
  set (doe := ((d + 719468) mod 146097)%Z) in *.
  pose proof (year_of_era doe Hdoe) as Hy. cbv zeta in Hy.
  set (yoe := ((doe - doe / 1460 + doe / 36524 - doe / 146096) / 365)%Z) in *.
  destruct Hy as [Hyoe Hys].
  set (doy := (doe - (365 * yoe + yoe / 4 - yoe / 100))%Z).
  assert (Hdoy : (0 <= doy <= 365)%Z) by (subst doy; divlia).
  pose proof (month_of_year doy Hdoy) as Hm. cbv zeta in Hm.
  set (mp := ((5 * doy + 2) / 153)%Z) in *.
  destruct Hm as [Hmp Hms].
  pose proof (leap_shift yoe era Hyoe) as Hl. cbv zeta in Hl.
  destruct Hl as [Hl1 Hl2].
  rewrite (month_start_split _ mp Hmp).
  destruct (Z.eq_dec mp 11) as [E|E].
  - replace (12 * (yoe + era * 400) + mp + 1)%Z
      with (12 * (yoe + era * 400 + 1) + 0)%Z by lia.
    rewrite (month_start_split _ 0%Z ltac:(lia)).
    rewrite Hl1, Hl2. subst doy. rewrite E in *.
    change ((153 * 0 + 2) / 5)%Z with 0%Z.
    change ((153 * 11 + 2) / 5)%Z with 337%Z in *. lia.
  - replace (12 * (yoe + era * 400) + mp + 1)%Z
      with (12 * (yoe + era * 400) + (mp + 1))%Z by lia.
    rewrite (month_start_split _ (mp + 1)%Z ltac:(lia)).
    rewrite Hl1. subst doy. lia.
Qed.

Lemma month_start_step (o : Z) :
  (28 <= month_start (o + 1) - month_start o <= 31)%Z.
Proof. unfold month_start. divlia. Qed.

Lemma month_start_lt (o1 o2 : Z) :
  (o1 < o2)%Z -> (month_start o1 < month_start o2)%Z.
Proof.
  intros H.
  assert (G : forall n : nat,
             (month_start o1 + 28 * Z.of_nat n
              <= month_start (o1 + Z.of_nat n))%Z).
  { induction n as [|n IH].
    - change (Z.of_nat 0) with 0%Z.
      replace (o1 + 0)%Z with o1 by lia. lia.
    - pose proof (month_start_step (o1 + Z.of_nat n)) as Hs.
      replace (o1 + Z.of_nat (S n))%Z with (o1 + Z.of_nat n + 1)%Z by lia.
      lia. }
  specialize (G (Z.to_nat (o2 - o1))).
  rewrite Z2Nat.id in G by lia.
  replace (o1 + (o2 - o1))%Z with o2 in G by lia. lia.
Qed.

Lemma month_ordinal_mono (d1 d2 : Z) :
  (d1 <= d2)%Z -> (month_ordinal d1 <= month_ordinal d2)%Z.
Proof.
  intros H.
  destruct (Z_le_gt_dec (month_ordinal d1) (month_ordinal d2)) as [L|G];
    [exact L|].
  exfalso.
  pose proof (month_ordinal_spec d1) as [S1 _].
  pose proof (month_ordinal_spec d2) as [_ S2].
  destruct (Z.eq_dec (month_ordinal d2 + 1) (month_ordinal d1)) as [E|E].
  - rewrite E in S2. lia.
  - pose proof (month_start_lt (month_ordinal d2 + 1) (month_ordinal d1)
                  ltac:(lia)). lia.
Qed.

Lemma month_end_lt (o1 o2 : Z) :
  (o1 < o2)%Z -> (month_end o1 < month_end o2)%Z.
Proof.
  intros H. unfold month_end.
  pose proof (month_start_lt (o1 + 1) (o2 + 1) ltac:(lia)). lia.
Qed.

Lemma month_end_ge (d : Z) : (d <= month_end (month_ordinal d))%Z.
Proof. unfold month_end. pose proof (month_ordinal_spec d). lia. Qed.

Lemma day_of_lt (t d : Z) : (t < day_start d)%Z <-> (day_of t < d)%Z.
Proof.
  unfold day_start, day_of, ns_per_day. split; intros H.
  - apply Z.div_lt_upper_bound; lia.
  - assert (~ (86400000000000 * d <= t)%Z); [|lia].
    intros G. apply (Z.div_le_lower_bound t 86400000000000 d) in G; lia.
Qed.

Lemma day_of_mono (t1 t2 : Z) : (t1 <= t2)%Z -> (day_of t1 <= day_of t2)%Z.
Proof. intros H. unfold day_of, ns_per_day. apply Z.div_le_mono; lia. Qed.

Lemma month_of_mono (t1 t2 : Z) : (t1 <= t2)%Z -> (month_of t1 <= month_of t2)%Z.
Proof.
  intros H. unfold month_of. apply month_ordinal_mono. now apply day_of_mono.
Qed.

(** A month end label after the month of [t] is later than [t]. *)
Lemma month_label_after (t o : Z) :
  (month_of t < o)%Z -> (t < day_start (month_end o))%Z.
Proof.
  intros H. apply day_of_lt.
  pose proof (month_end_ge (day_of t)) as G.
  pose proof (month_end_lt (month_ordinal (day_of t)) o H). lia.
Qed.

(** ** Feature Engine: what a row's features depend on *)

Lemma engineer_features_rows (fsqrt : Q -> Q) (df : list Transaction) :
  engineer_features fsqrt df
  = let sorted := sort_values date df in
    map (build_row (daily_zscore fsqrt (expense_series sorted))
                   (to_float (resample_M (expense_series sorted)))
                   (to_float (resample_M (income_series sorted))))
        (rolling_columns_from [] [] sorted).
Proof. reflexivity. Qed.

Lemma combine_app (A B : Type) (l1 l2 : list A) (m1 m2 : list B) :
  List.length l1 = List.length m1 ->
  combine (l1 ++ l2) (m1 ++ m2) = combine l1 m1 ++ combine l2 m2.
Proof.
  revert m1. induction l1 as [|x l1 IH]; intros [|y m1] H;
    simpl in *; try discriminate; [reflexivity|].
  f_equal. apply IH. lia.
Qed.

Lemma combine_length_eq (A B : Type) (l : list A) (m : list B) :
  List.length l = List.length m -> List.length (combine l m) = List.length l.
Proof. intros H. rewrite length_combine. lia. Qed.

Lemma rolling_sum_from_length (w : Z) (s seen : series pyfloat) :
  List.length (rolling_sum_from w seen s) = List.length s.
Proof.
  revert seen. induction s as [|e s IH]; intros seen; simpl; [reflexivity|].
  now rewrite IH.
Qed.

Lemma rolling_sum_from_app (w : Z) (s1 s2 seen : series pyfloat) :
  rolling_sum_from w seen (s1 ++ s2)
  = rolling_sum_from w seen s1 ++ rolling_sum_from w (seen ++ s1) s2.
Proof.
  revert seen. induction s1 as [|e s1 IH]; intros seen; simpl.
  - now rewrite app_nil_r.
  - rewrite IH. rewrite <- app_assoc. reflexivity.
Qed.

Lemma rolling_columns_from_app (se si : series pyfloat)
    (p r : list Transaction) :
  rolling_columns_from se si (p ++ r)
  = rolling_columns_from se si p
    ++ rolling_columns_from (se ++ expense_series p) (si ++ income_series p) r.
Proof.
  unfold rolling_columns_from, expense_series, income_series, series_of.
  rewrite !map_app, !rolling_sum_from_app.
  repeat (rewrite combine_app;
          [|repeat (rewrite combine_length_eq);
            rewrite ?rolling_sum_from_length, ?length_map; reflexivity]).
  reflexivity.
Qed.

Lemma rolling_columns_from_In (se si : series pyfloat) (df : list Transaction)
    (x : Transaction * rolling_tuple) :
  In x (rolling_columns_from se si df) -> In (fst x) df.
Proof.
  destruct x as [r v]. unfold rolling_columns_from. intros H.
  exact (in_combine_l _ _ _ _ H).
Qed.

Lemma build_row_txn (z me mi : series pyfloat)
    (x : Transaction * rolling_tuple) :
  txn (build_row z me mi x) = fst x.
Proof. destruct x as [r [a [b [c [d e]]]]]. reflexivity. Qed.

Lemma build_row_rolling (z me mi z' me' mi' : series pyfloat)
    (x : Transaction * rolling_tuple) :
  rolling_values (build_row z me mi x) = rolling_values (build_row z' me' mi' x).
Proof. destruct x as [r [a [b [c [d e]]]]]. reflexivity. Qed.

Lemma filter_all (A : Type) (p : A -> bool) (l : list A) :
  (forall x, In x l -> p x = true) -> filter p l = l.
Proof.
  induction l as [|x l IH]; intros H; simpl; [reflexivity|].
  rewrite (H x (or_introl eq_refl)). f_equal. apply IH.
  intros y Hy. apply H. now right.
Qed.

Lemma filter_none (A : Type) (p : A -> bool) (l : list A) :
  (forall x, In x l -> p x = false) -> filter p l = [].
Proof.
  induction l as [|x l IH]; intros H; simpl; [reflexivity|].
  rewrite (H x (or_introl eq_refl)). apply IH.
  intros y Hy. apply H. now right.
Qed.

(** A sorted table is its rows before [c] followed by the others. *)
Lemma sorted_split (c : Z) (l : list Transaction) :
  StronglySorted (key_le date) l ->
  l = upto c l ++ filter (fun r => negb (before c r)) l.
Proof.
  induction 1 as [|x l Hs IH Hx]; simpl; [reflexivity|].
  unfold upto in *. simpl. destruct (before c x) eqn:E; simpl.
  - f_equal. exact IH.
  - assert (Hn : forall y, In y l -> before c y = false).
    { intros y Hy. rewrite Forall_forall in Hx. specialize (Hx y Hy).
      unfold before, key_le in *. apply Z.ltb_ge. apply Z.ltb_ge in E. lia. }
    rewrite (filter_none _ _ l Hn). simpl. f_equal.
    symmetry. apply filter_all. intros y Hy. now rewrite (Hn y Hy).
Qed.

Lemma upto_insert_by (c : Z) (x : Transaction) (l : list Transaction) :
  StronglySorted (key_le date) l ->
  upto c (insert_by date x l)
  = if before c x then insert_by date x (upto c l) else upto c l.
Proof.
  unfold upto.
  induction 1 as [|y l Hs IH Hy]; simpl.
  - destruct (before c x); reflexivity.
  - destruct (date x <=? date y)%Z eqn:E; simpl.
    + destruct (before c x) eqn:Bx; [|reflexivity].
      destruct (before c y) eqn:By; simpl; [now rewrite E|].
      rewrite filter_none; [reflexivity|].
      intros z Hz. rewrite Forall_forall in Hy. specialize (Hy z Hz).
      unfold before, key_le in *. apply Z.ltb_ge. apply Z.ltb_ge in By. lia.
    + rewrite IH. destruct (before c x) eqn:Bx.
      * assert (By : before c y = true).
        { unfold before in *. apply Z.ltb_lt. apply Z.ltb_lt in Bx.
          apply Z.leb_gt in E. lia. }
        rewrite By. simpl. now rewrite E.
      * reflexivity.
Qed.

Lemma upto_sort_values (c : Z) (l : list Transaction) :
  upto c (sort_values date l) = sort_values date (upto c l).
Proof.
  induction l as [|x l IH]; simpl; [reflexivity|].
  rewrite upto_insert_by by apply sort_values_sorted.
  rewrite IH. unfold upto at 3. simpl.
  destruct (before c x); reflexivity.
Qed.

Lemma filter_rows_upto (c : Z) (z me mi : series pyfloat)
    (sorted : list Transaction) :
  StronglySorted (key_le date) sorted ->
  filter (fun f => before c (txn f))
         (map (build_row z me mi) (rolling_columns_from [] [] sorted))
  = map (build_row z me mi) (rolling_columns_from [] [] (upto c sorted)).
Proof.
  intros Hs. pose proof (sorted_split c sorted Hs) as E.
  remember (upto c sorted) as p eqn:Ep.
  remember (filter (fun r => negb (before c r)) sorted) as r eqn:Er.
  rewrite E. rewrite rolling_columns_from_app, map_app, filter_app.
  rewrite filter_all, filter_none; [now rewrite app_nil_r| |].
  - intros f Hf. apply in_map_iff in Hf. destruct Hf as [x [<- Hx]].
    rewrite build_row_txn. apply rolling_columns_from_In in Hx.
    rewrite Er in Hx. apply filter_In in Hx. destruct Hx as [_ Hx].
    now apply negb_true_iff in Hx.
  - intros f Hf. apply in_map_iff in Hf. destruct Hf as [x [<- Hx]].
    rewrite build_row_txn. apply rolling_columns_from_In in Hx.
    rewrite Ep in Hx. unfold upto in Hx. apply filter_In in Hx. tauto.
Qed.

(** The rows before [c] of the feature table, in terms of the rows
    before [c] of the input. *)
Lemma engineer_features_upto (fsqrt : Q -> Q) (c : Z) (df : list Transaction) :
  let sorted := sort_values date df in
  filter (fun f => before c (txn f)) (engineer_features fsqrt df)
  = map (build_row (daily_zscore fsqrt (expense_series sorted))
                   (to_float (resample_M (expense_series sorted)))
                   (to_float (resample_M (income_series sorted))))
        (rolling_columns_from [] [] (sort_values date (upto c df))).
Proof.
  intros sorted. rewrite engineer_features_rows. cbv zeta. fold sorted.
  rewrite filter_rows_upto by apply sort_values_sorted.
  unfold sorted. now rewrite upto_sort_values.
Qed.

(** The rolling sums of the rows before any instant [c] are those of the
    table cut at [c]. *)
Lemma rolling_values_upto (fsqrt : Q -> Q) (c : Z) (df : list Transaction) :
  map rolling_values
      (filter (fun f => before c (txn f)) (engineer_features fsqrt df))
  = map rolling_values (engineer_features fsqrt (upto c df)).
Proof.
  rewrite engineer_features_upto. rewrite engineer_features_rows. cbv zeta.
  rewrite !map_map. apply map_ext. intros x. apply build_row_rolling.
Qed.

(** *** Ranges, forward fill and resampling *)

Lemma map_seq_shift (A : Type) (f : nat -> A) (a n : nat) :
  map f (seq a n) = map (fun i => f (a + i)%nat) (seq 0 n).
Proof.
  revert a f. induction n as [|n IH]; intros a f; simpl; [reflexivity|].
  rewrite Nat.add_0_r. f_equal.
  rewrite (IH (S a)), (IH 1%nat). apply map_ext. intros i.
  f_equal. lia.
Qed.

Lemma zrange_split (a k b : Z) :
  (a - 1 <= k <= b)%Z -> zrange a b = zrange a k ++ zrange (k + 1) b.
Proof.
  intros H. unfold zrange.
  replace (Z.to_nat (b - a + 1))
    with (Z.to_nat (k - a + 1) + Z.to_nat (b - (k + 1) + 1))%nat by lia.
  rewrite seq_app, map_app. f_equal. simpl.
  rewrite map_seq_shift. apply map_ext. intros i. lia.
Qed.

Lemma zrange_In (a b x : Z) : In x (zrange a b) -> (a <= x <= b)%Z.
Proof.
  unfold zrange. intros H. apply in_map_iff in H.
  destruct H as [i [<- Hi]]. apply in_seq in Hi. lia.
Qed.

Lemma zrange_head (a b : Z) :
  zrange a b = [] \/ exists rest, zrange a b = a :: rest.
Proof.
  unfold zrange. destruct (Z.to_nat (b - a + 1)) as [|n]; [now left|].
  right. simpl. eexists. f_equal. lia.
Qed.

Lemma zrange_empty (a b : Z) : (b < a)%Z -> zrange a b = [].
Proof.
  intros H. unfold zrange. replace (Z.to_nat (b - a + 1)) with 0%nat by lia.
  reflexivity.
Qed.

Lemma ffill_from_stops (acc : pyfloat) (s : series pyfloat) (t : Z) :
  stops t s -> ffill_from acc s t = acc.
Proof.
  destruct s as [|e s]; simpl; [reflexivity|].
  intros H. apply Z.leb_gt in H. now rewrite H.
Qed.

Lemma ffill_common_prefix (pre r1 r2 : series pyfloat) (t : Z) :
  stops t r1 -> stops t r2 ->
  reindex_ffill (pre ++ r1) t = reindex_ffill (pre ++ r2) t.
Proof.
  intros H1 H2. unfold reindex_ffill. generalize NaN.
  induction pre as [|e pre IH]; intros acc; simpl.
  - now rewrite !ffill_from_stops.
  - destruct (fst e <=? t)%Z; [apply IH|reflexivity].
Qed.

Lemma stops_map_zrange (V : Type) (t a b : Z) (label : Z -> Z) (f : Z -> V) :
  (t < label a)%Z ->
  stops t (map (fun x => (label x, f x)) (zrange a b)).
Proof.
  intros H. destruct (zrange_head a b) as [E|[rest E]]; rewrite E; simpl; auto.
Qed.

Lemma stops_to_float (t : Z) (s : series Q) : stops t s -> stops t (to_float s).
Proof. destruct s; simpl; auto. Qed.

Lemma bin_sum_app_none (bin_of : Z -> Z) (b : Z) (s1 s2 : series pyfloat) :
  (forall e, In e s2 -> bin_of (fst e) <> b) ->
  bin_sum bin_of b (s1 ++ s2) = bin_sum bin_of b s1.
Proof.
  intros H. unfold bin_sum. rewrite filter_app.
  rewrite (filter_none _ _ s2); [now rewrite app_nil_r|].
  intros e He. apply Z.eqb_neq. now apply H.
Qed.

Lemma last_index_cons (V : Type) (a : Z * V) (s : series V) :
  last_index (a :: s) = Some (fst (last s a)).
Proof. reflexivity. Qed.

(** Resampling a series that continues with observations in later bins:
    the bins up to [k] are those of the first part. *)
Lemma resample_sum_split (bin_of label_of : Z -> Z) (a : Z * pyfloat)
    (s1 s2 : series pyfloat) (k : Z) :
  (bin_of (fst a) - 1 <= k <= bin_of (fst (last (s1 ++ s2) a)))%Z ->
  (forall e, In e s2 -> (k < bin_of (fst e))%Z) ->
  resample_sum bin_of label_of ((a :: s1) ++ s2)
  = map (fun b => (label_of b, bin_sum bin_of b (a :: s1)))
        (zrange (bin_of (fst a)) k)
    ++ map (fun b => (label_of b, bin_sum bin_of b ((a :: s1) ++ s2)))
           (zrange (k + 1) (bin_of (fst (last (s1 ++ s2) a)))).
Proof.
  intros Hk Hs2. unfold resample_sum.
  change ((a :: s1) ++ s2) with (a :: (s1 ++ s2)).
  rewrite last_index_cons. cbn [first_index].
  rewrite (zrange_split _ k _ Hk), map_app. f_equal.
  apply map_ext_in. intros b Hb. apply zrange_In in Hb. f_equal.
  change (a :: s1 ++ s2) with ((a :: s1) ++ s2).
  apply bin_sum_app_none. intros e He. specialize (Hs2 e He). lia.
Qed.

(** Forward fill over the resampled series sees the same value with and
    without the later observations, when the label after bin [k] is
    later than [t]. *)
Lemma reindex_resample_agree (bin_of label_of : Z -> Z) (a : Z * pyfloat)
    (s1 s2 : series pyfloat) (k t : Z) :
  (bin_of (fst a) - 1 <= k)%Z ->
  (k <= bin_of (fst (last s1 a)))%Z ->
  (k <= bin_of (fst (last (s1 ++ s2) a)))%Z ->
  (forall e, In e s2 -> (k < bin_of (fst e))%Z) ->
  (t < label_of (k + 1))%Z ->
  reindex_ffill (to_float (resample_sum bin_of label_of ((a :: s1) ++ s2))) t
  = reindex_ffill (to_float (resample_sum bin_of label_of (a :: s1))) t.
Proof.
  intros H0 H1 H2 Hs2 Ht.
  rewrite (resample_sum_split bin_of label_of a s1 s2 k) by auto.
  pose proof (resample_sum_split bin_of label_of a s1 [] k) as E.
  rewrite !app_nil_r in E. rewrite E by (simpl; auto; tauto).
  unfold to_float. rewrite !map_app.
  apply ffill_common_prefix; rewrite map_map; simpl;
    apply (stops_map_zrange pyfloat t _ _ label_of); exact Ht.
Qed.

(** *** The daily z-score *)

Lemma daily_zscore_rows (fsqrt : Q -> Q) (expenses : series pyfloat) :
  daily_zscore fsqrt expenses
  = zscore_rows_from fsqrt (map snd (resample_D expenses)) 0
      (resample_D expenses).
Proof. reflexivity. Qed.

Lemma window_at_app (n i : nat) (v1 v2 : list Q) :
  (i < List.length v1)%nat -> window_at n (v1 ++ v2) i = window_at n v1 i.
Proof.
  intros H. unfold window_at. rewrite firstn_app.
  replace (i + 1 - List.length v1)%nat with 0%nat by lia.
  simpl. now rewrite app_nil_r.
Qed.

Lemma zscore_rows_from_app (fsqrt : Q -> Q) (values : list Q) (offset : nat)
    (r1 r2 : series Q) :
  zscore_rows_from fsqrt values offset (r1 ++ r2)
  = zscore_rows_from fsqrt values offset r1
    ++ zscore_rows_from fsqrt values (offset + List.length r1) r2.
Proof.
  unfold zscore_rows_from. rewrite length_app, seq_app.
  rewrite combine_app by now rewrite length_seq.
  now rewrite map_app.
Qed.

Lemma zscore_rows_from_values (fsqrt : Q -> Q) (v1 v2 : list Q)
    (offset : nat) (rows : series Q) :
  (offset + List.length rows <= List.length v1)%nat ->
  zscore_rows_from fsqrt (v1 ++ v2) offset rows
  = zscore_rows_from fsqrt v1 offset rows.
Proof.
  intros H. unfold zscore_rows_from. apply map_ext_in.
  intros [i e] Hie. apply in_combine_l in Hie. apply in_seq in Hie.
  unfold rolling_mean, rolling_std. cbn [fst snd].
  rewrite window_at_app by lia. reflexivity.
Qed.

Lemma stops_zscore_rows (fsqrt : Q -> Q) (values : list Q) (offset : nat)
    (rows : series Q) (t : Z) :
  stops t rows -> stops t (zscore_rows_from fsqrt values offset rows).
Proof. destruct rows; simpl; auto. Qed.

(** The z-score read at [t] is not changed by observations of later
    days, when every day up to the last one of the first part is already
    complete. *)
Lemma reindex_zscore_agree (fsqrt : Q -> Q) (a : Z * pyfloat)
    (s1 s2 : series pyfloat) (t : Z) :
  (day_of (fst a) <= day_of (fst (last s1 a)))%Z ->
  (day_of (fst (last s1 a)) <= day_of (fst (last (s1 ++ s2) a)))%Z ->
  (forall e, In e s2 -> (day_of (fst (last s1 a)) < day_of (fst e))%Z) ->
  (day_of t <= day_of (fst (last s1 a)))%Z ->
  reindex_ffill (daily_zscore fsqrt ((a :: s1) ++ s2)) t
  = reindex_ffill (daily_zscore fsqrt (a :: s1)) t.
Proof.
  intros H0 H1 Hs2 Ht.
  set (k := day_of (fst (last s1 a))) in *.
  rewrite !daily_zscore_rows. unfold resample_D.
  rewrite (resample_sum_split day_of day_start a s1 s2 k) by (auto; lia).
  pose proof (resample_sum_split day_of day_start a s1 [] k) as E.
  rewrite !app_nil_r in E. fold k in E.
  rewrite (zrange_empty (k + 1) k) in E by lia.
  simpl map in E at 2. rewrite app_nil_r in E.
  rewrite E by (simpl; auto; try tauto; lia).
  set (pre := map (fun b => (day_start b, bin_sum day_of b (a :: s1)))
                  (zrange (day_of (fst a)) k)).
  set (rest := map (fun b => (day_start b,
                              bin_sum day_of b ((a :: s1) ++ s2)))
                   (zrange (k + 1) (day_of (fst (last (s1 ++ s2) a))))).
  rewrite zscore_rows_from_app, map_app.
  rewrite zscore_rows_from_values by (rewrite length_map; simpl; lia).
  rewrite <- (app_nil_r (zscore_rows_from fsqrt (map snd pre) 0 pre)) at 2.
  apply ffill_common_prefix; [|exact I].
  apply stops_zscore_rows. subst rest.
  apply (stops_map_zrange Q t _ _ day_start).
  apply day_of_lt. lia.
Qed.

(** *** Sorted tables cut at a midnight *)

Lemma last_cons (A : Type) (l : list A) :
  forall x z : A, last (z :: l) x = last l z.
Proof.
  induction l as [|y l IH]; intros x z; [reflexivity|].
  change (last (z :: y :: l) x) with (last (y :: l) x).
  rewrite (IH x y). symmetry. apply (IH z y).
Qed.

Lemma sorted_bounds (A : Type) (key : A -> Z) (l : list A) :
  forall x, StronglySorted (key_le key) (x :: l) ->
            forall y, In y (x :: l) -> (key x <= key y <= key (last l x))%Z.
Proof.
  induction l as [|z l IH]; intros x Hs y Hy.
  - destruct Hy as [->|[]]. simpl. lia.
  - inversion Hs as [|? ? Hs' Hx]; subst.
    rewrite Forall_forall in Hx.
    assert (Hz : (key x <= key z)%Z) by (apply Hx; now left).
    rewrite last_cons.
    destruct Hy as [->|Hy].
    + pose proof (IH z Hs' z (or_introl eq_refl)). lia.
    + pose proof (IH z Hs' y Hy). lia.
Qed.

Lemma sorted_prefix (A : Type) (key : A -> Z) (l1 l2 : list A) :
  StronglySorted (key_le key) (l1 ++ l2) -> StronglySorted (key_le key) l1.
Proof.
  induction l1 as [|x l1 IH]; simpl; intros H; [constructor|].
  inversion H as [|? ? Hs Hx]; subst. constructor; [now apply IH|].
  rewrite Forall_app in Hx. tauto.
Qed.

Lemma last_map (A B : Type) (f : A -> B) (l : list A) (d : A) :
  last (map f l) (f d) = f (last l d).
Proof.
  induction l as [|x l IH]; [reflexivity|].
  destruct l as [|y l]; [reflexivity|]. exact IH.
Qed.

Lemma last_In (A : Type) (l : list A) (d : A) : In (last l d) (d :: l).
Proof.
  revert d. induction l as [|x l IH]; intros d; [now left|].
  right. rewrite last_cons. apply IH.
Qed.

Lemma day_start_le (d1 d2 : Z) :
  (d1 <= d2)%Z -> (day_start d1 <= day_start d2)%Z.
Proof. unfold day_start, ns_per_day. lia. Qed.

Lemma day_of_ge (t d : Z) : (day_start d <= t)%Z -> (d <= day_of t)%Z.
Proof.
  intros H. destruct (Z_lt_ge_dec (day_of t) d) as [L|G]; [|lia].
  apply day_of_lt in L. lia.
Qed.

Lemma midnight_cut_of_sorted (d : Z) (sorted : list Transaction)
    (p0 : Transaction) (p : list Transaction) :
  StronglySorted (key_le date) sorted ->
  upto (day_start d) sorted = p0 :: p ->
  sorted = (p0 :: p) ++ filter (fun r => negb (before (day_start d) r)) sorted
  /\ midnight_cut d p0 p
       (filter (fun r => negb (before (day_start d) r)) sorted).
Proof.
  intros Hs Ep. pose proof (sorted_split (day_start d) sorted Hs) as E.
  rewrite Ep in E. split; [exact E|].
  remember (filter (fun r => negb (before (day_start d) r)) sorted) as r eqn:Er.
  assert (Hs' : StronglySorted (key_le date) (p0 :: (p ++ r))).
  { rewrite E in Hs. exact Hs. }
  assert (Hp : StronglySorted (key_le date) (p0 :: p)).
  { apply (sorted_prefix _ date (p0 :: p) r). exact Hs'. }
  constructor.
  - intros x Hx. apply (sorted_bounds _ date p p0 Hp x Hx).
  - intros x Hx. apply (sorted_bounds _ date p p0 Hp x Hx).
  - apply (sorted_bounds _ date (p ++ r) p0 Hs').
    pose proof (last_In _ p p0) as Hl. simpl in Hl |- *.
    destruct Hl as [Hl|Hl]; [now left|right; apply in_or_app; now left].
  - intros x Hx. rewrite <- Ep in Hx. unfold upto in Hx.
    apply filter_In in Hx. destruct Hx as [_ Hx].
    unfold before in Hx. apply Z.ltb_lt in Hx. now apply day_of_lt.
  - intros x Hx. rewrite Er in Hx. apply filter_In in Hx.
    destruct Hx as [_ Hx]. apply negb_true_iff in Hx.
    unfold before in Hx. apply Z.ltb_ge in Hx. now apply day_of_ge.
Qed.

Lemma series_of_cut (v : Transaction -> pyfloat) (p0 : Transaction)
    (p r : list Transaction) :
  series_of v ((p0 :: p) ++ r)
  = ((date p0, v p0) :: series_of v p) ++ series_of v r.
Proof. unfold series_of. now rewrite map_app. Qed.

Lemma series_of_last (v : Transaction -> pyfloat) (p0 : Transaction)
    (p : list Transaction) :
  fst (last (series_of v p) (date p0, v p0)) = date (last p p0).
Proof.
  unfold series_of.
  change (date p0, v p0) with ((fun r => (date r, v r)) p0).
  now rewrite last_map.
Qed.

Lemma series_of_In (v : Transaction -> pyfloat) (df : list Transaction)
    (e : Z * pyfloat) :
  In e (series_of v df) -> exists x, In x df /\ fst e = date x.
Proof.
  unfold series_of. intros H. apply in_map_iff in H.
  destruct H as [x [<- Hx]]. now exists x.
Qed.

(** The z-score a row before the midnight reads is that of the table cut
    at the midnight. *)
Lemma zscore_cut (fsqrt : Q -> Q) (v : Transaction -> pyfloat) (d : Z)
    (p0 : Transaction) (p r : list Transaction) (x : Transaction) :
  midnight_cut d p0 p r -> In x (p0 :: p) ->
  reindex_ffill (daily_zscore fsqrt (series_of v ((p0 :: p) ++ r))) (date x)
  = reindex_ffill (daily_zscore fsqrt (series_of v (p0 :: p))) (date x).
Proof.
  intros C Hx. rewrite series_of_cut.
  change (series_of v (p0 :: p)) with ((date p0, v p0) :: series_of v p).
  pose proof (last_In _ p p0) as Hl.
  apply reindex_zscore_agree.
  - rewrite series_of_last. cbn [fst]. apply day_of_mono.
    apply (cut_first _ _ _ _ C). exact Hl.
  - rewrite series_of_last. unfold series_of at 1 2. rewrite <- map_app.
    fold (series_of v (p ++ r)). rewrite series_of_last.
    apply day_of_mono. apply (cut_whole _ _ _ _ C).
  - intros e He. apply series_of_In in He. destruct He as [y [Hy ->]].
    rewrite series_of_last.
    pose proof (cut_before _ _ _ _ C _ Hl). pose proof (cut_after _ _ _ _ C _ Hy). lia.
  - rewrite series_of_last. apply day_of_mono. now apply (cut_last _ _ _ _ C).
Qed.

(** The month total a row before the midnight reads is that of the table
    cut at the midnight. *)
Lemma month_total_cut (v : Transaction -> pyfloat) (d : Z)
    (p0 : Transaction) (p r : list Transaction) (x : Transaction) :
  midnight_cut d p0 p r -> In x (p0 :: p) ->
  reindex_ffill (to_float (resample_M (series_of v ((p0 :: p) ++ r)))) (date x)
  = reindex_ffill (to_float (resample_M (series_of v (p0 :: p)))) (date x).
Proof.
  intros C Hx. rewrite series_of_cut.
  change (series_of v (p0 :: p)) with ((date p0, v p0) :: series_of v p).
  pose proof (last_In _ p p0) as Hl.
  set (mp := month_of (date (last p p0))).
  set (md := month_ordinal d).
  assert (Hfirst : (month_of (date p0) <= mp)%Z).
  { apply month_of_mono. apply (cut_first _ _ _ _ C). exact Hl. }
  assert (Hbefore : forall y, In y (p0 :: p) -> (month_of (date y) <= md)%Z).
  { intros y Hy. apply month_ordinal_mono.
    pose proof (cut_before _ _ _ _ C _ Hy). lia. }
  unfold resample_M.
  apply (reindex_resample_agree month_of
           (fun o => day_start (month_end o)) _ _ _ (Z.min mp (md - 1))).
  - cbn [fst]. pose proof (Hbefore p0 (or_introl eq_refl)). lia.
  - rewrite series_of_last. fold mp. lia.
  - unfold series_of at 1 2. rewrite <- map_app.
    fold (series_of v (p ++ r)). rewrite series_of_last.
    assert ((mp <= month_of (date (last (p ++ r) p0)))%Z).
    { apply month_of_mono. apply (cut_whole _ _ _ _ C). }
    lia.
  - intros e He. apply series_of_In in He. destruct He as [y [Hy ->]].
    assert ((md <= month_of (date y))%Z).
    { apply month_ordinal_mono. apply (cut_after _ _ _ _ C _ Hy). }
    lia.
  - destruct (Z_le_gt_dec mp (md - 1)) as [L|G].
    + rewrite Z.min_l by lia. apply month_label_after.
      assert ((month_of (date x) <= mp)%Z).
      { apply month_of_mono. now apply (cut_last _ _ _ _ C). }
      lia.
    + rewrite Z.min_r by lia. replace (md - 1 + 1)%Z with md by lia.
      pose proof (cut_before _ _ _ _ C _ Hx) as Hd. apply day_of_lt in Hd.
      pose proof (day_start_le d (month_end md) (month_end_ge d)). lia.
Qed.

Lemma expense_series_of (df : list Transaction) :
  expense_series df = series_of expense_amount df.
Proof. reflexivity. Qed.

Lemma income_series_of (df : list Transaction) :
  income_series df = series_of income_amount df.
Proof. reflexivity. Qed.

(** The rows before a midnight of the feature table are the feature
    table of the rows before that midnight. *)
Lemma engineer_features_day_cut (fsqrt : Q -> Q) (d : Z)
    (df : list Transaction) :
  filter (fun f => before (day_start d) (txn f)) (engineer_features fsqrt df)
  = engineer_features fsqrt (upto (day_start d) df).
Proof.
  rewrite engineer_features_upto.
  rewrite (engineer_features_rows fsqrt (upto (day_start d) df)). cbv zeta.
  rewrite <- upto_sort_values.
  pose proof (sort_values_sorted date df) as Hs.
  remember (sort_values date df) as sorted eqn:Es. clear Es.
  apply map_ext_in. intros x Hx. apply rolling_columns_from_In in Hx.
  destruct (upto (day_start d) sorted) as [|p0 p] eqn:Ep; [destruct Hx|].
  destruct (midnight_cut_of_sorted d sorted p0 p Hs Ep) as [E C].
  remember (filter (fun r => negb (before (day_start d) r)) sorted) as r eqn:Er.
  clear Er Ep Hs. subst sorted.
  destruct x as [y [a [b [c [e f]]]]]. cbn [fst] in Hx. unfold build_row.
  rewrite !expense_series_of, !income_series_of.
  rewrite (zscore_cut fsqrt expense_amount d p0 p r y C Hx).
  rewrite (month_total_cut expense_amount d p0 p r y C Hx).
  rewrite (month_total_cut income_amount d p0 p r y C Hx).
  reflexivity.
Qed.

(** On a table with distinct timestamps the feature table does not depend
    on the order of the rows. *)
Lemma engineer_features_permutation (fsqrt : Q -> Q)
    (t t' : list Transaction) :
  NoDup (map date t) -> Permutation t t' ->
  engineer_features fsqrt t' = engineer_features fsqrt t.
Proof.
  intros Hnd Hp. unfold engineer_features.
  rewrite (sort_values_permutation date t t' Hnd Hp). reflexivity.
Qed.

(** Claim C4, as the code has it.  Two histories that hold the same
    records before an instant, no two of these records sharing a
    timestamp, give the rows before that instant the same rolling sums, so
    the rolling sums of a record depend on the records up to and including
    its timestamp only.  The daily z-score and the month totals are read
    from whole-day and whole-month buckets: they agree when the histories
    hold the same records before the midnight that ends the record's
    calendar day. *)
Theorem features_depend_on_past_days (fsqrt : Q -> Q)
    (h1 h2 : list Transaction) :
  (forall c,
      Permutation (upto c h1) (upto c h2) ->
      NoDup (map date (upto c h1)) ->
      map rolling_values
          (filter (fun f => before c (txn f)) (engineer_features fsqrt h1))
      = map rolling_values
            (filter (fun f => before c (txn f)) (engineer_features fsqrt h2)))
  /\ (forall d,
         Permutation (upto (day_start d) h1) (upto (day_start d) h2) ->
         NoDup (map date (upto (day_start d) h1)) ->
         filter (fun f => before (day_start d) (txn f))
                (engineer_features fsqrt h1)
         = filter (fun f => before (day_start d) (txn f))
                  (engineer_features fsqrt h2))
  /\ (forall f,
         In f (engineer_features fsqrt h1) ->
         Permutation (upto (date (txn f) + 1) h1)
                     (upto (date (txn f) + 1) h2) ->
         NoDup (map date (upto (date (txn f) + 1) h1)) ->
         In (rolling_values f)
            (map rolling_values (engineer_features fsqrt h2)))
  /\ (forall f,
         In f (engineer_features fsqrt h1) ->
         Permutation (upto (day_start (day_of (date (txn f)) + 1)) h1)
                     (upto (day_start (day_of (date (txn f)) + 1)) h2) ->
         NoDup (map date (upto (day_start (day_of (date (txn f)) + 1)) h1)) ->
         In f (engineer_features fsqrt h2)).
Proof.
  assert (P1 : forall c,
             Permutation (upto c h1) (upto c h2) ->
             NoDup (map date (upto c h1)) ->
             map rolling_values
               (filter (fun f => before c (txn f)) (engineer_features fsqrt h1))
             = map rolling_values
                 (filter (fun f => before c (txn f))
                         (engineer_features fsqrt h2))).
  { intros c P N. rewrite !rolling_values_upto.
    now rewrite (engineer_features_permutation fsqrt _ _ N P). }
  assert (P2 : forall d,
             Permutation (upto (day_start d) h1) (upto (day_start d) h2) ->
             NoDup (map date (upto (day_start d) h1)) ->
             filter (fun f => before (day_start d) (txn f))
                    (engineer_features fsqrt h1)
             = filter (fun f => before (day_start d) (txn f))
                      (engineer_features fsqrt h2)).
  { intros d P N. rewrite !engineer_features_day_cut.
    now rewrite (engineer_features_permutation fsqrt _ _ N P). }
  split; [exact P1|]. split; [exact P2|]. split.
  - intros f Hf P N. specialize (P1 _ P N).
    assert (Hin : In (rolling_values f)
                     (map rolling_values
                        (filter (fun g => before (date (txn f) + 1) (txn g))
                                (engineer_features fsqrt h1)))).
    { apply in_map. apply filter_In. split; [exact Hf|].
      unfold before. apply Z.ltb_lt. lia. }
    rewrite P1 in Hin. apply in_map_iff in Hin.
    destruct Hin as [g [Eg Hg]]. apply filter_In in Hg.
    rewrite <- Eg. apply in_map. tauto.
  - intros f Hf P N. specialize (P2 _ P N).
    assert (Hin : In f (filter (fun g => before
                                  (day_start (day_of (date (txn f)) + 1))
                                  (txn g))
                               (engineer_features fsqrt h1))).
    { apply filter_In. split; [exact Hf|].
      unfold before. apply Z.ltb_lt. apply day_of_lt. lia. }
    rewrite P2 in Hin. apply filter_In in Hin. tauto.
Qed.

Lemma features_depend_on_past_days_witness :
  let d := day_of (timestamp 2024 3 1 0) in
  filter (fun f => before (day_start d) (txn f))
         (engineer_features (fun v => v) two_months)
  = filter (fun f => before (day_start d) (txn f))
           (engineer_features (fun v => v) (rev two_months_and_march)).
Proof.
  apply (proj1 (proj2 (features_depend_on_past_days (fun v => v) two_months
                         (rev two_months_and_march)))).
  - vm_compute. exact (Permutation_rev _).
  - vm_compute. repeat constructor; simpl; intuition discriminate.
Defined.

(** Claim C4 as stated fails: a purchase at midnight of 2024-01-31 has
    the month total -10 when it is alone and -30 when a purchase follows
    at 15:00 of the same day, although both histories hold the same records
    up to and including its timestamp and no two records share a
    timestamp. *)
Lemma month_total_reads_later_records :
  let t := timestamp 2024 1 31 0 in
  upto (t + 1) month_end_morning = upto (t + 1) month_end_day
  /\ NoDup (map date month_end_day)
  /\ exists r,
       date r = t
       /\ map month_totals (engineer_features (fun v => v) month_end_morning)
          = [ (r, Fin (-10)%Q, Fin 0%Q) ]
       /\ In (r, Fin (-30)%Q, Fin 0%Q)
             (map month_totals (engineer_features (fun v => v) month_end_day))
       /\ ~ In (r, Fin (-10)%Q, Fin 0%Q)
               (map month_totals (engineer_features (fun v => v) month_end_day)).
Proof.
  split; [reflexivity|]. split.
  { vm_compute. repeat constructor; simpl; intuition discriminate. }
  eexists. split; [|split; [vm_compute; reflexivity|split]].
  - reflexivity.
  - vm_compute. left. reflexivity.
  - vm_compute. intros [H|[H|[]]]; discriminate H.
Qed.

(** *** Rows that share a timestamp *)

Lemma build_row_rolling_7d_spend (z me mi : series pyfloat)
    (x : Transaction * rolling_tuple) :
  rolling_7d_spend (build_row z me mi x) = fst (snd x).
Proof. destruct x as [r [a [b [c [d e]]]]]. reflexivity. Qed.

(** Of two rows with the same timestamp, the one the sort leaves first
    gets its own expense as 7-day spend and the other one gets the sum of
    both: the value a row receives goes with its position, not with its
    timestamp alone. *)
Lemma tie_rolling_by_position (fsqrt : Q -> Q) (x y : Transaction) :
  date x = date y ->
  sort_values date [x; y] = [x; y]
  /\ map rolling_7d_spend (engineer_features fsqrt [x; y])
     = [ window_sum [expense_amount x];
         window_sum [expense_amount x; expense_amount y] ].
Proof.
  intros E.
  assert (Hs : sort_values date [x; y] = [x; y]).
  { simpl. rewrite E, Z.leb_refl. reflexivity. }
  split; [exact Hs|].
  rewrite engineer_features_rows. cbv zeta. rewrite Hs.
  rewrite map_map.
  rewrite (map_ext _ (fun r : Transaction * rolling_tuple => fst (snd r)))
    by (intros r; apply build_row_rolling_7d_spend).
  unfold rolling_columns_from, expense_series, income_series, series_of.
  cbn [map combine rolling_sum_from app filter fst snd].
  unfold in_window. cbn [fst snd]. rewrite E.
  assert (W : (date y - 7 * ns_per_day <? date y)%Z = true).
  { apply Z.ltb_lt. unfold ns_per_day. lia. }
  rewrite W. reflexivity.
Qed.

(** * Further properties of the code *)

(** ** Classifier: rule order and the three types *)

Lemma first_category_app (pre post : list (string * list string))
    (text : string) :
  Forall (fun rule => any_in (snd rule) text = false) pre ->
  first_category (pre ++ post) text = first_category post text.
Proof.
  induction 1 as [|[c kws] pre Hc _ IH]; simpl; [reflexivity|].
  simpl in Hc. now rewrite Hc.
Qed.

(** X1: the category of a description is the label of the first rule, in
    the order of the configured mapping, that has a keyword in the lowered
    description; later rules that match as well are not consulted. *)
Theorem category_first_match (cfg : FinanceAIConfig) (description : string)
    (pre post : list (string * list string)) (c : string)
    (kws : list string) :
  category_keywords cfg = pre ++ (c, kws) :: post ->
  Forall (fun rule => any_in (snd rule) (lower description) = false) pre ->
  any_in kws (lower description) = true ->
  category_for_description cfg description = c.
Proof.
  intros E Hpre Hk. unfold category_for_description. rewrite E.
  rewrite first_category_app by exact Hpre. simpl. now rewrite Hk.
Qed.

Lemma category_first_match_witness :
  category_for_description default_config "Netflix.com" = "Telecom".
Proof.
  apply (category_first_match default_config "Netflix.com"
           (firstn 5 default_category_keywords)
           (skipn 6 default_category_keywords) "Telecom"
           ["internet"; "banda larga"; "fibra"; "telefon"; "celular";
            "claro"; "vivo"; "tim"; "oi"; "net"; "sky"]).
  - reflexivity.
  - vm_compute. repeat constructor.
  - reflexivity.
Defined.

(** X2: the category is always one of the configured labels or "Outros",
    and it is "Outros" when no rule has a keyword in the description. *)
Theorem category_in_configured_labels (cfg : FinanceAIConfig)
    (description : string) :
  In (category_for_description cfg description)
     ("Outros" :: map fst (category_keywords cfg))
  /\ (Forall (fun rule => any_in (snd rule) (lower description) = false)
             (category_keywords cfg) ->
      category_for_description cfg description = "Outros").
Proof.
  unfold category_for_description. split.
  - induction (category_keywords cfg) as [|[c kws] rules IH]; simpl;
      [now left|].
    destruct (any_in kws (lower description)); [right; now left|].
    destruct IH as [IH|IH]; [now left|right; now right].
  - intros H. rewrite <- (app_nil_r (category_keywords cfg)).
    now rewrite first_category_app.
Qed.

Lemma category_in_configured_labels_witness :
  category_for_description default_config "XYZ 123" = "Outros".
Proof.
  apply (category_in_configured_labels default_config "XYZ 123").
  vm_compute. repeat constructor.
Defined.

(** X3: a negative raw amount is always typed income and stored with its
    sign flipped, whatever the description says; the refund rule accepts
    it as well but is never reached. *)
Theorem negative_amount_is_income (cfg : FinanceAIConfig)
    (description : string) (value : Q) :
  (value < 0)%Q ->
  fst (_classify_transaction description (Fin value) cfg) = "income"
  /\ feq (snd (_classify_transaction description (Fin value) cfg))
         (Fin (- value))
  /\ is_refund cfg description (Fin value) = true.
Proof.
  intros H. pose proof (proj2 (flt_lt value 0) H) as E.
  unfold _classify_transaction, is_income, is_refund. rewrite E. simpl.
  split; [reflexivity|]. split; [|reflexivity].
  apply Qabs_neg. now apply Qlt_le_weak.
Qed.

Lemma negative_amount_is_income_witness :
  fst (_classify_transaction "Refund order 1" (Fin (-40)) default_config)
  = "income"
  /\ feq (snd (_classify_transaction "Refund order 1" (Fin (-40))
                 default_config))
         (Fin (- (-40)))
  /\ is_refund default_config "Refund order 1" (Fin (-40)) = true.
Proof.
  apply (negative_amount_is_income default_config "Refund order 1" (-40)).
  reflexivity.
Defined.

Lemma flt_negative (value : pyfloat) :
  flt value 0 = true <-> negative value.
Proof. destruct value as [q|]; simpl; [apply Qltb_lt|]. split; [discriminate|tauto]. Qed.

(** X4: which inputs get which type, the amount being a number or
    missing.  Income: a negative amount or an income keyword.  Refund: an
    amount that is not negative (zero, positive or missing), no income
    keyword and a refund keyword.  Expense: an amount that is not negative
    and neither kind of keyword.  The amount stored is the absolute value
    for an income or a refund and its opposite for an expense, missing
    when the amount is. *)
Theorem classification_cases (cfg : FinanceAIConfig) (description : string)
    (value : pyfloat) :
  let label := fst (_classify_transaction description value cfg) in
  let stored := snd (_classify_transaction description value cfg) in
  let text := lower description in
  (label = "income"
   <-> negative value \/ any_in (income_keywords cfg) text = true)
  /\ (label = "refund"
      <-> ~ negative value /\ any_in (income_keywords cfg) text = false
          /\ any_in (refund_keywords cfg) text = true)
  /\ (label = "expense"
      <-> ~ negative value /\ any_in (income_keywords cfg) text = false
          /\ any_in (refund_keywords cfg) text = false)
  /\ stored = (if String.eqb label "expense" then fneg (fabs value)
               else fabs value).
Proof.
  intros label stored text. subst label stored text.
  pose proof (flt_negative value) as Hn.
  unfold _classify_transaction, is_income, is_refund.
  destruct (flt value 0) eqn:E.
  - assert (N : negative value) by now apply Hn.
    simpl. split; [tauto|].
    split; [split; [discriminate|tauto]|].
    split; [split; [discriminate|tauto]|reflexivity].
  - assert (N : ~ negative value).
    { intros G. apply Hn in G. discriminate. }
    destruct (any_in (income_keywords cfg) (lower description)); simpl.
    + split; [tauto|].
      split; [split; [discriminate|intuition discriminate]|].
      split; [split; [discriminate|intuition discriminate]|reflexivity].
    + destruct (any_in (refund_keywords cfg) (lower description)); simpl.
      * split; [split; [discriminate|intuition discriminate]|].
        split; [tauto|].
        split; [split; [discriminate|intuition discriminate]|reflexivity].
      * split; [split; [discriminate|intuition discriminate]|].
        split; [split; [discriminate|intuition discriminate]|].
        split; [tauto|reflexivity].
Qed.

Lemma lower_ascii_idempotent (c : ascii) :
  lower_ascii (lower_ascii c) = lower_ascii c.
Proof. destruct c as [[] [] [] [] [] [] [] []]; reflexivity. Qed.

Lemma lower_idempotent (s : string) : lower (lower s) = lower s.
Proof.
  induction s as [|c s IH]; simpl; [reflexivity|].
  now rewrite lower_ascii_idempotent, IH.
Qed.

(** X5: classification does not look at letter case: two descriptions
    that differ only in the case of ASCII letters get the same type, stored
    amount, category and subscription flag, and the flag that
    [prepare_transactions] computes from the lowered column is the flag of
    the description itself. *)
Theorem classification_ignores_case (cfg : FinanceAIConfig)
    (d d' : string) (value : pyfloat) (t : Z) (file : string) :
  lower d = lower d' ->
  _classify_transaction d value cfg = _classify_transaction d' value cfg
  /\ category_for_description cfg d = category_for_description cfg d'
  /\ is_subscription cfg d = is_subscription cfg d'
  /\ subscription (prepare_row cfg t d value file) = is_subscription cfg d.
Proof.
  intros E. split; [|split; [|split]].
  - unfold _classify_transaction, is_income, is_refund. now rewrite E.
  - unfold category_for_description. now rewrite E.
  - unfold is_subscription. now rewrite E.
  - unfold prepare_row. cbn [subscription]. unfold is_subscription.
    now rewrite lower_idempotent.
Qed.

Lemma classification_ignores_case_witness :
  _classify_transaction "UBER TRIP" (Fin 25) default_config
  = _classify_transaction "uber trip" (Fin 25) default_config
  /\ category_for_description default_config "UBER TRIP"
     = category_for_description default_config "uber trip"
  /\ is_subscription default_config "UBER TRIP"
     = is_subscription default_config "uber trip"
  /\ subscription (prepare_row default_config 0 "UBER TRIP" (Fin 25)
                     "nubank.csv")
     = is_subscription default_config "UBER TRIP".
Proof.
  apply (classification_ignores_case default_config "UBER TRIP" "uber trip"
           (Fin 25) 0 "nubank.csv").
  reflexivity.
Defined.

(** ** Preprocessing *)

Lemma cumsum_from_length (acc : Q) (l : list pyfloat) :
  List.length (cumsum_from acc l) = List.length l.
Proof.
  revert acc. induction l as [|x l IH]; intros acc; [reflexivity|].
  destruct x; simpl; now rewrite IH.
Qed.

Lemma map_combine_fst (A B C : Type) (g : A -> C) (l : list A) (l' : list B) :
  List.length l = List.length l' ->
  map (fun x => g (fst x)) (combine l l') = map g l.
Proof.
  revert l'. induction l as [|x l IH]; intros [|y l'] H; simpl in *;
    try discriminate; [reflexivity|].
  f_equal. apply IH. lia.
Qed.

Lemma map_combine_snd (A B C : Type) (g : B -> C) (l : list A) (l' : list B) :
  List.length l = List.length l' ->
  map (fun x => g (snd x)) (combine l l') = map g l'.
Proof.
  revert l'. induction l as [|x l IH]; intros [|y l'] H; simpl in *;
    try discriminate; [reflexivity|].
  f_equal. apply IH. lia.
Qed.

(** A column other than the running balance of the processed table is the
    column of the classified rows in date order. *)
Lemma processed_rows_column (C : Type) (f : Transaction -> C)
    (cfg : FinanceAIConfig) (df : list RawRow) :
  (forall r b, f (with_running_balance r b) = f r) ->
  map f (processed_rows cfg df)
  = map f (sort_values date (classify_rows cfg df)).
Proof.
  intros Hf. unfold processed_rows. rewrite map_map.
  rewrite (map_ext _ (fun x => f (fst x))) by (intros x; apply Hf).
  apply map_combine_fst.
  unfold cumsum. now rewrite cumsum_from_length, length_map.
Qed.

Lemma classify_rows_dates (cfg : FinanceAIConfig) (df : list RawRow) :
  map date (classify_rows cfg df) = parsed_dates df.
Proof.
  induction df as [|r df IH]; simpl; [reflexivity|].
  unfold parsed_dates in *. simpl.
  destruct (raw_date r); simpl; [now rewrite IH|exact IH].
Qed.

Lemma classify_rows_length (cfg : FinanceAIConfig) (df : list RawRow) :
  List.length (classify_rows cfg df) = List.length (filter dated df).
Proof.
  induction df as [|r df IH]; simpl; [reflexivity|].
  unfold dated at 1. destruct (raw_date r); simpl; now rewrite IH.
Qed.

Lemma sorted_map_key (A : Type) (key : A -> Z) (l : list A) :
  StronglySorted (key_le key) l -> StronglySorted Z.le (map key l).
Proof.
  induction 1 as [|x l _ IH Hx]; simpl; constructor; [exact IH|].
  rewrite Forall_map. exact Hx.
Qed.

Lemma map_key_sorted (A : Type) (key : A -> Z) (l : list A) :
  StronglySorted Z.le (map key l) -> StronglySorted (key_le key) l.
Proof.
  induction l as [|x l IH]; simpl; intros H; [constructor|].
  inversion H as [|? ? Hs Hx]; subst. constructor; [now apply IH|].
  rewrite Forall_map in Hx. exact Hx.
Qed.

Lemma processed_rows_date_sorted (cfg : FinanceAIConfig) (df : list RawRow) :
  StronglySorted (key_le date) (processed_rows cfg df).
Proof.
  apply map_key_sorted.
  rewrite (processed_rows_column _ date) by reflexivity.
  apply sorted_map_key. apply sort_values_sorted.
Qed.

(** X6: [prepare_transactions] raises KeyError when no row keeps a parsed
    date, an empty table included, and returns otherwise; the table it
    returns is in ascending date order and holds one row for every raw row
    whose date parsed: rows with an unparsable date are dropped, nothing
    else is lost or added. *)
Theorem prepare_transactions_sorted (cfg : FinanceAIConfig)
    (df : list RawRow) :
  (filter dated df = [] -> prepare_transactions cfg df = Raise "KeyError: 0")
  /\ (filter dated df <> [] ->
      exists out, prepare_transactions cfg df = Ok out)
  /\ (forall out,
        prepare_transactions cfg df = Ok out ->
        StronglySorted (key_le date) out
        /\ Permutation (map date out) (parsed_dates df)
        /\ List.length out = List.length (filter dated df)
        /\ out <> []).
Proof.
  pose proof (classify_rows_length cfg df) as Hl.
  split; [|split].
  - intros E. rewrite E in Hl. unfold prepare_transactions.
    destruct (classify_rows cfg df); [reflexivity|discriminate].
  - intros N. unfold prepare_transactions.
    destruct (classify_rows cfg df) as [|r rs] eqn:E;
      [|eexists; reflexivity].
    destruct (filter dated df); [congruence|discriminate].
  - intros out H. destruct (prepare_transactions_returns _ _ _ H) as [-> N].
    assert (E : map date (processed_rows cfg df)
                = map date (sort_values date (classify_rows cfg df))).
    { apply processed_rows_column. reflexivity. }
    assert (P : Permutation (map date (processed_rows cfg df))
                            (parsed_dates df)).
    { rewrite E, <- (classify_rows_dates cfg df). apply Permutation_map.
      apply Permutation_sym, sort_values_perm. }
    assert (L : List.length (processed_rows cfg df)
                = List.length (filter dated df)).
    { rewrite <- Hl, <- (length_map date), E, length_map.
      symmetry. apply Permutation_length, sort_values_perm. }
    split; [apply processed_rows_date_sorted|].
    split; [exact P|]. split; [exact L|].
    intros E0. rewrite E0 in L. simpl in L. rewrite <- Hl in L.
    destruct (classify_rows cfg df); [congruence|discriminate].
Qed.

Lemma prepare_transactions_sorted_witness :
  prepare_transactions default_config [undated_row "Padaria" 30]
  = Raise "KeyError: 0".
Proof.
  apply (prepare_transactions_sorted default_config
           [undated_row "Padaria" 30]).
  reflexivity.
Defined.

Lemma processed_rows_balances (cfg : FinanceAIConfig) (df : list RawRow) :
  map running_balance (processed_rows cfg df)
  = cumsum (map amount (sort_values date (classify_rows cfg df))).
Proof.
  unfold processed_rows. rewrite map_map.
  rewrite (map_ext _ (fun x => snd x)) by reflexivity.
  rewrite <- (map_id (cumsum _)) at 2.
  apply (map_combine_snd _ _ _ (fun b => b)).
  unfold cumsum. now rewrite cumsum_from_length, length_map.
Qed.

Lemma nansum_cons (x : pyfloat) (l : list pyfloat) :
  (nansum (x :: l) == fillna 0 x + nansum l)%Q.
Proof. unfold nansum. cbn [map]. apply Qsum_cons. Qed.

Lemma nansum_nil : nansum [] = 0%Q.
Proof. reflexivity. Qed.

(** The value [cumsum] leaves at a position: missing where the series is,
    else the sum of the series up to that position. *)
Lemma cumsum_from_nth (l : list pyfloat) :
  forall (acc : Q) (i : nat) (x : pyfloat),
    nth_error l i = Some x ->
    exists b,
      nth_error (cumsum_from acc l) i = Some b
      /\ feq b match x with
               | Fin _ => Fin (acc + nansum (firstn (S i) l))
               | NaN => NaN
               end.
Proof.
  induction l as [|y l IH]; intros acc i x H; [destruct i; discriminate|].
  destruct i as [|i].
  - simpl in H. injection H as ->. destruct x as [v|]; simpl.
    + eexists. split; [reflexivity|]. simpl.
      rewrite nansum_cons, nansum_nil. simpl. ring.
    + eexists. split; [reflexivity|exact I].
  - simpl in H. destruct y as [v|].
    + destruct (IH (acc + v)%Q i x H) as [b [Hb Fb]].
      exists b. split; [exact Hb|].
      destruct x as [w|]; [|exact Fb]. destruct b as [b|]; [|exact Fb].
      simpl in Fb |- *. rewrite Fb.
      change (firstn (S (S i)) (Fin v :: l))
        with (Fin v :: firstn (S i) l).
      rewrite nansum_cons. simpl. ring.
    + destruct (IH acc i x H) as [b [Hb Fb]].
      exists b. split; [exact Hb|].
      destruct x as [w|]; [|exact Fb]. destruct b as [b|]; [|exact Fb].
      simpl in Fb |- *. rewrite Fb.
      change (firstn (S (S i)) (NaN :: l)) with (NaN :: firstn (S i) l).
      rewrite nansum_cons. simpl. ring.
Qed.

(** X7: the table [prepare_transactions] returns is in date order, and
    its running balance is the running sum of the stored amounts in that
    order: missing on a row whose amount is missing, and otherwise the sum
    of the amounts up to and including the row, a missing one counting as
    zero. *)
Theorem running_balance_prefix_sum (cfg : FinanceAIConfig) (df : list RawRow)
    (out : list Transaction) :
  prepare_transactions cfg df = Ok out ->
  StronglySorted (key_le date) out
  /\ map running_balance out = cumsum (map amount out)
  /\ (forall i r,
        nth_error out i = Some r ->
        feq (running_balance r)
            match amount r with
            | Fin _ => Fin (nansum (map amount (firstn (S i) out)))
            | NaN => NaN
            end).
Proof.
  intros H. destruct (prepare_transactions_returns _ _ _ H) as [-> _].
  assert (E : map running_balance (processed_rows cfg df)
              = cumsum (map amount (processed_rows cfg df))).
  { rewrite processed_rows_balances.
    now rewrite (processed_rows_column _ amount) by reflexivity. }
  split; [apply processed_rows_date_sorted|]. split; [exact E|].
  intros i r Hr.
  assert (Ha : nth_error (map amount (processed_rows cfg df)) i
               = Some (amount r)) by now rewrite nth_error_map, Hr.
  assert (Hb : nth_error (map running_balance (processed_rows cfg df)) i
               = Some (running_balance r)) by now rewrite nth_error_map, Hr.
  destruct (cumsum_from_nth _ 0%Q i _ Ha) as [b [Hc Fb]].
  unfold cumsum in E. rewrite E in Hb. rewrite Hb in Hc.
  injection Hc as <-. rewrite firstn_map in Fb.
  destruct (amount r) as [v|]; [|exact Fb].
  destruct (running_balance r) as [w|]; [|exact Fb].
  simpl in Fb |- *. rewrite Fb. ring.
Qed.

Lemma running_balance_prefix_sum_witness :
  map running_balance two_months = cumsum (map amount two_months).
Proof.
  apply (running_balance_prefix_sum default_config
           [ raw_row (timestamp 2024 1 10 0) "Padaria" 30;
             raw_row (timestamp 2024 1 20 0) "Uber Trip" 10;
             raw_row (timestamp 2024 2 10 0) "Padaria" 20 ] two_months).
  reflexivity.
Defined.

Lemma classify_rows_In (cfg : FinanceAIConfig) (df : list RawRow)
    (r : Transaction) :
  In r (classify_rows cfg df) ->
  exists r0 d,
    In r0 df /\ raw_date r0 = Some d
    /\ r = prepare_row cfg d
             match raw_title r0 with Some t => t | None => "Desconhecido" end
             (raw_amount r0) (source_file r0).
Proof.
  induction df as [|x df IH]; simpl; [tauto|].
  destruct (raw_date x) as [d|] eqn:E.
  - intros [<-|H].
    + exists x, d. auto.
    + destruct (IH H) as [r0 [d0 [H0 H1]]]. exists r0, d0. auto.
  - intros H. destruct (IH H) as [r0 [d0 [H0 H1]]]. exists r0, d0. auto.
Qed.

(** Every processed row is the classification of a raw row with a parsed
    date, with a balance written into it. *)
Lemma processed_rows_In (cfg : FinanceAIConfig) (df : list RawRow)
    (r : Transaction) :
  In r (processed_rows cfg df) ->
  exists r0 d b,
    In r0 df /\ raw_date r0 = Some d
    /\ r = with_running_balance
             (prepare_row cfg d
                match raw_title r0 with Some t => t | None => "Desconhecido" end
                (raw_amount r0) (source_file r0)) b.
Proof.
  unfold processed_rows. intros H.
  apply In_map_combine in H. destruct H as [a [b [Ha ->]]].
  apply sort_values_In in Ha. apply classify_rows_In in Ha.
  destruct Ha as [r0 [d [H0 [H1 ->]]]]. exists r0, d, b. auto.
Qed.

Lemma Qabs_idempotent (x : Q) : (Qabs (Qabs x) == Qabs x)%Q.
Proof. apply Qabs_pos. apply Qabs_nonneg. Qed.

(** X9: classification keeps the magnitude of the loaded amount: on every
    row of the table [prepare_transactions] returns, [abs_amount] is the
    absolute loaded amount, never negative, and the stored amount is
    [-abs_amount] for an expense and [+abs_amount] otherwise; where the
    loaded amount is missing, both are missing. *)
Theorem classification_keeps_magnitude (cfg : FinanceAIConfig)
    (df : list RawRow) (out : list Transaction) :
  prepare_transactions cfg df = Ok out ->
  Forall (fun r =>
            feq (abs_amount r) (fabs (configured_amount r))
            /\ feq (amount r)
                   (if String.eqb (transaction_type r) "expense"
                    then fneg (abs_amount r) else abs_amount r)
            /\ (isna (configured_amount r) = false ->
                fle (Fin 0) (abs_amount r))
            /\ (isna (configured_amount r) = true ->
                abs_amount r = NaN /\ amount r = NaN))
         out.
Proof.
  intros H. destruct (prepare_transactions_returns _ _ _ H) as [-> _].
  apply Forall_forall. intros r Hr.
  apply processed_rows_In in Hr.
  destruct Hr as [r0 [d [b [_ [_ ->]]]]].
  set (description := match raw_title r0 with
                      | Some t => t | None => "Desconhecido" end).
  unfold with_running_balance, prepare_row.
  cbn [abs_amount configured_amount amount transaction_type].
  destruct (classify_cases description (raw_amount r0) cfg)
    as [[E V]|[[E V]|[E [V _]]]]; rewrite E, V;
    destruct (raw_amount r0) as [q|];
    cbn [fabs fneg feq fle isna]; simpl (String.eqb _ _); cbv iota;
    cbn [fabs fneg feq fle isna];
    (split; [|split; [|split]]);
    try exact I; try (intros G; discriminate G); try (intros _);
    rewrite ?Qabs_opp, ?Qabs_idempotent;
    try reflexivity; try apply Qabs_nonneg; try (split; reflexivity).
Qed.

Lemma classification_keeps_magnitude_witness :
  Forall (fun r =>
            feq (abs_amount r) (fabs (configured_amount r))
            /\ feq (amount r)
                   (if String.eqb (transaction_type r) "expense"
                    then fneg (abs_amount r) else abs_amount r)
            /\ (isna (configured_amount r) = false ->
                fle (Fin 0) (abs_amount r))
            /\ (isna (configured_amount r) = true ->
                abs_amount r = NaN /\ amount r = NaN))
         (processed_rows default_config
            [ raw_row (timestamp 2024 1 10 0) "Padaria" 30;
              missing_amount_row (timestamp 2024 1 20 0) "Uber Trip" ]).
Proof.
  apply (classification_keeps_magnitude default_config
           [ raw_row (timestamp 2024 1 10 0) "Padaria" 30;
             missing_amount_row (timestamp 2024 1 20 0) "Uber Trip" ]).
  reflexivity.
Defined.

Lemma month_start_le (o1 o2 : Z) :
  (o1 <= o2)%Z -> (month_start o1 <= month_start o2)%Z.
Proof.
  intros H. destruct (Z.eq_dec o1 o2) as [->|N]; [lia|].
  pose proof (month_start_lt o1 o2 ltac:(lia)). lia.
Qed.

(** The month that holds a day is the only one that does. *)
Lemma month_ordinal_unique (d o : Z) :
  (month_start o <= d < month_start (o + 1))%Z -> month_ordinal d = o.
Proof.
  intros H. pose proof (month_ordinal_spec d) as S.
  destruct (Z_lt_ge_dec (month_ordinal d) o) as [L|G].
  - pose proof (month_start_le (month_ordinal d + 1) o ltac:(lia)). lia.
  - destruct (Z.eq_dec (month_ordinal d) o) as [E|N]; [exact E|].
    pose proof (month_start_le (o + 1) (month_ordinal d) ltac:(lia)). lia.
Qed.

Lemma day_of_day_start (d : Z) : day_of (day_start d) = d.
Proof. unfold day_of, day_start, ns_per_day. apply Z.div_mul. lia. Qed.

Lemma day_of_before_midnight (d : Z) : day_of (day_start d - 1) = (d - 1)%Z.
Proof.
  unfold day_of, day_start, ns_per_day.
  symmetry. apply (Z.div_unique _ _ _ 86399999999999); lia.
Qed.

(** X10: the calendar columns of a row of the table
    [prepare_transactions] returns, pinned to its timestamp.  [date_only]
    is the day that holds the timestamp and [hour] the hour of that day
    that holds it; the weekday is the day number plus 3 modulo 7 (day 0,
    1970-01-01, was a Thursday), and the weekend flag is 1 exactly on
    weekdays 5 and 6; [month] is the midnight that starts the month of the
    timestamp: a midnight in that month whose preceding instant lies in the
    month before; [year] is the year of that month. *)
Theorem calendar_columns_in_range (cfg : FinanceAIConfig) (df : list RawRow)
    (out : list Transaction) :
  prepare_transactions cfg df = Ok out ->
  Forall (fun r =>
            (0 <= day_of_week r <= 6)%Z
            /\ ((date_only r + 3 - day_of_week r) mod 7 = 0)%Z
            /\ is_weekend r = (if (5 <=? day_of_week r)%Z then 1 else 0)%Z
            /\ (0 <= hour r <= 23)%Z
            /\ (day_start (date_only r) + hour r * ns_per_hour <= date r
                < day_start (date_only r) + (hour r + 1) * ns_per_hour)%Z
            /\ (day_start (date_only r) <= date r
                < day_start (date_only r + 1))%Z
            /\ (exists first_day, month r = day_start first_day)
            /\ (month r <= date r)%Z
            /\ month_of (month r) = month_of (date r)
            /\ month_of (month r - 1) = (month_of (date r) - 1)%Z
            /\ (12 * year r <= month_of (date r) + 2 < 12 * (year r + 1))%Z)
         out.
Proof.
  intros H. destruct (prepare_transactions_returns _ _ _ H) as [-> _].
  apply Forall_forall. intros r Hr.
  apply processed_rows_In in Hr.
  destruct Hr as [r0 [d [b [_ [_ ->]]]]].
  unfold with_running_balance, prepare_row.
  cbn [day_of_week is_weekend hour date_only date month year].
  assert (Hdow : (0 <= dayofweek d <= 6)%Z).
  { unfold dayofweek. pose proof (Z.mod_pos_bound (day_of d + 3) 7). lia. }
  assert (Hday : (day_start (day_of d) <= d < day_start (day_of d + 1))%Z).
  { unfold day_start, day_of, ns_per_day.
    pose proof (Z.div_mod d 86400000000000 ltac:(lia)).
    pose proof (Z.mod_pos_bound d 86400000000000 ltac:(lia)). lia. }
  pose proof (month_ordinal_spec (day_of d)) as Hm. fold (month_of d) in Hm.
  pose proof (month_start_step (month_of d - 1)) as Hstep.
  replace (month_of d - 1 + 1)%Z with (month_of d) in Hstep by lia.
  split; [exact Hdow|]. split.
  { unfold dayofweek.
    rewrite Zminus_mod, Z.mod_mod by lia.
    rewrite Z.sub_diag. reflexivity. }
  split.
  { destruct (dayofweek d =? 5)%Z eqn:E5; simpl.
    - apply Z.eqb_eq in E5. rewrite E5. reflexivity.
    - destruct (dayofweek d =? 6)%Z eqn:E6.
      + apply Z.eqb_eq in E6. rewrite E6. reflexivity.
      + apply Z.eqb_neq in E5. apply Z.eqb_neq in E6.
        destruct (Z.leb_spec 5 (dayofweek d)); [lia|reflexivity]. }
  assert (Hhour : (0 <= hour_of d <= 23
                   /\ hour_of d * ns_per_hour <= d mod ns_per_day
                      < (hour_of d + 1) * ns_per_hour)%Z).
  { unfold hour_of, ns_per_day, ns_per_hour.
    pose proof (Z.mod_pos_bound d 86400000000000 ltac:(lia)) as Hb.
    set (tod := (d mod 86400000000000)%Z) in *.
    pose proof (Z.div_mod tod 3600000000000 ltac:(lia)).
    pose proof (Z.mod_pos_bound tod 3600000000000 ltac:(lia)).
    assert ((tod / 3600000000000 < 24)%Z)
      by (apply Z.div_lt_upper_bound; lia).
    assert ((0 <= tod / 3600000000000)%Z) by (apply Z.div_pos; lia).
    lia. }
  assert (Hsplit : (d = day_start (day_of d) + d mod ns_per_day)%Z).
  { unfold day_start, day_of, ns_per_day.
    pose proof (Z.div_mod d 86400000000000 ltac:(lia)). lia. }
  split; [tauto|]. split; [lia|]. split; [exact Hday|].
  unfold month_floor.
  split; [eexists; reflexivity|].
  split; [pose proof (day_start_le (month_start (month_of d)) (day_of d));
          lia|].
  split.
  { unfold month_of at 1. rewrite day_of_day_start.
    apply month_ordinal_unique. lia. }
  split.
  { unfold month_of at 1. rewrite day_of_before_midnight.
    apply month_ordinal_unique.
    replace (month_of d - 1 + 1)%Z with (month_of d) by lia. lia. }
  unfold year_of.
  pose proof (Z.div_mod (month_of d + 2) 12 ltac:(lia)).
  pose proof (Z.mod_pos_bound (month_of d + 2) 12 ltac:(lia)). lia.
Qed.

Lemma calendar_columns_in_range_witness :
  Forall (fun r =>
            (0 <= day_of_week r <= 6)%Z
            /\ ((date_only r + 3 - day_of_week r) mod 7 = 0)%Z
            /\ is_weekend r = (if (5 <=? day_of_week r)%Z then 1 else 0)%Z
            /\ (0 <= hour r <= 23)%Z
            /\ (day_start (date_only r) + hour r * ns_per_hour <= date r
                < day_start (date_only r) + (hour r + 1) * ns_per_hour)%Z
            /\ (day_start (date_only r) <= date r
                < day_start (date_only r + 1))%Z
            /\ (exists first_day, month r = day_start first_day)
            /\ (month r <= date r)%Z
            /\ month_of (month r) = month_of (date r)
            /\ month_of (month r - 1) = (month_of (date r) - 1)%Z
            /\ (12 * year r <= month_of (date r) + 2 < 12 * (year r + 1))%Z)
         two_months_and_march.
Proof.
  apply (calendar_columns_in_range default_config
           [ raw_row (timestamp 2024 1 10 0) "Padaria" 30;
             raw_row (timestamp 2024 1 20 0) "Uber Trip" 10;
             raw_row (timestamp 2024 2 10 0) "Padaria" 20;
             raw_row (timestamp 2024 3 5 12) "Netflix" 40 ]).
  reflexivity.
Defined.

(** *** The cleaned merchant name *)

Lemma keep_chars_all (s : string) : all_chars keep_char (keep_chars s) = true.
Proof.
  induction s as [|c s IH]; simpl; [reflexivity|].
  destruct (keep_char c) eqn:E; simpl; [now rewrite E|exact IH].
Qed.

Lemma keep_chars_fixed (s : string) :
  all_chars keep_char s = true -> keep_chars s = s.
Proof.
  induction s as [|c s IH]; simpl; [reflexivity|].
  intros H. apply andb_prop in H. destruct H as [Hc Hs].
  rewrite Hc. f_equal. now apply IH.
Qed.

Lemma lstrip_cases (s : string) :
  (exists s', s = String " " s' /\ lstrip s = lstrip s')
  \/ (first_char s <> Some " "%char /\ lstrip s = s).
Proof.
  destruct s as [|c s]; [right; split; [discriminate|reflexivity]|].
  destruct (Ascii.eqb_spec c " ") as [->|N].
  - left. exists s. auto.
  - right. split; [simpl; congruence|].
    simpl. destruct c as [[] [] [] [] [] [] [] []]; try reflexivity.
    exfalso. now apply N.
Qed.

Lemma lstrip_all (p : ascii -> bool) (s : string) :
  all_chars p s = true -> all_chars p (lstrip s) = true.
Proof.
  induction s as [|c s IH]; [auto|]. intros H.
  destruct (lstrip_cases (String c s)) as [[s' [E L]]|[_ L]].
  - inversion E; subst. rewrite L. apply IH.
    simpl in H. apply andb_prop in H. tauto.
  - now rewrite L.
Qed.

Lemma lstrip_first (s : string) : first_char (lstrip s) <> Some " "%char.
Proof.
  induction s as [|c s IH]; [discriminate|].
  destruct (lstrip_cases (String c s)) as [[s' [E L]]|[F L]].
  - inversion E; subst. now rewrite L.
  - now rewrite L.
Qed.

Lemma rstrip_cons (c : ascii) (s : string) :
  rstrip (String c s)
  = match rstrip s with
    | EmptyString => if is_space c then EmptyString else String c EmptyString
    | t => String c t
    end.
Proof. reflexivity. Qed.

Lemma rstrip_all (p : ascii -> bool) (s : string) :
  all_chars p s = true -> all_chars p (rstrip s) = true.
Proof.
  induction s as [|c s IH]; [auto|]. intros H.
  simpl in H. apply andb_prop in H. destruct H as [Hc Hs].
  rewrite rstrip_cons. specialize (IH Hs).
  destruct (rstrip s) as [|c' t].
  - destruct (is_space c); simpl; [reflexivity|now rewrite Hc].
  - simpl in *. now rewrite Hc.
Qed.

Lemma rstrip_last (s : string) : last_char (rstrip s) <> Some " "%char.
Proof.
  induction s as [|c s IH]; [discriminate|].
  rewrite rstrip_cons. destruct (rstrip s) as [|c' t].
  - destruct (is_space c) eqn:E; [discriminate|].
    simpl. intros H. inversion H; subst. discriminate.
  - exact IH.
Qed.

Lemma rstrip_first (s : string) :
  first_char s <> Some " "%char -> first_char (rstrip s) <> Some " "%char.
Proof.
  destruct s as [|c s]; [auto|]. intros H. simpl in H.
  rewrite rstrip_cons. destruct (rstrip s) as [|c' t].
  - destruct (is_space c); [discriminate|exact H].
  - exact H.
Qed.

Lemma rstrip_fixed (s : string) :
  last_char s <> Some " "%char -> rstrip s = s.
Proof.
  induction s as [|c s IH]; [reflexivity|]. intros H.
  rewrite rstrip_cons. destruct s as [|c' s'].
  - simpl. unfold is_space. destruct (Ascii.eqb_spec c " ") as [->|N].
    + exfalso. now apply H.
    + reflexivity.
  - rewrite IH by exact H.
    reflexivity.
Qed.

Lemma lstrip_fixed (s : string) :
  first_char s <> Some " "%char -> lstrip s = s.
Proof.
  intros H. destruct (lstrip_cases s) as [[s' [E _]]|[_ L]]; [|exact L].
  subst. exfalso. now apply H.
Qed.

(** X11: the cleaned merchant name holds only ASCII letters, digits and
    spaces, neither starts nor ends with a space, and cleaning it again
    changes nothing. *)
Theorem clean_merchant_normal_form (s : string) :
  all_chars keep_char (clean_merchant s) = true
  /\ first_char (clean_merchant s) <> Some " "%char
  /\ last_char (clean_merchant s) <> Some " "%char
  /\ clean_merchant (clean_merchant s) = clean_merchant s.
Proof.
  assert (A : all_chars keep_char (clean_merchant s) = true).
  { unfold clean_merchant. apply rstrip_all, lstrip_all, keep_chars_all. }
  assert (F : first_char (clean_merchant s) <> Some " "%char).
  { unfold clean_merchant. apply rstrip_first, lstrip_first. }
  assert (L : last_char (clean_merchant s) <> Some " "%char).
  { unfold clean_merchant. apply rstrip_last. }
  repeat split; try assumption.
  unfold clean_merchant at 1.
  rewrite (keep_chars_fixed _ A), (lstrip_fixed _ F), (rstrip_fixed _ L).
  reflexivity.
Qed.

(** ** Feature Engine: rows, signs and windows *)

Lemma sort_values_sorted_id (A : Type) (key : A -> Z) (l : list A) :
  StronglySorted (key_le key) l -> sort_values key l = l.
Proof.
  induction 1 as [|x l _ IH Hx]; [reflexivity|].
  simpl. rewrite IH. destruct l as [|y l]; [reflexivity|].
  simpl. inversion Hx as [|? ? Hy _]; subst. unfold key_le in Hy.
  apply Z.leb_le in Hy. now rewrite Hy.
Qed.

Lemma map_fst_combine (A B : Type) (l : list A) (l' : list B) :
  List.length l = List.length l' -> map fst (combine l l') = l.
Proof.
  revert l'. induction l as [|x l IH]; intros [|y l'] H; simpl in *;
    try discriminate; [reflexivity|].
  f_equal. apply IH. lia.
Qed.

Lemma rolling_columns_from_fst (se si : series pyfloat)
    (df : list Transaction) :
  map fst (rolling_columns_from se si df) = df.
Proof.
  unfold rolling_columns_from. apply map_fst_combine.
  repeat (rewrite combine_length_eq);
    unfold expense_series, income_series, series_of;
    rewrite ?rolling_sum_from_length, ?length_map; reflexivity.
Qed.

Lemma engineer_features_txn_column (fsqrt : Q -> Q) (df : list Transaction) :
  map txn (engineer_features fsqrt df) = sort_values date df.
Proof.
  rewrite engineer_features_rows. cbv zeta. rewrite map_map.
  rewrite (map_ext _ fst) by (intros x; apply build_row_txn).
  apply rolling_columns_from_fst.
Qed.

(** X12: [engineer_features] returns one feature row per input row, each
    built on a row of the input, in ascending date order.  On the table
    that [prepare_transactions] returns, when no two rows share a
    timestamp, it leaves the rows in their order, so that row [i] of the
    features is row [i] of the processed table. *)
Theorem feature_rows_aligned (fsqrt : Q -> Q) (cfg : FinanceAIConfig)
    (df : list RawRow) (out t : list Transaction) :
  prepare_transactions cfg df = Ok out ->
  NoDup (map date out) ->
  Permutation t (map txn (engineer_features fsqrt t))
  /\ StronglySorted (key_le date) (map txn (engineer_features fsqrt t))
  /\ List.length (engineer_features fsqrt t) = List.length t
  /\ map txn (engineer_features fsqrt out) = out.
Proof.
  intros H _. destruct (prepare_transactions_returns _ _ _ H) as [-> _].
  rewrite !engineer_features_txn_column.
  split; [apply sort_values_perm|]. split; [apply sort_values_sorted|]. split.
  - rewrite <- (length_map txn), engineer_features_txn_column.
    symmetry. apply Permutation_length. apply sort_values_perm.
  - apply sort_values_sorted_id. apply processed_rows_date_sorted.
Qed.

Lemma feature_rows_aligned_witness :
  map txn (engineer_features (fun v => v) two_months) = two_months.
Proof.
  apply (feature_rows_aligned (fun v => v) default_config
           [ raw_row (timestamp 2024 1 10 0) "Padaria" 30;
             raw_row (timestamp 2024 1 20 0) "Uber Trip" 10;
             raw_row (timestamp 2024 2 10 0) "Padaria" 20 ]
           two_months two_months).
  - reflexivity.
  - vm_compute. repeat constructor; simpl; intuition discriminate.
Defined.






(** The observations of a series without a missing value are its values. *)
Lemma dropna_numbers (l : list pyfloat) :
  Forall (fun x => isna x = false) l -> dropna l = map (fillna 0) l.
Proof.
  induction 1 as [|x l Hx _ IH]; [reflexivity|].
  destruct x; [|discriminate]. simpl. now rewrite IH.
Qed.










Lemma classified_expense_nonpos (r : Transaction) :
  classified r -> fle (expense_amount r) (Fin 0).
Proof.
  unfold classified, sign_convention, expense_amount.
  destruct (amount r) as [q|]; [|tauto]. intros [_ [He _]].
  destruct (String.eqb_spec (transaction_type r) "expense") as [E|N];
    simpl; [now apply He|apply Qle_refl].
Qed.

Lemma classified_income_nonneg (r : Transaction) :
  classified r -> fle (Fin 0) (income_amount r).
Proof.
  unfold classified, sign_convention, income_amount.
  destruct (amount r) as [q|]; [|tauto]. intros [_ [_ Ho]].
  destruct (String.eqb_spec (transaction_type r) "expense") as [E|N];
    simpl; [apply Qle_refl|now apply Ho].
Qed.



(** ** Feature Engine: the daily z-score and the month totals *)

Lemma window_at_length (n i : nat) (l : list Q) :
  (List.length (window_at n l i) <= List.length l)%nat.
Proof.
  unfold window_at. rewrite length_skipn, length_firstn. lia.
Qed.

Lemma zscore_rows_short (fsqrt : Q -> Q) (values : list Q) (offset : nat)
    (rows : series Q) :
  (List.length values < 7)%nat ->
  Forall (fun e => snd e = NaN) (zscore_rows_from fsqrt values offset rows).
Proof.
  intros H. unfold zscore_rows_from. rewrite Forall_map.
  apply Forall_forall. intros [i e] _. cbn [fst snd].
  unfold rolling_mean.
  pose proof (window_at_length 30 i values) as Hw.
  destruct (Nat.ltb_spec (List.length (window_at 30 values i)) 7) as [L|G];
    [reflexivity|lia].
Qed.

Lemma reindex_all_nan (s : series pyfloat) (t : Z) :
  Forall (fun e => snd e = NaN) s -> reindex_ffill s t = NaN.
Proof.
  unfold reindex_ffill. induction 1 as [|e s He _ IH]; simpl; [reflexivity|].
  rewrite He. destruct (fst e <=? t)%Z; [exact IH|reflexivity].
Qed.

Lemma resample_sum_length (bin_of label_of : Z -> Z) (a : Z * pyfloat)
    (s : series pyfloat) :
  List.length (resample_sum bin_of label_of (a :: s))
  = Z.to_nat (bin_of (fst (last s a)) - bin_of (fst a) + 1).
Proof.
  unfold resample_sum. rewrite last_index_cons. cbn [first_index].
  unfold zrange. now rewrite !length_map, length_seq.
Qed.

Lemma build_row_zscore (z me mi : series pyfloat)
    (x : Transaction * rolling_tuple) :
  daily_spend_zscore (build_row z me mi x)
  = fillna 0%Q (reindex_ffill z (date (fst x))).
Proof. destruct x as [r [a [b [c [d e]]]]]. reflexivity. Qed.

(** X14: while the table spans fewer than seven calendar days the
    30-day statistics have fewer than the seven daily observations they
    require, and [daily_spend_zscore] is 0 on every row. *)
Theorem zscore_zero_on_short_history (fsqrt : Q -> Q) (t : list Transaction) :
  (forall r1 r2, In r1 t -> In r2 t ->
                 (day_of (date r2) - day_of (date r1) < 6)%Z) ->
  Forall (fun f => daily_spend_zscore f = 0%Q) (engineer_features fsqrt t).
Proof.
  intros Hspan. rewrite engineer_features_rows. cbv zeta.
  set (sorted := sort_values date t).
  rewrite Forall_map. apply Forall_forall. intros x _.
  rewrite build_row_zscore.
  rewrite reindex_all_nan; [reflexivity|].
  rewrite daily_zscore_rows. apply zscore_rows_short.
  rewrite length_map. unfold resample_D.
  rewrite expense_series_of. unfold series_of.
  destruct sorted as [|p0 rest] eqn:Es; [simpl; lia|].
  cbn [map]. rewrite resample_sum_length.
  change (date p0, expense_amount p0)
    with ((fun r => (date r, expense_amount r)) p0).
  rewrite last_map. cbn [fst].
  assert (H0 : In p0 t).
  { apply (sort_values_In _ date). fold sorted. rewrite Es. now left. }
  assert (H1 : In (last rest p0) t).
  { apply (sort_values_In _ date). fold sorted. rewrite Es. apply last_In. }
  specialize (Hspan p0 (last rest p0) H0 H1). lia.
Qed.

Lemma zscore_zero_on_short_history_witness :
  Forall (fun f => daily_spend_zscore f = 0%Q)
         (engineer_features (fun v => v) month_end_day).
Proof.
  apply (zscore_zero_on_short_history (fun v => v) month_end_day).
  intros r1 r2 H1 H2.
  destruct H1 as [<-|[<-|[]]]; destruct H2 as [<-|[<-|[]]];
    vm_compute; reflexivity.
Defined.

Lemma ffill_prefix_all (pre rest : series pyfloat) (t : Z) :
  forall acc,
    Forall (fun e => (fst e <= t)%Z) pre -> stops t rest ->
    ffill_from acc (pre ++ rest) t = last (map snd pre) acc.
Proof.
  induction pre as [|e pre IH]; intros acc Hpre Hrest.
  - simpl. now apply ffill_from_stops.
  - inversion Hpre as [|? ? He Hpre']; subst. simpl app. simpl ffill_from.
    apply Z.leb_le in He. rewrite He. rewrite (IH (snd e) Hpre' Hrest).
    simpl map. now rewrite last_cons.
Qed.

Lemma zrange_last (a k : Z) : (a <= k)%Z -> zrange a k = zrange a (k - 1) ++ [k].
Proof.
  intros H. rewrite (zrange_split a (k - 1) k) by lia. f_equal.
  unfold zrange. replace (k - 1 + 1)%Z with k by lia.
  replace (Z.to_nat (k - k + 1)) with 1%nat by lia. simpl. f_equal. lia.
Qed.

(** The value a forward fill reads from a resampled series at [t], when
    the label of bin [k] is the last one not after [t]. *)
Lemma reindex_resample_at (bin_of label_of : Z -> Z) (a : Z * pyfloat)
    (s : series pyfloat) (k t : Z) :
  (bin_of (fst a) <= k <= bin_of (fst (last s a)))%Z ->
  (forall b, (bin_of (fst a) <= b <= k)%Z -> (label_of b <= t)%Z) ->
  (t < label_of (k + 1))%Z ->
  reindex_ffill (to_float (resample_sum bin_of label_of (a :: s))) t
  = Fin (bin_sum bin_of k (a :: s)).
Proof.
  intros Hk Hle Hlt. unfold resample_sum.
  rewrite last_index_cons. cbn [first_index].
  rewrite (zrange_split _ k _) by lia.
  unfold to_float, reindex_ffill. rewrite !map_app, !map_map. cbn [fst snd].
  rewrite ffill_prefix_all.
  - rewrite map_map. cbn [snd]. rewrite (zrange_last _ k) by lia.
    rewrite map_app. simpl. now rewrite last_last.
  - rewrite Forall_map. cbn [fst]. apply Forall_forall. intros b Hb.
    apply zrange_In in Hb. now apply Hle.
  - apply (stops_map_zrange pyfloat t _ _ label_of). exact Hlt.
Qed.

Lemma reindex_resample_before (bin_of label_of : Z -> Z) (a : Z * pyfloat)
    (s : series pyfloat) (t : Z) :
  (t < label_of (bin_of (fst a)))%Z ->
  reindex_ffill (to_float (resample_sum bin_of label_of (a :: s))) t = NaN.
Proof.
  intros Hlt. unfold resample_sum.
  rewrite last_index_cons. cbn [first_index].
  unfold to_float, reindex_ffill. rewrite map_map. cbn [fst snd].
  apply ffill_from_stops.
  apply (stops_map_zrange pyfloat t _ _ label_of). exact Hlt.
Qed.

Lemma month_end_le (o1 o2 : Z) :
  (o1 <= o2)%Z -> (month_end o1 <= month_end o2)%Z.
Proof.
  intros H. destruct (Z.eq_dec o1 o2) as [->|N]; [lia|].
  pose proof (month_end_lt o1 o2 ltac:(lia)). lia.
Qed.

(** What a row reads from the month totals of a series over a sorted
    table. *)
Lemma month_total_of_row (v : Transaction -> pyfloat) (p0 : Transaction)
    (rest : list Transaction) (r : Transaction) :
  StronglySorted (key_le date) (p0 :: rest) -> In r (p0 :: rest) ->
  let d := date r in
  let m := month_of d in
  let total := reindex_ffill (to_float (resample_M (series_of v (p0 :: rest)))) d in
  (day_of d = month_end m ->
   total = Fin (bin_sum month_of m (series_of v (p0 :: rest))))
  /\ ((day_of d < month_end m)%Z -> (month_of (date p0) < m)%Z ->
      total = Fin (bin_sum month_of (m - 1) (series_of v (p0 :: rest))))
  /\ ((day_of d < month_end m)%Z -> month_of (date p0) = m ->
      total = NaN).
Proof.
  intros Hs Hr d m total. subst total.
  pose proof (sorted_bounds _ date rest p0 Hs r Hr) as [Hlo Hhi].
  fold d in Hlo, Hhi.
  change (series_of v (p0 :: rest))
    with ((date p0, v p0) :: series_of v rest).
  unfold resample_M.
  pose proof (month_ordinal_spec (day_of d)) as Hspec. fold (month_of d) in Hspec.
  fold m in Hspec.
  assert (Hfirst : (month_of (date p0) <= m)%Z) by now apply month_of_mono.
  assert (Hlast : (m <= month_of (date (last rest p0)))%Z)
    by now apply month_of_mono.
  split; [|split].
  - intros Hend. apply reindex_resample_at.
    + cbn [fst]. rewrite series_of_last. lia.
    + intros b Hb. cbn [fst] in Hb.
      pose proof (month_end_le b m ltac:(lia)).
      pose proof (day_start_le (month_end b) (day_of d) ltac:(lia)).
      assert ((day_start (day_of d) <= d)%Z); [|lia].
      unfold day_start, day_of, ns_per_day.
      pose proof (Z.div_mod d 86400000000000 ltac:(lia)).
      pose proof (Z.mod_pos_bound d 86400000000000 ltac:(lia)). lia.
    + apply month_label_after. fold m. lia.
  - intros Hnot Hprev. apply reindex_resample_at.
    + cbn [fst]. rewrite series_of_last. lia.
    + intros b Hb. cbn [fst] in Hb.
      pose proof (month_end_le b (m - 1) ltac:(lia)).
      assert (E : month_end (m - 1) = (month_start m - 1)%Z).
      { unfold month_end. f_equal. f_equal. lia. }
      pose proof (day_start_le (month_end b) (day_of d) ltac:(lia)).
      assert ((day_start (day_of d) <= d)%Z); [|lia].
      unfold day_start, day_of, ns_per_day.
      pose proof (Z.div_mod d 86400000000000 ltac:(lia)).
      pose proof (Z.mod_pos_bound d 86400000000000 ltac:(lia)). lia.
    + replace (m - 1 + 1)%Z with m by lia. now apply day_of_lt.
  - intros Hnot E. apply reindex_resample_before. cbn [fst]. rewrite E.
    now apply day_of_lt.
Qed.

Lemma build_row_month_totals (z me mi : series pyfloat)
    (x : Transaction * rolling_tuple) :
  month_total_expense (build_row z me mi x) = reindex_ffill me (date (fst x))
  /\ month_total_income (build_row z me mi x) = reindex_ffill mi (date (fst x)).
Proof. destruct x as [r [a [b [c [d e]]]]]. split; reflexivity. Qed.

(** X15: what [month_total_expense] and [month_total_income] hold.  A
    row on the last day of its month reads the totals of its own month;
    any other row reads the totals of the previous calendar month when the
    table has a row before the row's month, and NaN when it has none. *)
Theorem month_totals_read_previous_month (fsqrt : Q -> Q)
    (t : list Transaction) :
  Forall (fun f =>
            let d := date (txn f) in
            let m := month_of d in
            (day_of d = month_end m ->
             month_total_expense f = Fin (month_expense_total t m)
             /\ month_total_income f = Fin (month_income_total t m))
            /\ ((day_of d < month_end m)%Z ->
                (exists r0, In r0 t /\ (month_of (date r0) < m)%Z) ->
                month_total_expense f = Fin (month_expense_total t (m - 1))
                /\ month_total_income f = Fin (month_income_total t (m - 1)))
            /\ ((day_of d < month_end m)%Z ->
                (forall r0, In r0 t -> (m <= month_of (date r0))%Z) ->
                month_total_expense f = NaN /\ month_total_income f = NaN))
         (engineer_features fsqrt t).
Proof.
  rewrite engineer_features_rows. cbv zeta.
  unfold month_expense_total, month_income_total.
  pose proof (sort_values_sorted date t) as Hs.
  assert (Hin : forall r, In r (sort_values date t) <-> In r t)
    by (intros r; apply sort_values_In).
  remember (sort_values date t) as sorted eqn:Es. clear Es.
  rewrite Forall_map. apply Forall_forall. intros x Hx.
  apply rolling_columns_from_In in Hx.
  destruct (build_row_month_totals
              (daily_zscore fsqrt (expense_series sorted))
              (to_float (resample_M (expense_series sorted)))
              (to_float (resample_M (income_series sorted))) x) as [Ee Ei].
  rewrite build_row_txn, Ee, Ei. clear Ee Ei.
  destruct sorted as [|p0 rest]; [destruct Hx|].
  rewrite !expense_series_of, !income_series_of.
  pose proof (month_total_of_row expense_amount p0 rest (fst x) Hs Hx) as He.
  pose proof (month_total_of_row income_amount p0 rest (fst x) Hs Hx) as Hi.
  cbv zeta in He, Hi |- *.
  destruct He as [He1 [He2 He3]]. destruct Hi as [Hi1 [Hi2 Hi3]].
  pose proof (sorted_bounds _ date rest p0 Hs) as Hb.
  split; [|split].
  - intros Hend. split; [now apply He1|now apply Hi1].
  - intros Hnot [r0 [Hr0 Hlt]].
    assert (Hp : (month_of (date p0) < month_of (date (fst x)))%Z).
    { apply Hin in Hr0. destruct (Hb r0 Hr0) as [Hle _].
      pose proof (month_of_mono _ _ Hle). lia. }
    split; [now apply He2|now apply Hi2].
  - intros Hnot Hall.
    assert (Hp : month_of (date p0) = month_of (date (fst x))).
    { destruct (Hb (fst x) Hx) as [Hle _].
      pose proof (month_of_mono _ _ Hle).
      assert (Hp0 : In p0 t) by (apply Hin; now left).
      pose proof (Hall p0 Hp0). lia. }
    split; [now apply He3|now apply Hi3].
Qed.

Lemma month_totals_read_previous_month_witness :
  Forall (fun f =>
            date (txn f) = timestamp 2024 2 10 0 ->
            month_total_expense f
            = Fin (month_expense_total two_months
                     (month_of (timestamp 2024 1 10 0))))
         (engineer_features (fun v => v) two_months).
Proof.
  pose proof (month_totals_read_previous_month (fun v => v) two_months) as H.
  eapply Forall_impl; [|exact H]. cbv beta zeta.
  intros f [_ [H2 _]] E. rewrite E in H2.
  destruct H2 as [H2 _]; [vm_compute; reflexivity| |exact H2].
  eexists. split; [left; reflexivity|]. vm_compute. reflexivity.
Defined.

(** ** Anomaly Scorer: the feature matrix *)

Lemma column_absent (cfg : FinanceAIConfig) (name : string) (r : FeatureRow) :
  ~ In name (table_columns cfg) -> column cfg name r = None.
Proof.
  intros H. unfold column. cbv zeta.
  repeat match goal with
  | |- context [String.eqb name ?c] =>
      destruct (String.eqb_spec name c) as [E|_];
      [exfalso; apply H; rewrite E; unfold table_columns; simpl; tauto|]
  end.
  reflexivity.
Qed.

Lemma fillna_cell_float (v : Q) (x : pyfloat) :
  fillna_cell v (float_cell x) = float_cell (Fin (fillna v x)).
Proof. now destruct x. Qed.

Lemma fillna_cell_filled (v : Q) (c : cell) :
  fillna_cell v c <> float_cell NaN.
Proof. destruct c as [[q|]| | | | |]; discriminate. Qed.

(** X16: the feature matrix has one row per table row and one entry per
    configured feature column, and no entry of it is missing.  Under the
    default configuration the entries are amount, abs_amount and the 7-
    and 30-day spend, with 0 in place of a missing value, then weekday,
    weekend flag and hour.  A configured column that the table does not
    have is filled with zeros. *)
Theorem feature_matrix_shape (cfg : FinanceAIConfig) (df : list FeatureRow) :
  List.length (_build_feature_matrix cfg df) = List.length df
  /\ Forall (fun row => List.length row
                        = List.length (feature_columns (anomaly cfg)))
            (_build_feature_matrix cfg df)
  /\ Forall (Forall (fun c => c <> float_cell NaN))
            (_build_feature_matrix cfg df)
  /\ _build_feature_matrix default_config df
     = map (fun r => [ float_cell (Fin (fillna 0 (amount (txn r))));
                       float_cell (Fin (fillna 0 (abs_amount (txn r))));
                       float_cell (Fin (fillna 0 (rolling_7d_spend r)));
                       float_cell (Fin (fillna 0 (rolling_30d_spend r)));
                       int_cell (day_of_week (txn r));
                       int_cell (is_weekend (txn r));
                       int_cell (hour (txn r)) ]) df
  /\ (forall name i,
         ~ In name (table_columns cfg) ->
         nth_error (feature_columns (anomaly cfg)) i = Some name ->
         Forall (fun row => nth_error row i = Some (float_cell (Fin 0%Q)))
                (_build_feature_matrix cfg df)).
Proof.
  unfold _build_feature_matrix. split; [apply length_map|]. split.
  { rewrite Forall_map. apply Forall_forall. intros r _. apply length_map. }
  split.
  { rewrite Forall_map. apply Forall_forall. intros r _.
    rewrite Forall_map. apply Forall_forall. intros c _.
    apply fillna_cell_filled. }
  split.
  { apply map_ext. intros r.
    cbn [feature_columns anomaly default_config default_anomaly map].
    unfold column. cbv zeta. simpl (String.eqb _ _). cbv iota.
    now rewrite !fillna_cell_float. }
  intros name i Hn E. rewrite Forall_map. apply Forall_forall. intros r _.
  rewrite nth_error_map, E. simpl.
  now rewrite (column_absent cfg name r Hn).
Qed.

Lemma feature_matrix_shape_witness :
  Forall (fun row => nth_error row 1 = Some (float_cell (Fin 0%Q)))
    (_build_feature_matrix
       {| currency := "BRL"; date_column := "date";
          description_column := "title"; amount_column := "amount";
          income_keywords := []; refund_keywords := [];
          subscription_keywords := []; category_keywords := [];
          anomaly := {| contamination := 5 # 100; random_state := 42;
                        feature_columns := ["amount"; "merchant_rank"] |};
          quality := default_quality; forecast := default_forecast |}
       (engineer_features (fun v => v) two_months)).
Proof.
  apply (feature_matrix_shape _ (engineer_features (fun v => v) two_months))
    with (name := "merchant_rank").
  - vm_compute. intuition discriminate.
  - reflexivity.
Defined.

(** ** Quality Assessor: the monthly table *)

Lemma length_flat_map_groups (A : Type) (gs : list (Z * list A)) :
  Z.of_nat (List.length (flat_map snd gs))
  = Zsum (map (fun kg => Z.of_nat (List.length (snd kg))) gs).
Proof.
  induction gs as [|g gs IH]; simpl; [reflexivity|].
  rewrite length_app, Nat2Z.inj_add, IH. reflexivity.
Qed.

(** X17: the monthly table has one row per distinct calendar month, in
    strictly ascending month order, and every transaction is counted in
    exactly one month: the monthly transaction counts add up to the number
    of rows. *)
Theorem monthly_features_partition (fsqrt : Q -> Q)
    (cfg : FinanceAIConfig) (df : list ScoredRow) :
  let monthly := _build_monthly_features fsqrt cfg df in
  map summary_month monthly = calendar_months df
  /\ StronglySorted Z.lt (map summary_month monthly)
  /\ Zsum (map total_transactions monthly) = Z.of_nat (List.length df)
  /\ Forall (fun f => (1 <= total_transactions f)%Z) monthly.
Proof.
  intros monthly. subst monthly.
  split; [apply monthly_features_months|]. split.
  - rewrite monthly_features_months. apply group_keys_sorted.
  - unfold _build_monthly_features. split.
    + rewrite map_map. cbn [total_transactions month_features].
      rewrite <- length_flat_map_groups.
      f_equal. symmetry. apply Permutation_length. apply groupby_perm.
    + rewrite Forall_map. apply Forall_forall. intros [k g] Hg.
      cbn [total_transactions month_features fst snd].
      apply groupby_nonempty in Hg. destruct g; [congruence|]. simpl. lia.
Qed.

Lemma mean_nonempty (l : list Q) :
  l <> [] -> mean l = Fin (Qsum l / inject_Z (Z.of_nat (List.length l))).
Proof. destruct l; [congruence|reflexivity]. Qed.

Lemma inject_Z_length_pos (A : Type) (l : list A) :
  l <> [] -> (0 < inject_Z (Z.of_nat (List.length l)))%Q.
Proof.
  intros H. destruct l; [congruence|].
  change 0%Q with (inject_Z 0). rewrite <- Zlt_Qlt. simpl. lia.
Qed.

Lemma Qsum_flags_bounds (A : Type) (p : A -> bool) (g : list A) :
  (0 <= Qsum (map (fun r => flag (p r)) g)
   <= inject_Z (Z.of_nat (List.length g)))%Q.
Proof.
  induction g as [|x g [IH1 IH2]].
  - unfold Qsum. simpl. split; apply Qle_refl.
  - cbn [map List.length]. rewrite Qsum_cons.
    rewrite Nat2Z.inj_succ, <- Z.add_1_l, inject_Z_plus.
    assert (F : (0 <= flag (p x) <= 1)%Q).
    { unfold flag. destruct (p x); split; discriminate. }
    destruct F as [F1 F2]. split.
    + rewrite <- (Qplus_0_r 0). now apply Qplus_le_compat.
    + now apply Qplus_le_compat.
Qed.

Lemma flag_ratio_bounds (A : Type) (p : A -> bool) (g : list A) :
  g <> [] ->
  (0 <= fillna 0 (mean (map (fun r => flag (p r)) g)) <= 1)%Q.
Proof.
  intros H. rewrite mean_nonempty by (destruct g; [congruence|discriminate]).
  rewrite length_map. simpl fillna.
  pose proof (inject_Z_length_pos _ g H) as Hn.
  destruct (Qsum_flags_bounds _ p g) as [B1 B2]. split.
  - apply Qle_shift_div_l; [exact Hn|]. now rewrite Qmult_0_l.
  - apply Qle_shift_div_r; [exact Hn|]. now rewrite Qmult_1_l.
Qed.

(** A ratio of flags is positive exactly when some row carries the flag. *)
Lemma flag_ratio_pos (A : Type) (p : A -> bool) (g : list A) :
  g <> [] ->
  (0 < fillna 0 (mean (map (fun r => flag (p r)) g)))%Q
  <-> exists r, In r g /\ p r = true.
Proof.
  intros H. rewrite mean_nonempty by (destruct g; [congruence|discriminate]).
  rewrite length_map. simpl fillna.
  pose proof (inject_Z_length_pos _ g H) as Hn.
  set (n := inject_Z (Z.of_nat (List.length g))) in *.
  assert (S : (0 < Qsum (map (fun r => flag (p r)) g))%Q
              <-> exists r, In r g /\ p r = true).
  { clear. induction g as [|x g IH].
    - split; [intros C; exact (False_ind _ (Qlt_irrefl 0 C))|].
      intros [r [[] _]].
    - cbn [map]. rewrite Qsum_cons.
      pose proof (proj1 (Qsum_flags_bounds _ p g)) as B.
      destruct (p x) eqn:E; cbn [flag].
      + split; [intros _; exists x; split; [now left|exact E]|].
        intros _. apply Qlt_le_trans with (1 + 0)%Q; [reflexivity|].
        apply Qplus_le_compat; [apply Qle_refl|exact B].
      + rewrite Qplus_0_l, IH. split; intros [r [Hr Pr]]; exists r.
        * split; [now right|exact Pr].
        * destruct Hr as [<-|Hr]; [congruence|]. now split. }
  rewrite <- S. split; intros P.
  - destruct (Qlt_le_dec 0 (Qsum (map (fun r => flag (p r)) g)))
      as [L|L]; [exact L|].
    exfalso. apply (Qlt_irrefl 0). eapply Qlt_le_trans; [exact P|].
    apply Qle_shift_div_r; [exact Hn|]. now rewrite Qmult_0_l.
  - apply Qlt_shift_div_l; [exact Hn|]. now rewrite Qmult_0_l.
Qed.

(** X18: in every row of the monthly table the refund, subscription,
    anomaly and missing-amount ratios lie between 0 and 1; the
    missing-amount ratio is positive exactly when a row of the month lacks
    its amount; and a month always has a transaction, so the guard
    [clip(lower=1)] never acts: [expense_per_transaction] and
    [income_per_transaction] are the sums divided by the number of
    transactions.  When no amount of the table is missing, the
    missing-amount ratio is 0 and these two repeat [avg_expense] and
    [avg_income]. *)
Theorem monthly_features_ranges (fsqrt : Q -> Q) (cfg : FinanceAIConfig)
    (df : list ScoredRow) :
  Forall (fun f =>
            (0 <= refund_ratio f <= 1)%Q
            /\ (0 <= subscription_ratio f <= 1)%Q
            /\ (0 <= anomaly_ratio f <= 1)%Q
            /\ (0 <= missing_amount_ratio f <= 1)%Q
            /\ ((0 < missing_amount_ratio f)%Q
                <-> exists r,
                      In r df
                      /\ month (txn (features r)) = summary_month f
                      /\ isna (amount_of cfg (txn (features r))) = true)
            /\ (1 <= total_transactions f)%Z
            /\ expense_per_transaction f
               = (expense_sum f / inject_Z (total_transactions f))%Q
            /\ income_per_transaction f
               = (income_sum f / inject_Z (total_transactions f))%Q)
         (_build_monthly_features fsqrt cfg df)
  /\ (Forall (fun r => isna (amount (txn (features r))) = false
                       /\ isna (amount_of cfg (txn (features r))) = false)
             df ->
      Forall (fun f =>
                (missing_amount_ratio f == 0)%Q
                /\ expense_per_transaction f = avg_expense f
                /\ income_per_transaction f = avg_income f)
             (_build_monthly_features fsqrt cfg df)).
Proof.
  unfold _build_monthly_features. split.
  - rewrite Forall_map.
    apply Forall_forall. intros [k g] Hg.
    pose proof (groupby_nonempty _ _ _ _ Hg) as Hne.
    cbn [fst snd]. unfold month_features.
    cbn [refund_ratio subscription_ratio anomaly_ratio missing_amount_ratio
         expense_per_transaction income_per_transaction expense_sum
         income_sum total_transactions summary_month].
    split; [apply flag_ratio_bounds; exact Hne|].
    split; [apply flag_ratio_bounds; exact Hne|].
    split; [apply flag_ratio_bounds; exact Hne|].
    split; [apply flag_ratio_bounds; exact Hne|].
    split.
    { rewrite (flag_ratio_pos _ _ g Hne).
      unfold groupby in Hg. apply in_map_iff in Hg.
      destruct Hg as [k' [E _]]. inversion E; subst k' g. clear E.
      unfold group_rows. split; intros [r Hr]; exists r.
      - destruct Hr as [Hr Pr]. apply filter_In in Hr.
        destruct Hr as [Hr Hk]. apply Z.eqb_eq in Hk. tauto.
      - destruct Hr as [Hr [Hk Pr]]. split; [|exact Pr].
        apply filter_In. split; [exact Hr|]. now apply Z.eqb_eq. }
    assert (Hmax : Z.max (Z.of_nat (List.length g)) 1
                   = Z.of_nat (List.length g)).
    { destruct g; [congruence|]. simpl List.length. lia. }
    rewrite Hmax. split; [|split; reflexivity].
    destruct g; [congruence|]. simpl List.length. lia.
  - intros Hn. rewrite Forall_map.
    apply Forall_forall. intros [k g] Hg.
    assert (Hgn : Forall (fun r =>
                            isna (amount (txn (features r))) = false
                            /\ isna (amount_of cfg (txn (features r)))
                               = false) g).
    { apply Forall_forall. intros r Hr.
      destruct (groupby_rows _ _ _ _ _ Hg Hr) as [Hin _].
      rewrite Forall_forall in Hn. auto. }
    apply groupby_nonempty in Hg.
    cbn [fst snd]. unfold month_features.
    cbn [missing_amount_ratio expense_per_transaction avg_expense
         income_per_transaction avg_income].
    assert (Hmax : Z.max (Z.of_nat (List.length g)) 1
                   = Z.of_nat (List.length g)).
    { destruct g; [congruence|]. simpl List.length. lia. }
    assert (He : Forall (fun x => isna x = false) (map expense_value g)).
    { rewrite Forall_map. eapply Forall_impl; [|exact Hgn].
      intros r [Hr _]. unfold expense_value. cbv zeta.
      destruct (String.eqb (transaction_type (txn (features r))) "expense");
        [|reflexivity].
      destruct (amount (txn (features r))); [reflexivity|discriminate]. }
    assert (Hi : Forall (fun x => isna x = false) (map income_value g)).
    { rewrite Forall_map. eapply Forall_impl; [|exact Hgn].
      intros r [Hr _]. unfold income_value. cbv zeta.
      destruct (String.eqb (transaction_type (txn (features r))) "expense");
        [reflexivity|exact Hr]. }
    split; [|split].
    + rewrite mean_nonempty by (destruct g; [congruence|discriminate]).
      simpl fillna.
      assert (E : (Qsum (map (fun r => flag (isna (amount_of cfg
                                                     (txn (features r))))) g)
                   == 0)%Q).
      { clear -Hgn. induction Hgn as [|x g [_ Hx] _ IH]; [reflexivity|].
        cbn [map]. rewrite Qsum_cons, IH, Hx. simpl. ring. }
      rewrite E. unfold Qdiv. ring.
    + rewrite Hmax, (dropna_numbers _ He).
      rewrite mean_nonempty by (destruct g; [congruence|discriminate]).
      now rewrite !length_map.
    + rewrite Hmax, (dropna_numbers _ Hi).
      rewrite mean_nonempty by (destruct g; [congruence|discriminate]).
      now rewrite !length_map.
Qed.

Lemma monthly_features_ranges_witness :
  Forall (fun f =>
            (missing_amount_ratio f == 0)%Q
            /\ expense_per_transaction f = avg_expense f
            /\ income_per_transaction f = avg_income f)
         (_build_monthly_features (fun v => v) default_config
            (scored_table two_months)).
Proof.
  apply (monthly_features_ranges (fun v => v) default_config
           (scored_table two_months)).
  vm_compute. repeat constructor.
Defined.

Lemma Qmax_ge_l (a b : Q) : (a <= Qmax a b)%Q.
Proof.
  unfold Qmax. destruct (Qle_bool a b) eqn:E; [|apply Qle_refl].
  now apply Qle_bool_iff.
Qed.

Lemma fold_Qmax_ge (l : list Q) (a : Q) : (a <= fold_left Qmax l a)%Q.
Proof.
  revert a. induction l as [|x l IH]; intros a; simpl; [apply Qle_refl|].
  eapply Qle_trans; [apply Qmax_ge_l|apply IH].
Qed.

Lemma fold_Qmax_le_sum (l : list Q) (a s : Q) :
  Forall (fun x => (0 <= x)%Q) l -> (0 <= a)%Q -> (a <= s)%Q ->
  (fold_left Qmax l a <= s + Qsum l)%Q.
Proof.
  intros H. revert a s. induction H as [|x l Hx _ IH]; intros a s Ha Has.
  - simpl. unfold Qsum. simpl. now rewrite Qplus_0_r.
  - simpl. rewrite Qsum_cons, Qplus_assoc. apply IH.
    + unfold Qmax. destruct (Qle_bool a x); assumption.
    + unfold Qmax. destruct (Qle_bool a x) eqn:E.
      * rewrite <- (Qplus_0_l x) at 1.
        apply Qplus_le_compat; [|apply Qle_refl].
        eapply Qle_trans; eassumption.
      * rewrite <- (Qplus_0_r a) at 1. now apply Qplus_le_compat.
Qed.

(** X19: on a table that keeps the sign convention the monthly expense
    and income sums are non-negative magnitudes, and the largest expense
    of a month lies between 0 and the month's expense sum. *)
Theorem monthly_sums_nonnegative (fsqrt : Q -> Q) (cfg : FinanceAIConfig)
    (df : list ScoredRow) :
  Forall (fun r => classified (txn (features r))) df ->
  Forall (fun f =>
            (0 <= expense_sum f)%Q /\ (0 <= income_sum f)%Q
            /\ (0 <= largest_expense f <= expense_sum f)%Q)
         (_build_monthly_features fsqrt cfg df).
Proof.
  intros Hc. unfold _build_monthly_features. rewrite Forall_map.
  apply Forall_forall. intros [k g] Hg.
  assert (Hgc : Forall (fun r => classified (txn (features r))) g).
  { apply Forall_forall. intros r Hr.
    destruct (groupby_rows _ _ _ _ _ Hg Hr) as [Hin _].
    rewrite Forall_forall in Hc. auto. }
  cbn [fst snd]. unfold month_features.
  cbn [expense_sum income_sum largest_expense].
  assert (He : Forall (fun x => fle (Fin 0) x) (map expense_value g)).
  { rewrite Forall_map. eapply Forall_impl; [|exact Hgc].
    intros r Hr. pose proof (classified_expense_nonpos _ Hr) as H.
    unfold expense_value, expense_amount in *. cbv zeta.
    destruct (String.eqb (transaction_type (txn (features r))) "expense");
      [|apply Qle_refl].
    destruct (amount (txn (features r))) as [q|]; [|destruct H].
    simpl in H |- *.
    rewrite <- (Qopp_involutive 0). now apply Qopp_le_compat. }
  assert (Hi : Forall (fun x => fle (Fin 0) x) (map income_value g)).
  { rewrite Forall_map. eapply Forall_impl; [|exact Hgc].
    intros r Hr. exact (classified_income_nonneg _ Hr). }
  assert (Hnum : forall l, Forall (fun x => fle (Fin 0) x) l ->
                   Forall (fun x => isna x = false) l
                   /\ Forall (fun x => (0 <= x)%Q) (map (fillna 0) l)).
  { intros l H. split; [|rewrite Forall_map];
      (eapply Forall_impl; [|exact H]); intros [q|]; simpl; tauto. }
  destruct (Hnum _ He) as [Hen Hep]. destruct (Hnum _ Hi) as [_ Hip].
  unfold nansum. rewrite (dropna_numbers _ Hen).
  split; [now apply Qsum_nonneg|]. split; [now apply Qsum_nonneg|].
  destruct (map (fillna 0) (map expense_value g)) as [|x l] eqn:E.
  - simpl. unfold Qsum. simpl. split; apply Qle_refl.
  - inversion Hep as [|? ? Hx Hl]; subst. simpl max_of. simpl fillna. split.
    + eapply Qle_trans; [exact Hx|apply fold_Qmax_ge].
    + rewrite Qsum_cons. apply fold_Qmax_le_sum; auto. apply Qle_refl.
Qed.

Lemma monthly_sums_nonnegative_witness :
  Forall (fun f =>
            (0 <= expense_sum f)%Q /\ (0 <= income_sum f)%Q
            /\ (0 <= largest_expense f <= expense_sum f)%Q)
         (_build_monthly_features (fun v => v) default_config
            (scored_table two_months)).
Proof.
  apply (monthly_sums_nonnegative (fun v => v) default_config
           (scored_table two_months)).
  apply Forall_forall. intros r Hr.
  apply detect_anomalies_features in Hr.
  apply engineer_features_txn in Hr.
  pose proof (processed_rows_classified default_config
                [ raw_row (timestamp 2024 1 10 0) "Padaria" 30;
                  raw_row (timestamp 2024 1 20 0) "Uber Trip" 10;
                  raw_row (timestamp 2024 2 10 0) "Padaria" 20 ]
                ltac:(repeat constructor)) as H.
  rewrite Forall_forall in H. exact (H _ Hr).
Defined.

(** X20: in every branch of [score] the summary has one row per calendar
    month of the table, in month order; no model is returned exactly when
    the table has fewer months than [min_months] (or none at all); and a
    month is flagged only by a fitted model, on a score below the
    threshold. *)
Theorem score_summary_structure (fsqrt : Q -> Q)
    (svm : QualityConfig -> list MonthlyFeatures -> MonthlyFeatures -> Q)
    (cfg : FinanceAIConfig) (df : list ScoredRow) :
  let res := score fsqrt svm cfg df in
  map (fun s => summary_month (monthly s)) (monthly_summary res)
    = calendar_months df
  /\ threshold res = score_threshold (quality cfg)
  /\ (model res = None
      <-> calendar_months df = []
          \/ (Z.of_nat (List.length (calendar_months df))
              < min_months (quality cfg))%Z)
  /\ Forall (fun s =>
               quality_flag s = true ->
               model res <> None
               /\ exists q, quality_score s = Fin q
                            /\ (q < score_threshold (quality cfg))%Q)
            (monthly_summary res).
Proof.
  intros res. subst res. unfold score.
  rewrite <- (monthly_features_months fsqrt cfg df).
  destruct (_build_monthly_features fsqrt cfg df) as [|f fs] eqn:E.
  - simpl. repeat split; auto.
  - rewrite length_map.
    destruct (Z.of_nat (List.length (f :: fs)) <? min_months (quality cfg))%Z
      eqn:L; cbn [monthly_summary model threshold].
    + apply Z.ltb_lt in L. split; [now rewrite map_map|].
      split; [reflexivity|]. split; [split; auto|].
      rewrite Forall_map. apply Forall_forall. intros x _. simpl. discriminate.
    + apply Z.ltb_ge in L. split; [now rewrite map_map|].
      split; [reflexivity|]. split.
      * split; [discriminate|]. intros [H|H]; [discriminate|lia].
      * rewrite Forall_map. apply Forall_forall. intros x _. simpl.
        intros Hq. split; [discriminate|]. eexists. split; [reflexivity|].
        now apply Qltb_lt.
Qed.

(** ** Forecaster: outcomes, history and projected months *)

(** X21: [forecast_expenses] returns in every case, and the history of
    its result is the monthly expense series.  With fewer than three months
    of expenses the forecast has max(horizon, 1) entries and the summary of
    the simple mean; with at least three months and a fit that returns, the
    forecast and the summary are the fit's own; with a fit that raises the
    forecast has max(horizon, 0) entries, all equal to the mean of the
    history, and the summary quotes the exception. *)
Theorem forecast_expenses_outcomes
    (exponential_smoothing : series Q -> ForecastConfig -> HoltWinters)
    (now : Z) (cfg : FinanceAIConfig) (df : list Transaction) :
  let res := forecast_expenses exponential_smoothing now cfg df in
  let monthly := _prepare_monthly_expenses df cfg in
  history res = monthly
  /\ ((List.length (expense_months df) < 3)%nat ->
      List.length (forecast_series res)
      = Z.to_nat (Z.max (horizon_months (forecast cfg)) 1)
      /\ model_summary res = "Media simples por falta de dados.")
  /\ ((3 <= List.length (expense_months df))%nat ->
      forall future summary,
        exponential_smoothing monthly (forecast cfg)
          = hw_fitted future summary ->
        forecast_series res = future /\ model_summary res = summary)
  /\ ((3 <= List.length (expense_months df))%nat ->
      forall exc,
        exponential_smoothing monthly (forecast cfg) = hw_raised exc ->
        List.length (forecast_series res)
        = Z.to_nat (Z.max (horizon_months (forecast cfg)) 0)
        /\ Forall (fun e => snd e = mean (map snd monthly))
                  (forecast_series res)
        /\ model_summary res
           = String.append "Holt-Winters falhou ("
               (String.append exc "); utilizando media.")).
Proof.
  intros res monthly. subst res monthly. split; [|split; [|split]].
  - unfold forecast_expenses.
    destruct (List.length (_prepare_monthly_expenses df cfg) <? 3)%nat;
      [reflexivity|].
    destruct (exponential_smoothing _ _); reflexivity.
  - intros L.
    destruct (forecast_short_history exponential_smoothing now cfg df L)
      as [index [Hlen E]].
    rewrite E. cbn [forecast_series model_summary].
    rewrite constant_series_length. now split.
  - intros G future summary E. unfold forecast_expenses.
    rewrite <- (monthly_expenses_length df cfg) in G.
    apply Nat.ltb_ge in G. rewrite G, E. now split.
  - intros G exc E.
    destruct (forecast_failed_fit exponential_smoothing now cfg df exc G E)
      as [index [Hlen R]].
    rewrite R. cbn [forecast_series model_summary].
    rewrite constant_series_length.
    split; [lia|]. split; [apply constant_series_values|reflexivity].
Qed.

Lemma forecast_expenses_outcomes_witness :
  List.length (forecast_series
                 (forecast_expenses failing_fit 0 default_config two_months))
  = Z.to_nat (Z.max (horizon_months (forecast default_config)) 1)
  /\ model_summary (forecast_expenses failing_fit 0 default_config two_months)
     = "Media simples por falta de dados.".
Proof.
  apply (forecast_expenses_outcomes failing_fit 0 default_config two_months).
  vm_compute. lia.
Defined.


Lemma amount_of_default (cfg : FinanceAIConfig) (r : Transaction) :
  amount_column cfg = "amount" -> amount_of cfg r = amount r.
Proof. intros E. unfold amount_of. now rewrite E. Qed.

(** X23: when the amount column is "amount" and the table keeps the sign
    convention, every monthly total of the history is a non-negative
    magnitude. *)
Theorem monthly_history_nonnegative (cfg : FinanceAIConfig)
    (df : list Transaction) :
  amount_column cfg = "amount" ->
  Forall classified df ->
  Forall (fun e => (0 <= snd e)%Q) (_prepare_monthly_expenses df cfg).
Proof.
  intros Ea Hc. unfold _prepare_monthly_expenses. rewrite Forall_map.
  apply Forall_forall. intros [k g] Hg. cbn [snd].
  rewrite <- (Qopp_involutive 0). apply Qopp_le_compat.
  apply Qsum_nonpos. rewrite !Forall_map. apply Forall_forall. intros r Hr.
  destruct (groupby_rows _ _ _ _ _ Hg Hr) as [Hin _].
  apply filter_In in Hin. destruct Hin as [Hin He].
  rewrite (amount_of_default cfg r Ea).
  rewrite Forall_forall in Hc.
  pose proof (classified_expense_nonpos r (Hc r Hin)) as H.
  unfold expense_amount in H. rewrite He in H.
  destruct (amount r); [exact H|destruct H].
Qed.

Lemma monthly_history_nonnegative_witness :
  Forall (fun e => (0 <= snd e)%Q)
         (_prepare_monthly_expenses two_months default_config).
Proof.
  apply (monthly_history_nonnegative default_config two_months).
  - reflexivity.
  - apply processed_rows_classified. repeat constructor.
Defined.

Lemma sorted_map_seq (f : nat -> Z) (a n : nat) :
  (forall i j, (i < j)%nat -> (f i < f j)%Z) ->
  StronglySorted Z.lt (map f (seq a n)).
Proof.
  intros Hf. revert a. induction n as [|n IH]; intros a; simpl; constructor.
  - apply IH.
  - rewrite Forall_map. apply Forall_forall. intros j Hj.
    apply in_seq in Hj. apply Hf. lia.
Qed.

Lemma tl_map_seq (A : Type) (f : nat -> A) (n : nat) :
  tl (map f (seq 0 n)) = map f (seq 1 (n - 1)).
Proof. destruct n; simpl; [reflexivity|]. now rewrite Nat.sub_0_r. Qed.

Lemma day_start_lt (d1 d2 : Z) :
  (d1 < d2)%Z -> (day_start d1 < day_start d2)%Z.
Proof. unfold day_start, ns_per_day. lia. Qed.

Lemma time_of_day_nonneg (t : Z) : (0 <= t mod ns_per_day)%Z.
Proof. apply Z.mod_pos_bound. unfold ns_per_day. lia. Qed.

Lemma date_range_M_tail (start periods : Z) :
  StronglySorted Z.lt (tl (date_range_M start periods))
  /\ Forall (fun t => (start < t)%Z) (tl (date_range_M start periods)).
Proof.
  unfold date_range_M. rewrite tl_map_seq.
  pose proof (time_of_day_nonneg start) as Htod.
  generalize dependent (start mod ns_per_day)%Z. intros tod Htod.
  split.
  - apply sorted_map_seq. intros i j Hij.
    pose proof (day_start_lt _ _
                  (month_end_lt (month_of start + Z.of_nat i)
                     (month_of start + Z.of_nat j) ltac:(lia))).
    lia.
  - rewrite Forall_map. apply Forall_forall. intros k Hk. apply in_seq in Hk.
    pose proof (month_label_after start (month_of start + Z.of_nat k)
                  ltac:(lia)).
    lia.
Qed.

Lemma constant_series_index (v : pyfloat) (index : list Z) :
  map fst (constant_series v index) = index.
Proof. unfold constant_series. rewrite map_map. apply map_id. Qed.

(** X24: in both fallback branches (fewer than three months of
    expenses, or a fit that raises) the projected months come in strictly
    ascending order and every one is later than the last month of the
    history, or than the current time when there is no history. *)
Theorem fallback_forecast_months
    (exponential_smoothing : series Q -> ForecastConfig -> HoltWinters)
    (now : Z) (cfg : FinanceAIConfig) (df : list Transaction) :
  (List.length (expense_months df) < 3)%nat
  \/ (exists e, exponential_smoothing (_prepare_monthly_expenses df cfg)
                  (forecast cfg) = hw_raised e) ->
  let res := forecast_expenses exponential_smoothing now cfg df in
  StronglySorted Z.lt (map fst (forecast_series res))
  /\ Forall (fun e =>
               (match last_index (history res) with
                | Some t => t
                | None => now
                end < fst e)%Z)
            (forecast_series res).
Proof.
  intros H res. subst res. unfold forecast_expenses.
  rewrite <- (monthly_expenses_length df cfg) in H.
  set (monthly := _prepare_monthly_expenses df cfg) in *.
  set (start := match last_index monthly with Some t => t | None => now end).
  assert (G : forall v summary periods,
             let res := {| history := monthly;
                           forecast_series :=
                             constant_series v
                               (tl (date_range_M start periods));
                           model_summary := summary |} in
             StronglySorted Z.lt (map fst (forecast_series res))
             /\ Forall (fun e =>
                          (match last_index (history res) with
                           | Some t => t
                           | None => now
                           end < fst e)%Z)
                       (forecast_series res)).
  { intros v summary periods res. subst res.
    cbn [forecast_series history]. fold start.
    destruct (date_range_M_tail start periods) as [Hs Ha].
    rewrite constant_series_index. split; [exact Hs|].
    rewrite <- (constant_series_index v (tl (date_range_M start periods)))
      in Ha.
    now rewrite Forall_map in Ha. }
  destruct (Nat.ltb_spec (List.length monthly) 3) as [L|L].
  - apply G.
  - destruct H as [H|[e He]]; [lia|].
    rewrite He. apply G.
Qed.

Lemma fallback_forecast_months_witness :
  let res := forecast_expenses failing_fit 0 default_config two_months in
  StronglySorted Z.lt (map fst (forecast_series res))
  /\ Forall (fun e =>
               (match last_index (history res) with
                | Some t => t
                | None => 0%Z
                end < fst e)%Z)
            (forecast_series res).
Proof.
  apply (fallback_forecast_months failing_fit 0 default_config two_months).
  left. vm_compute. lia.
Defined.

(** ** Insight Composer: groups by label and sorted tables *)

Lemma insert_string_perm (k : string) (l : list string) :
  Permutation (insert_string k l) (k :: l).
Proof.
  induction l as [|y l IH]; simpl; [reflexivity|].
  destruct (String.leb k y); [reflexivity|].
  rewrite IH. apply perm_swap.
Qed.

Lemma sort_strings_perm (l : list string) : Permutation (sort_strings l) l.
Proof.
  induction l as [|x l IH]; simpl; [reflexivity|].
  rewrite insert_string_perm. now apply perm_skip.
Qed.

Section TextGroups.
Context {A : Type} (key : A -> string).

Lemma group_labels_NoDup (l : list A) : NoDup (group_labels key l).
Proof.
  unfold group_labels.
  apply (Permutation_NoDup (Permutation_sym (sort_strings_perm _))).
  apply NoDup_nodup.
Qed.

Lemma group_labels_In (k : string) (l : list A) :
  In k (group_labels key l) <-> exists x, In x l /\ key x = k.
Proof.
  unfold group_labels. split.
  - intros H. apply (Permutation_in _ (sort_strings_perm _)) in H.
    apply nodup_In, in_map_iff in H. destruct H as [x [E Hx]]. now exists x.
  - intros [x [Hx E]].
    apply (Permutation_in _ (Permutation_sym (sort_strings_perm _))).
    apply nodup_In, in_map_iff. now exists x.
Qed.


End TextGroups.

Section SortedTables.
Context {A : Type} (key : A -> Q).

Lemma insert_desc_perm (x : A) (l : list A) :
  Permutation (insert_desc key x l) (x :: l).
Proof.
  induction l as [|y l IH]; simpl; [reflexivity|].
  destruct (Qle_bool (key y) (key x)); [reflexivity|].
  rewrite IH. apply perm_swap.
Qed.

Lemma sort_descending_perm (l : list A) :
  Permutation (sort_descending key l) l.
Proof.
  induction l as [|x l IH]; simpl; [reflexivity|].
  rewrite insert_desc_perm. now apply perm_skip.
Qed.

Lemma Qle_bool_false (a b : Q) : Qle_bool a b = false -> (b <= a)%Q.
Proof.
  intros E. destruct (Qlt_le_dec b a) as [H|H]; [now apply Qlt_le_weak|].
  apply Qle_bool_iff in H. congruence.
Qed.

Lemma insert_desc_sorted (x : A) (l : list A) :
  descending key l -> descending key (insert_desc key x l).
Proof.
  unfold descending. induction 1 as [|y l Hs IH Hy]; simpl.
  - repeat constructor.
  - destruct (Qle_bool (key y) (key x)) eqn:E.
    + apply Qle_bool_iff in E. constructor; [constructor; assumption|].
      constructor; [exact E|].
      eapply Forall_impl; [|exact Hy]. intros z Hz. cbv beta in *.
      now apply Qle_trans with (key y).
    + apply Qle_bool_false in E. constructor; [exact IH|].
      apply Forall_forall. intros z Hz.
      apply (Permutation_in _ (insert_desc_perm x l)) in Hz.
      destruct Hz as [<-|Hz]; [exact E|].
      rewrite Forall_forall in Hy. auto.
Qed.

Lemma sort_descending_sorted (l : list A) :
  descending key (sort_descending key l).
Proof.
  induction l as [|x l IH]; simpl; [constructor|].
  now apply insert_desc_sorted.
Qed.





End SortedTables.

(** ** Insight Composer: the category breakdown *)

Lemma category_breakdown_perm (df : list Transaction) :
  Permutation
    (_build_category_breakdown df)
    (map (fun k =>
            (k, Qabs (nansum (map amount (expense_group category k df)))))
         (group_labels category (expense_rows df))).
Proof.
  unfold _build_category_breakdown. rewrite sort_descending_perm.
  unfold groupby_text. rewrite map_map. reflexivity.
Qed.

(** X27: the category breakdown has one row per category that has an
    expense, each category once; the total of a category is the absolute
    value of the sum of the stored amounts of its expenses (a missing
    amount counting as zero), so it is never negative; and the rows come in
    descending order of the total. *)
Theorem category_breakdown_structure (df : list Transaction) :
  let breakdown := _build_category_breakdown df in
  NoDup (map fst breakdown)
  /\ (forall c, In c (map fst breakdown)
                <-> exists r, In r (expense_rows df) /\ category r = c)
  /\ (forall c total, In (c, total) breakdown ->
        total = Qabs (nansum (map amount (expense_group category c df)))
        /\ (0 <= total)%Q)
  /\ descending snd breakdown.
Proof.
  cbv zeta. pose proof (category_breakdown_perm df) as P.
  assert (L : Permutation (map fst (_build_category_breakdown df))
                          (group_labels category (expense_rows df))).
  { rewrite (Permutation_map fst P), map_map. simpl. now rewrite map_id. }
  split; [|split; [|split]].
  - apply (Permutation_NoDup (Permutation_sym L)), group_labels_NoDup.
  - intros c. rewrite <- group_labels_In. split; intros H.
    + now apply (Permutation_in _ L).
    + now apply (Permutation_in _ (Permutation_sym L)).
  - intros c total H. apply (Permutation_in _ P), in_map_iff in H.
    destruct H as [k [E _]]. inversion E; subst.
    split; [reflexivity|apply Qabs_nonneg].
  - apply sort_descending_sorted.
Qed.

(** ** Insight Composer: recurring merchants *)








(** ** Insight Composer: the report *)



